(** * Certificate generator: coordinate scaling, dual renderers,
      certificate identifiers and the certificate routes.

    A shallow embedding of
      - services/certificateGenerator.js  (font tables, generatePNG,
        generatePDF, generateCertificate),
      - models/Certificate.js             (generateNextId, archive),
      - routes/certificate.js             (create, download, bulk delete),
    followed by the properties of the specification. *)

From Stdlib Require Import ZArith QArith Qcanon List String Ascii Bool Lia.
From Stdlib Require Import Floats.PrimFloat Numbers.Cyclic.Int63.Uint63.
From Stdlib Require Import Numbers.DecimalString.
Import ListNotations.

Set Implicit Arguments.
Open Scope string_scope.
Open Scope list_scope.

(* ================================================================== *)
(** * JavaScript numbers *)
(* ================================================================== *)

(** The renderers use three things of a JavaScript number: division,
    multiplication and truthiness (the left operand of [||]).  They are
    written once against this interface, so what is proved about them in
    general holds for every arithmetic, IEEE binary64 included. *)
Class JSNumber (num : Type) : Type := {
  lit : Z -> num;              (* an integer literal / integer value *)
  ndiv : num -> num -> num;    (* a / b *)
  nmul : num -> num -> num;    (* a * b *)
  truthy : num -> bool         (* ToBoolean: false at 0, -0 and NaN *)
}.

(** ** Exact arithmetic with the IEEE special values.

    Finite numbers are rationals (no rounding, no negative zero); division
    by zero and the arithmetic of infinities follow IEEE 754, which is what
    JavaScript does. *)
Module Exact.

Inductive xnum : Type :=
| Fin (q : Qc)
| PInf
| NInf
| NaN.

Definition sign (q : Qc) : comparison := (q ?= 0)%Qc.

Definition flip (c : comparison) (a : xnum) : xnum :=
  match c, a with
  | Lt, PInf => NInf
  | Lt, NInf => PInf
  | _, _ => a
  end.

Definition xdiv (a b : xnum) : xnum :=
  match a, b with
  | NaN, _ | _, NaN => NaN
  | Fin p, Fin q =>
      match sign q with
      | Eq => match sign p with Eq => NaN | Gt => PInf | Lt => NInf end
      | _ => Fin (p / q)%Qc
      end
  | Fin _, _ => Fin 0%Qc
  | _, Fin q => flip (sign q) a
  | _, _ => NaN
  end.

Definition xmul (a b : xnum) : xnum :=
  match a, b with
  | NaN, _ | _, NaN => NaN
  | Fin p, Fin q => Fin (p * q)%Qc
  | Fin p, i | i, Fin p =>
      match sign p with Eq => NaN | c => flip c i end
  | PInf, PInf | NInf, NInf => PInf
  | _, _ => NInf
  end.

Definition xtruthy (a : xnum) : bool :=
  match a with
  | Fin q => match sign q with Eq => false | _ => true end
  | NaN => false
  | _ => true
  end.

Definition of_Q (q : Q) : xnum := Fin (Q2Qc q).

Definition of_Z (z : Z) : xnum := of_Q (inject_Z z).

Definition xeqb (a b : xnum) : bool :=
  match a, b with
  | Fin p, Fin q => Qeq_bool p q
  | PInf, PInf | NInf, NInf | NaN, NaN => true
  | _, _ => false
  end.

#[global] Instance xnum_number : JSNumber xnum :=
  {| lit := of_Z; ndiv := xdiv; nmul := xmul; truthy := xtruthy |}.

(** A finite, strictly positive number: what the width and the height of a
    decoded image are. *)
Definition positive_finite (a : xnum) : bool :=
  match a with
  | Fin q => match sign q with Gt => true | _ => false end
  | _ => false
  end.

Definition is_zero (a : xnum) : bool :=
  match a with
  | Fin q => match sign q with Eq => true | _ => false end
  | _ => false
  end.

End Exact.

(** ** IEEE 754 binary64, as the JavaScript engine computes. *)
Module Binary64.

Definition of_Z (z : Z) : float :=
  match z with
  | Zneg p => PrimFloat.opp (PrimFloat.of_uint63 (Uint63.of_Z (Zpos p)))
  | _ => PrimFloat.of_uint63 (Uint63.of_Z z)
  end.

Definition ftruthy (f : float) : bool :=
  negb (PrimFloat.eqb f PrimFloat.zero) && PrimFloat.eqb f f.

#[global] Instance float_number : JSNumber float :=
  {| lit := of_Z; ndiv := PrimFloat.div; nmul := PrimFloat.mul;
     truthy := ftruthy |}.

End Binary64.

(* ================================================================== *)
(** * Results of code that can throw *)
(* ================================================================== *)

Inductive result (A : Type) : Type :=
| Ok (a : A)
| Throw (message : string).

Arguments Ok {A} a.
Arguments Throw {A} message.

Definition bind {A B : Type} (r : result A) (k : A -> result B) : result B :=
  match r with
  | Ok a => k a
  | Throw m => Throw m
  end.

Notation "x <- r ;; k" := (bind r (fun x => k))
  (at level 61, r at next level, right associativity).

Definition is_ok {A : Type} (r : result A) : bool :=
  match r with Ok _ => true | Throw _ => false end.

(** [a || d] on strings: the empty string and a missing value are falsy. *)
Definition or_string (a : option string) (d : string) : string :=
  match a with
  | Some s => if String.eqb s "" then d else s
  | None => d
  end.

(** [a || d] on numbers. *)
Definition or_number {num : Type} `{JSNumber num} (a : option num) (d : num) : num :=
  match a with
  | Some n => if truthy n then n else d
  | None => d
  end.

(* ================================================================== *)
(** * The documents: models/Template.js and models/Certificate.js *)
(* ================================================================== *)

Module Schema.

(** The two kinds of placeholder the schemas allow ([enum: ['name', 'id']]). *)
Inductive PlaceholderType : Type := TName | TId.

Definition type_key (t : PlaceholderType) : string :=
  match t with TName => "name" | TId => "id" end.

(** [status] of a certificate ([enum: ['pending', 'generated', 'failed',
    'archived']]). *)
Inductive Status : Type := pending | generated | failed | archived.

Definition Status_eqb (a b : Status) : bool :=
  match a, b with
  | pending, pending | generated, generated
  | failed, failed | archived, archived => true
  | _, _ => false
  end.

(** The two output formats. *)
Inductive Format : Type := fmt_pdf | fmt_png.

Definition format_ext (f : Format) : string :=
  match f with fmt_pdf => "pdf" | fmt_png => "png" end.

Section Documents.

Context {num : Type}.

(** A placeholder as the template document carries it.  The style fields are
    optional: the renderers supply their own defaults with [||]. *)
Record Placeholder : Type := {
  p_type : PlaceholderType;
  p_x : num;
  p_y : num;
  p_fontSize : option num;
  p_fontFamily : option string;
  p_color : option string;
  p_fontWeight : option string;
  p_textAlign : option string;
  p_rotation : option num
}.

Record Dimensions : Type := {
  dim_width : num;
  dim_height : num
}.

Record Template : Type := {
  t_id : N;
  t_name : string;
  t_filename : string;
  t_dimensions : Dimensions;
  t_placeholders : list Placeholder;
  t_isActive : bool;
  t_createdBy : N;
  t_usageCount : N
}.

(** [templateSnapshot] of a certificate. *)
Record TemplateSnapshot : Type := {
  ts_name : string;
  ts_filename : string;
  ts_placeholders : list Placeholder;
  ts_dimensions : Dimensions
}.

(** One entry of [generatedFiles]. *)
Record FileInfo : Type := {
  fi_filename : string;
  fi_path : string;
  fi_size : N;
  fi_url : string
}.

(** [generatedFiles]; [{}] is both entries absent. *)
Record GeneratedFiles : Type := {
  gf_pdf : option FileInfo;
  gf_png : option FileInfo
}.

Definition no_files : GeneratedFiles := {| gf_pdf := None; gf_png := None |}.

Record Metadata : Type := {
  md_generationTime : N;
  md_ipAddress : string;
  md_userAgent : string;
  md_downloadCount : N
}.

Record Certificate : Type := {
  c_id : N;                            (* _id *)
  certificateId : string;
  c_participantName : string;
  c_template : N;
  c_templateSnapshot : TemplateSnapshot;
  c_generatedFiles : GeneratedFiles;
  c_status : Status;
  c_metadata : Metadata;
  c_createdBy : N;
  c_isActive : bool;
  c_tags : list string;
  c_notes : string
}.

(** [containerDimensions] of the request body: the width and the height of
    the editor's container, numbers as the page measures them; the object and
    each of its fields may be absent. *)
Record ContainerDimensions : Type := {
  cd_width : option num;
  cd_height : option num
}.

(** [placeholderValues] of the request body: an object indexed by the
    placeholder type, its values the strings typed into the form. *)
Record PlaceholderValues : Type := {
  pv_name : option string;
  pv_id : option string
}.

Definition pv_get (values : PlaceholderValues) (t : PlaceholderType) : option string :=
  match t with TName => pv_name values | TId => pv_id values end.

(** A decoded template image ([loadImage]). *)
Record Image : Type := {
  img_width : num;
  img_height : num
}.

End Documents.

Arguments Placeholder : clear implicits.
Arguments Dimensions : clear implicits.
Arguments Template : clear implicits.
Arguments TemplateSnapshot : clear implicits.
Arguments Certificate : clear implicits.
Arguments ContainerDimensions : clear implicits.
Arguments Image : clear implicits.

End Schema.

(* ================================================================== *)
(** * services/certificateGenerator.js *)
(* ================================================================== *)

Module Generator.

Import Schema.

(** ** The font tables ([initializeFontMap]) *)

Inductive FontTable : Type := canvas | pdf.

Definition sans_serif_fonts : list string :=
  ["Inter"; "Roboto"; "Open Sans"; "Lato"; "Montserrat"; "Source Sans Pro";
   "Raleway"; "Ubuntu"; "Nunito"; "Poppins"; "Oswald"; "Mukti"; "Fira Sans";
   "PT Sans"; "Dosis"; "Quicksand"; "Work Sans"; "Rubik"; "Barlow"; "Oxygen"].

Definition serif_fonts : list string :=
  ["Playfair Display"; "Merriweather"; "Lora"; "PT Serif"; "Crimson Text";
   "Libre Baskerville"; "Source Serif Pro"; "Cormorant Garamond";
   "EB Garamond"; "Vollkorn"; "Bitter"; "Arvo"; "Rokkitt"; "Alegreya";
   "Cardo"].

Definition monospace_fonts : list string :=
  ["Fira Code"; "Source Code Pro"; "JetBrains Mono"; "Roboto Mono";
   "Ubuntu Mono"; "Space Mono"; "Inconsolata"; "Anonymous Pro"].

Definition display_fonts : list string :=
  ["Dancing Script"; "Pacifico"; "Lobster"; "Righteous"; "Fredoka One";
   "Comfortaa"; "Kalam"; "Caveat"; "Satisfy"; "Great Vibes"; "Amatic SC";
   "Bangers"].

Definition all_to (target : string) (names : list string) : list (string * string) :=
  map (fun n => (n, target)) names.

Definition initializeFontMap (t : FontTable) : list (string * string) :=
  match t with
  | canvas =>
      all_to "Arial" sans_serif_fonts
      ++ all_to "Times New Roman" serif_fonts
      ++ all_to "Courier New" monospace_fonts
      ++ all_to "Arial" display_fonts
      ++ [("Arial", "Arial"); ("Times New Roman", "Times New Roman");
          ("Helvetica", "Arial"); ("Georgia", "Georgia");
          ("Verdana", "Verdana"); ("Courier New", "Courier New")]
  | pdf =>
      all_to "Helvetica" sans_serif_fonts
      ++ all_to "Times-Roman" serif_fonts
      ++ all_to "Courier" monospace_fonts
      ++ all_to "Helvetica" display_fonts
      ++ [("Arial", "Helvetica"); ("Times New Roman", "Times-Roman");
          ("Helvetica", "Helvetica"); ("Georgia", "Times-Roman");
          ("Verdana", "Helvetica"); ("Courier New", "Courier")]
  end.

Fixpoint lookup_font (table : list (string * string)) (family : string) : option string :=
  match table with
  | [] => None
  | (k, v) :: rest => if String.eqb k family then Some v else lookup_font rest family
  end.

(** The names of the properties the two tables, being object literals,
    inherit from [Object.prototype].  Indexed by one of them the table gives
    a function (or the prototype itself), not a font name. *)
Definition inherited_names : list string :=
  ["constructor"; "__defineGetter__"; "__defineSetter__"; "hasOwnProperty";
   "__lookupGetter__"; "__lookupSetter__"; "isPrototypeOf";
   "propertyIsEnumerable"; "toString"; "valueOf"; "__proto__"; "toLocaleString"].

(** A font family for which indexing the tables reads their own keys only. *)
Definition plain_family (fontFamily : string) : bool :=
  negb (existsb (String.eqb fontFamily) inherited_names).

(** [this.fontMap[type][fontFamily] || (type === 'pdf' ? 'Helvetica' : 'Arial')].
    The tables are read by their own keys: this is what the code returns for
    a [plain_family].  For an inherited name the code returns the inherited
    value instead (and PDFKit throws on it), which a font name of type
    [string] does not express. *)
Definition getSystemFont (fontFamily : string) (type : FontTable) : string :=
  or_string (lookup_font (initializeFontMap type) fontFamily)
            (match type with pdf => "Helvetica" | canvas => "Arial" end).

Section Renderers.

Context {num : Type} `{JSNumber num}.

(** [placeholderValues[placeholder.type] || ''].  Indexing [undefined]
    (no [placeholderValues] in the request) is a TypeError. *)
Definition resolveValue (placeholderValues : option PlaceholderValues)
    (placeholder : Placeholder num) : result string :=
  match placeholderValues with
  | None => Throw "Cannot read properties of undefined"
  | Some values => Ok (or_string (pv_get values (p_type placeholder)) "")
  end.

(** [containerDimensions?.width] and [containerDimensions?.height]. *)
Definition cd_width_opt (containerDimensions : option (ContainerDimensions num)) : option num :=
  match containerDimensions with Some c => cd_width c | None => None end.

Definition cd_height_opt (containerDimensions : option (ContainerDimensions num)) : option num :=
  match containerDimensions with Some c => cd_height c | None => None end.

(** ** The raster renderer *)

(** One [ctx.fillText] with the context state set just before it. *)
Record CanvasText : Type := {
  ct_fontWeight : string;
  ct_fontSize : num;
  ct_fontFamily : string;
  ct_fillStyle : string;
  ct_textAlign : string;
  ct_textBaseline : string;
  ct_value : string;
  ct_x : num;
  ct_y : num
}.

Record PngDocument : Type := {
  png_width : num;
  png_height : num;
  png_background : string;
  png_texts : list CanvasText
}.

(** Lines 228-238 of generatePNG: display size and scale factors. *)
Definition pngDisplaySize (templateImage : Image num)
    (containerDimensions : option (ContainerDimensions num)) : num * num :=
  let actualWidth := img_width templateImage in
  let actualHeight := img_height templateImage in
  let frontendDisplayWidth := or_number (cd_width_opt containerDimensions) (lit 800) in
  let frontendDisplayHeight :=
    or_number (cd_height_opt containerDimensions)
              (ndiv (nmul frontendDisplayWidth actualHeight) actualWidth) in
  (frontendDisplayWidth, frontendDisplayHeight).

Definition pngScale (templateImage : Image num)
    (containerDimensions : option (ContainerDimensions num)) : num * num :=
  let actualWidth := img_width templateImage in
  let actualHeight := img_height templateImage in
  let '(frontendDisplayWidth, frontendDisplayHeight) :=
    pngDisplaySize templateImage containerDimensions in
  let scaleX := ndiv actualWidth frontendDisplayWidth in
  let scaleY := ndiv actualHeight frontendDisplayHeight in
  (scaleX, scaleY).

(** The body of the [forEach] of generatePNG for one placeholder. *)
Definition pngPlaceholder (scaleX scaleY : num)
    (placeholderValues : option PlaceholderValues) (placeholder : Placeholder num)
    : result (list CanvasText) :=
  value <- resolveValue placeholderValues placeholder ;;
  if String.eqb value "" then Ok []
  else
    let scaledX := nmul (p_x placeholder) scaleX in
    let scaledY := nmul (p_y placeholder) scaleY in
    let scaledFontSize := nmul (or_number (p_fontSize placeholder) (lit 24)) scaleX in
    let fontFamily := or_string (p_fontFamily placeholder) "Arial" in
    let systemFont := getSystemFont fontFamily canvas in
    let fontWeight := or_string (p_fontWeight placeholder) "normal" in
    Ok [ {| ct_fontWeight := fontWeight;
            ct_fontSize := scaledFontSize;
            ct_fontFamily := systemFont;
            ct_fillStyle := or_string (p_color placeholder) "#000000";
            ct_textAlign := or_string (p_textAlign placeholder) "left";
            ct_textBaseline := "top";
            ct_value := value;
            ct_x := scaledX;
            ct_y := scaledY |} ].

(** [template.placeholders.forEach(...)]: in order, stopping at the first
    exception. *)
Fixpoint pngOverlay (scaleX scaleY : num)
    (placeholderValues : option PlaceholderValues)
    (placeholders : list (Placeholder num)) : result (list CanvasText) :=
  match placeholders with
  | [] => Ok []
  | placeholder :: rest =>
      drawn <- pngPlaceholder scaleX scaleY placeholderValues placeholder ;;
      more <- pngOverlay scaleX scaleY placeholderValues rest ;;
      Ok (drawn ++ more)
  end.

(** ** The vector renderer *)

(** One [doc.text] with the document state set just before it. *)
Record PdfText : Type := {
  pt_font : string;
  pt_fontSize : num;
  pt_fillColor : string;
  pt_value : string;
  pt_x : num;
  pt_y : num;
  pt_align : string
}.

Record PdfDocument : Type := {
  pdf_width : num;
  pdf_height : num;
  pdf_background : string;
  pdf_texts : list PdfText
}.

(** Lines 316-326 of generatePDF: display size and scale factors. *)
Definition pdfDisplaySize (templateImage : Image num)
    (containerDimensions : option (ContainerDimensions num)) : num * num :=
  let actualWidth := img_width templateImage in
  let actualHeight := img_height templateImage in
  let frontendDisplayWidth := or_number (cd_width_opt containerDimensions) (lit 800) in
  let frontendDisplayHeight :=
    or_number (cd_height_opt containerDimensions)
              (ndiv (nmul frontendDisplayWidth actualHeight) actualWidth) in
  (frontendDisplayWidth, frontendDisplayHeight).

Definition pdfScale (templateImage : Image num)
    (containerDimensions : option (ContainerDimensions num)) : num * num :=
  let actualWidth := img_width templateImage in
  let actualHeight := img_height templateImage in
  let '(frontendDisplayWidth, frontendDisplayHeight) :=
    pdfDisplaySize templateImage containerDimensions in
  let scaleX := ndiv actualWidth frontendDisplayWidth in
  let scaleY := ndiv actualHeight frontendDisplayHeight in
  (scaleX, scaleY).

(** The body of the [forEach] of generatePDF for one placeholder. *)
Definition pdfPlaceholder (scaleX scaleY : num)
    (placeholderValues : option PlaceholderValues) (placeholder : Placeholder num)
    : result (list PdfText) :=
  value <- resolveValue placeholderValues placeholder ;;
  if String.eqb value "" then Ok []
  else
    let scaledX := nmul (p_x placeholder) scaleX in
    let scaledY := nmul (p_y placeholder) scaleY in
    let scaledFontSize := nmul (or_number (p_fontSize placeholder) (lit 24)) scaleX in
    let fontFamily := or_string (p_fontFamily placeholder) "Arial" in
    let systemFont := getSystemFont fontFamily pdf in
    Ok [ {| pt_font := systemFont;
            pt_fontSize := scaledFontSize;
            pt_fillColor := or_string (p_color placeholder) "#000000";
            pt_value := value;
            pt_x := scaledX;
            pt_y := scaledY;
            pt_align := or_string (p_textAlign placeholder) "left" |} ].

Fixpoint pdfOverlay (scaleX scaleY : num)
    (placeholderValues : option PlaceholderValues)
    (placeholders : list (Placeholder num)) : result (list PdfText) :=
  match placeholders with
  | [] => Ok []
  | placeholder :: rest =>
      drawn <- pdfPlaceholder scaleX scaleY placeholderValues placeholder ;;
      more <- pdfOverlay scaleX scaleY placeholderValues rest ;;
      Ok (drawn ++ more)
  end.

(** ** The host: template assets, the output directory *)

(** What a file of the output directory holds.  [Truncated] is a PDF whose
    write stream was opened and never finished. *)
Inductive FileContent : Type :=
| PngFile (doc : PngDocument)
| PdfFile (doc : PdfDocument)
| Truncated.

(** The disk: path and content, at most one entry per path. *)
Definition Disk : Type := list (string * FileContent).

Fixpoint unlink (path : string) (disk : Disk) : Disk :=
  match disk with
  | [] => []
  | (p, c) :: rest =>
      if String.eqb p path then unlink path rest else (p, c) :: unlink path rest
  end.

Definition writeFile (path : string) (content : FileContent) (disk : Disk) : Disk :=
  (path, content) :: unlink path disk.

Fixpoint readFile (path : string) (disk : Disk) : option FileContent :=
  match disk with
  | [] => None
  | (p, c) :: rest => if String.eqb p path then Some c else readFile path rest
  end.

(** What the code does not decide itself. *)
Record Host : Type := {
  (* canvas [loadImage]: the decoded image, or the decoder's error *)
  loadImage : string -> result (Image num);
  (* PDFKit [doc.image]: embeds JPEG and PNG data, throws on anything else *)
  embedImage : string -> result unit;
  (* whether a file of the output directory can be written *)
  writable : string -> bool;
  (* [fs.stat(...).size] of a written file *)
  byteSize : FileContent -> N
}.

Definition outputDir : string := "generated".
Definition uploadsDir : string := "uploads".

(** [path.join(dir, name)] for a plain file name. *)
Definition path_join (dir name : string) : string := dir ++ "/" ++ name.

Definition output_path (id : string) (f : Format) : string :=
  path_join outputDir (id ++ "." ++ format_ext f).

(** [fs.stat(path)]: the size, or ENOENT. *)
Definition stat (host : Host) (disk : Disk) (path : string) : result N :=
  match readFile path disk with
  | Some c => Ok (byteSize host c)
  | None => Throw "ENOENT: no such file or directory"
  end.

(** [catch (error) { throw new Error(`<prefix>${error.message}`) }] *)
Definition rethrow {S A : Type} (prefix : string) (r : S * result A) : S * result A :=
  match r with
  | (s, Throw m) => (s, Throw (prefix ++ m))
  | ok => ok
  end.

(** ** generatePNG *)
Definition generatePNG (host : Host) (disk : Disk) (certificate : Certificate num)
    (template : Template num) (placeholderValues : option PlaceholderValues)
    (templateImagePath : string)
    (containerDimensions : option (ContainerDimensions num))
    : Disk * result string :=
  rethrow "Failed to generate PNG: "
    match loadImage host templateImagePath with
    | Throw m => (disk, Throw m)
    | Ok templateImage =>
        let '(scaleX, scaleY) := pngScale templateImage containerDimensions in
        match pngOverlay scaleX scaleY placeholderValues (t_placeholders template) with
        | Throw m => (disk, Throw m)
        | Ok texts =>
            let pngPath := output_path (certificateId certificate) fmt_png in
            let buffer :=
              PngFile {| png_width := img_width templateImage;
                         png_height := img_height templateImage;
                         png_background := templateImagePath;
                         png_texts := texts |} in
            if writable host pngPath
            then (writeFile pngPath buffer disk, Ok pngPath)
            else (disk, Throw "EACCES: permission denied")
        end
    end.

(** ** generatePDF

    The write stream is created before the background image and the text are
    drawn, and it reports its outcome when the document is ended: an
    exception while drawing leaves a truncated file behind where the file
    could be opened, and an unwritable file is only found out at the end. *)
Definition generatePDF (host : Host) (disk : Disk) (certificate : Certificate num)
    (template : Template num) (placeholderValues : option PlaceholderValues)
    (templateImagePath : string)
    (containerDimensions : option (ContainerDimensions num))
    : Disk * result string :=
  rethrow "Failed to generate PDF: "
    (let pdfPath := output_path (certificateId certificate) fmt_pdf in
     match loadImage host templateImagePath with
     | Throw m => (disk, Throw m)
     | Ok templateImage =>
         let opened :=
           if writable host pdfPath then writeFile pdfPath Truncated disk else disk in
         match embedImage host templateImagePath with
         | Throw m => (opened, Throw m)
         | Ok _ =>
             let '(scaleX, scaleY) := pdfScale templateImage containerDimensions in
             match pdfOverlay scaleX scaleY placeholderValues (t_placeholders template) with
             | Throw m => (opened, Throw m)
             | Ok texts =>
                 let doc :=
                   PdfFile {| pdf_width := img_width templateImage;
                              pdf_height := img_height templateImage;
                              pdf_background := templateImagePath;
                              pdf_texts := texts |} in
                 if writable host pdfPath
                 then (writeFile pdfPath doc opened, Ok pdfPath)
                 else (opened, Throw "EACCES: permission denied")
             end
         end
     end).

(** What [generateCertificate] returns for one format. *)
Record Generated : Type := {
  g_path : string;
  g_filename : string;
  g_size : N
}.

(** ** generateCertificate: the PNG first, then the PDF, then both sizes. *)
Definition generateCertificate (host : Host) (disk : Disk)
    (certificate : Certificate num) (template : Template num)
    (placeholderValues : option PlaceholderValues)
    (containerDimensions : option (ContainerDimensions num))
    : Disk * result (Generated * Generated) :=
  rethrow "Failed to generate certificate: "
    (let templateImagePath := path_join uploadsDir (t_filename template) in
     match generatePNG host disk certificate template placeholderValues
                       templateImagePath containerDimensions with
     | (disk1, Throw m) => (disk1, Throw m)
     | (disk1, Ok pngPath) =>
         match generatePDF host disk1 certificate template placeholderValues
                           templateImagePath containerDimensions with
         | (disk2, Throw m) => (disk2, Throw m)
         | (disk2, Ok pdfPath) =>
             (disk2,
              pdfSize <- stat host disk2 pdfPath ;;
              pngSize <- stat host disk2 pngPath ;;
              Ok ({| g_path := pdfPath;
                     g_filename := certificateId certificate ++ ".pdf";
                     g_size := pdfSize |},
                  {| g_path := pngPath;
                     g_filename := certificateId certificate ++ ".png";
                     g_size := pngSize |}))
         end
     end).

(** [getFileInfo(certificateId, format)]: size and existence of an output. *)
Definition getFileInfo (host : Host) (disk : Disk) (id : string) (format : Format)
    : string * N * bool :=
  let filePath := output_path id format in
  match stat host disk filePath with
  | Ok size => (filePath, size, true)
  | Throw _ => (filePath, 0%N, false)
  end.

(** [deleteFiles(certificateId)]: both outputs, missing files ignored. *)
Definition deleteFiles (disk : Disk) (id : string) : Disk :=
  unlink (output_path id fmt_png) (unlink (output_path id fmt_pdf) disk).

End Renderers.

Arguments FileContent : clear implicits.
Arguments Disk : clear implicits.
Arguments Host : clear implicits.
Arguments PngDocument : clear implicits.
Arguments PdfDocument : clear implicits.
Arguments CanvasText : clear implicits.
Arguments PdfText : clear implicits.

End Generator.

(* ================================================================== *)
(** * JavaScript strings *)
(* ================================================================== *)

Module JSString.

(** A [string] holds the code units of a JavaScript string, each below 256.
    White space of [trim], of the class [\s] and of [parseInt] among them:
    TAB, LF, VT, FF, CR, SPACE and the no-break space U+00A0. *)
Definition is_space (c : ascii) : bool :=
  let n := N_of_ascii c in
  ((9 <=? n) && (n <=? 13) || (n =? 32) || (n =? 160))%N.

Fixpoint trimStart (s : string) : string :=
  match s with
  | String c rest => if is_space c then trimStart rest else s
  | EmptyString => EmptyString
  end.

Fixpoint trimEnd (s : string) : string :=
  match s with
  | EmptyString => EmptyString
  | String c rest =>
      match trimEnd rest with
      | EmptyString => if is_space c then EmptyString else String c EmptyString
      | kept => String c kept
      end
  end.

Definition trim (s : string) : string := trimEnd (trimStart s).

(** [s.split(sep)] for a one-character separator. *)
Fixpoint split (sep : ascii) (s : string) : list string :=
  match s with
  | EmptyString => [EmptyString]
  | String c rest =>
      if Ascii.eqb c sep then EmptyString :: split sep rest
      else
        match split sep rest with
        | first :: others => String c first :: others
        | [] => [String c EmptyString]
        end
  end.

Definition digit_value (c : ascii) : option Z :=
  let n := N_of_ascii c in
  if ((48 <=? n) && (n <=? 57))%N then Some (Z.of_N n - 48)%Z else None.

Definition hex_value (c : ascii) : option Z :=
  let n := N_of_ascii c in
  if ((48 <=? n) && (n <=? 57))%N then Some (Z.of_N n - 48)%Z
  else if ((65 <=? n) && (n <=? 70))%N then Some (Z.of_N n - 55)%Z
  else if ((97 <=? n) && (n <=? 102))%N then Some (Z.of_N n - 87)%Z
  else None.

(** The value of the longest prefix of digits; [acc] is [None] until a
    digit has been read. *)
Fixpoint parse_digits (radix : Z) (value : ascii -> option Z) (s : string)
    (acc : option Z) : option Z :=
  match s with
  | EmptyString => acc
  | String c rest =>
      match value c with
      | Some d =>
          parse_digits radix value rest
            (Some (match acc with Some a => a * radix + d | None => d end)%Z)
      | None => acc
      end
  end.

(** [parseInt(s)] without a radix; [None] is NaN.  The result is the
    integer the digits write: what the code computes as long as it is below
    2^53, where binary64 holds every integer. *)
Definition parseInt (s : string) : option Z :=
  let s := trimStart s in
  let '(negative, s) :=
    match s with
    | String "-" rest => (true, rest)
    | String "+" rest => (false, rest)
    | _ => (false, s)
    end in
  let magnitude :=
    match s with
    | String "0" (String "x" rest) | String "0" (String "X" rest) =>
        parse_digits 16 hex_value rest None
    | _ => parse_digits 10 digit_value s None
    end in
  option_map (fun v => if negative then (- v)%Z else v) magnitude.

(** [parseInt(undefined)] reads the string "undefined": NaN. *)
Definition parseInt_opt (s : option string) : option Z :=
  match s with Some s => parseInt s | None => None end.

(** [n.toString()] of an integer, and of NaN: the integer in full decimal,
    as the code prints the integers below 2^53 (from 10^21 on it prints
    exponent notation). *)
Definition toString (n : option Z) : string :=
  match n with
  | Some z => NilZero.string_of_int (Z.to_int z)
  | None => "NaN"
  end.

Fixpoint repeat_char (c : ascii) (n : nat) : string :=
  match n with
  | O => EmptyString
  | S k => String c (repeat_char c k)
  end.

(** [s.padStart(targetLength, fill)] for a one-character fill. *)
Definition padStart (targetLength : nat) (fill : ascii) (s : string) : string :=
  (repeat_char fill (targetLength - String.length s) ++ s)%string.

Definition is_digit (c : ascii) : bool :=
  match digit_value c with Some _ => true | None => false end.

Fixpoint all_chars (f : ascii -> bool) (s : string) : bool :=
  match s with
  | EmptyString => true
  | String c rest => f c && all_chars f rest
  end.

End JSString.

(* ================================================================== *)
(** * models/Certificate.js: statics and methods *)
(* ================================================================== *)

Module CertificateModel.

Import Schema JSString.

Section Model.

Context {num : Type}.

(** [match: /^CERT-\d{4}-\d{3,}$/] of the certificateId path. *)
Definition id_format_ok (id : string) : bool :=
  match split "-" id with
  | [tag; year; seq] =>
      String.eqb tag "CERT"
      && Nat.eqb (String.length year) 4 && all_chars is_digit year
      && Nat.leb 3 (String.length seq) && all_chars is_digit seq
  | _ => false
  end.

(** [findOne({ certificateId: { $regex: '^' + prefix } })
      .sort({ certificateId: -1 })]:
    the document whose identifier is greatest in string order among those
    that start with [prefix]. *)
Fixpoint findLatest (prefix : string) (certificates : list (Certificate num))
    : option (Certificate num) :=
  match certificates with
  | [] => None
  | c :: rest =>
      let among_rest := findLatest prefix rest in
      if String.prefix prefix (certificateId c) then
        match among_rest with
        | Some best =>
            if String.ltb (certificateId c) (certificateId best)
            then Some best else Some c
        | None => Some c
        end
      else among_rest
  end.

(** [certificateSchema.statics.generateNextId]; [currentYear] is
    [new Date().getFullYear()].  [lastNumber + 1] is the integer sum: the
    code's sum while the sequence numbers are below 2^53 (at 2^53 the code's
    sum is 2^53 again). *)
Definition generateNextId (certificates : list (Certificate num)) (currentYear : Z)
    : string :=
  let prefix := ("CERT-" ++ toString (Some currentYear) ++ "-")%string in
  let latestCert := findLatest prefix certificates in
  let nextNumber : option Z :=
    match latestCert with
    | Some cert =>
        let lastNumber := parseInt_opt (nth_error (split "-" (certificateId cert)) 2) in
        option_map (fun n => n + 1)%Z lastNumber
    | None => Some 1%Z
    end in
  let paddedNumber := padStart 3 "0" (toString nextNumber) in
  (prefix ++ paddedNumber)%string.

Definition set_status (c : Certificate num) (s : Status) (files : GeneratedFiles)
    (time : N) : Certificate num :=
  {| c_id := c_id c;
     certificateId := certificateId c;
     c_participantName := c_participantName c;
     c_template := c_template c;
     c_templateSnapshot := c_templateSnapshot c;
     c_generatedFiles := files;
     c_status := s;
     c_metadata :=
       {| md_generationTime := time;
          md_ipAddress := md_ipAddress (c_metadata c);
          md_userAgent := md_userAgent (c_metadata c);
          md_downloadCount := md_downloadCount (c_metadata c) |};
     c_createdBy := c_createdBy c;
     c_isActive := c_isActive c;
     c_tags := c_tags c;
     c_notes := c_notes c |}.

(** [certificateSchema.methods.archive]:
    [$set: { status: 'archived', isActive: false }]. *)
Definition archive (c : Certificate num) : Certificate num :=
  {| c_id := c_id c;
     certificateId := certificateId c;
     c_participantName := c_participantName c;
     c_template := c_template c;
     c_templateSnapshot := c_templateSnapshot c;
     c_generatedFiles := c_generatedFiles c;
     c_status := archived;
     c_metadata := c_metadata c;
     c_createdBy := c_createdBy c;
     c_isActive := false;
     c_tags := c_tags c;
     c_notes := c_notes c |}.

(** [certificateSchema.methods.incrementDownloadCount]:
    [$inc: { 'metadata.downloadCount': 1 }]. *)
Definition incrementDownloadCount (c : Certificate num) : Certificate num :=
  {| c_id := c_id c;
     certificateId := certificateId c;
     c_participantName := c_participantName c;
     c_template := c_template c;
     c_templateSnapshot := c_templateSnapshot c;
     c_generatedFiles := c_generatedFiles c;
     c_status := c_status c;
     c_metadata :=
       {| md_generationTime := md_generationTime (c_metadata c);
          md_ipAddress := md_ipAddress (c_metadata c);
          md_userAgent := md_userAgent (c_metadata c);
          md_downloadCount := md_downloadCount (c_metadata c) + 1 |};
     c_createdBy := c_createdBy c;
     c_isActive := c_isActive c;
     c_tags := c_tags c;
     c_notes := c_notes c |}.

End Model.

End CertificateModel.

(* ================================================================== *)
(** * middleware/validation.js and routes/certificate.js *)
(* ================================================================== *)

Module Routes.

Import Schema JSString CertificateModel Generator.

Definition dquote : string := String (ascii_of_N 34) EmptyString.

(** [/^[a-zA-Z\s.'-]+$/] *)
Definition is_name_char (c : ascii) : bool :=
  let n := N_of_ascii c in
  ((65 <=? n) && (n <=? 90) || (97 <=? n) && (n <=? 122))%N
  || is_space c
  || Ascii.eqb c "." || Ascii.eqb c "'" || Ascii.eqb c "-".

Definition name_ok (name : string) : bool :=
  Nat.leb 2 (String.length name) && Nat.leb (String.length name) 100
  && negb (String.eqb name "") && all_chars is_name_char name.

(** [validateCertificateCreation]: the name is trimmed, then checked; the
    handler sees the trimmed name. *)
Definition validateCertificateCreation (participantName : string) : option string :=
  let sanitized := trim participantName in
  if name_ok sanitized then Some sanitized else None.

Definition parse_format (format : string) : option Format :=
  if String.eqb format "pdf" then Some fmt_pdf
  else if String.eqb format "png" then Some fmt_png
  else None.

Definition format_upper (f : Format) : string :=
  match f with fmt_pdf => "PDF" | fmt_png => "PNG" end.

Section Handlers.

Context {num : Type} `{JSNumber num}.

(** What a handler did, in order. *)
Inductive Event : Type :=
| NextIdAssigned (id : string)
| RecordInserted (c : Certificate num)
| RecordUpdated (c : Certificate num)
| UsageIncremented (template : N)
| GeneratorCalled (outcome : result (Generated * Generated))
| DownloadCounted (certificate : N)
| FileUnlinked (path : string)
| RecordsDeleted (ids : list N).

Record World : Type := {
  templates : list (Template num);
  certificates : list (Certificate num);
  disk : Disk num;
  next_oid : N;
  events : list Event
}.

Inductive Payload : Type :=
| NoPayload
| ValidationErrors
| CertificatePayload (c : Certificate num)
| DeletedPayload (deletedCount : N) (filesDeleted : option N).

Inductive Response : Type :=
| Json (status : N) (success : bool) (message : string) (data : Payload)
| SendFile (path : string) (filename : string) (size : N) (contentType : string).

Definition http_status (r : Response) : N :=
  match r with
  | Json status _ _ _ => status
  | SendFile _ _ _ _ => 200
  end.

(** What the request does not decide: the calendar year when the identifier
    is assigned and the measured generation time. *)
Record Clock : Type := {
  currentYear : Z;
  generationTime : N
}.

Record CreateRequest : Type := {
  rq_admin : N;
  rq_participantName : string;
  rq_templateId : N;
  rq_placeholderValues : option PlaceholderValues;
  rq_containerDimensions : option (ContainerDimensions num);
  rq_notes : option string;
  rq_tags : option (list string);
  rq_ip : string;
  rq_userAgent : string
}.

Definition record (e : Event) (w : World) : World :=
  {| templates := templates w; certificates := certificates w; disk := disk w;
     next_oid := next_oid w; events := events w ++ [e] |}.

Definition with_certificates (cs : list (Certificate num)) (w : World) : World :=
  {| templates := templates w; certificates := cs; disk := disk w;
     next_oid := next_oid w; events := events w |}.

Definition with_templates (ts : list (Template num)) (w : World) : World :=
  {| templates := ts; certificates := certificates w; disk := disk w;
     next_oid := next_oid w; events := events w |}.

Definition with_disk (d : Disk num) (w : World) : World :=
  {| templates := templates w; certificates := certificates w; disk := d;
     next_oid := next_oid w; events := events w |}.

Definition fresh_oid (w : World) : World :=
  {| templates := templates w; certificates := certificates w; disk := disk w;
     next_oid := next_oid w + 1; events := events w |}.

(** [Template.findOne({ _id, createdBy, isActive: true })] *)
Definition findTemplate (w : World) (id admin : N) : option (Template num) :=
  find (fun t => N.eqb (t_id t) id && N.eqb (t_createdBy t) admin && t_isActive t)
       (templates w).

(** [template.incrementUsage()]: [$inc: { usageCount: 1 }] on the stored
    document. *)
Definition incrementUsage (id : N) (ts : list (Template num)) : list (Template num) :=
  map (fun t =>
         if N.eqb (t_id t) id then
           {| t_id := t_id t; t_name := t_name t; t_filename := t_filename t;
              t_dimensions := t_dimensions t; t_placeholders := t_placeholders t;
              t_isActive := t_isActive t; t_createdBy := t_createdBy t;
              t_usageCount := t_usageCount t + 1 |}
         else t) ts.

(** The validators of the certificate schema that [save] runs. *)
Definition schema_valid (c : Certificate num) : bool :=
  id_format_ok (certificateId c)
  && name_ok (c_participantName c)
  && Nat.leb (String.length (c_notes c)) 1000
  && forallb (fun tag => Nat.leb (String.length tag) 30) (c_tags c).

Inductive SaveError : Type :=
| ValidationFailed
| DuplicateKey.        (* error.code === 11000 *)

(** [certificate.save()] of a new document: validation, then the unique
    index on certificateId. *)
Definition insert (c : Certificate num) (cs : list (Certificate num))
    : SaveError + list (Certificate num) :=
  if negb (schema_valid c) then inl ValidationFailed
  else if existsb (fun c' => String.eqb (certificateId c') (certificateId c)) cs
       then inl DuplicateKey
       else inr (cs ++ [c]).

(** [certificate.save()] of a stored document. *)
Definition update (c : Certificate num) (cs : list (Certificate num))
    : list (Certificate num) :=
  map (fun c' => if N.eqb (c_id c') (c_id c) then c else c') cs.

Definition has_type (t : PlaceholderType) (p : Placeholder num) : bool :=
  String.eqb (type_key (p_type p)) (type_key t).

Definition download_url (id : N) (f : Format) : string :=
  "/api/certificate/" ++ toString (Some (Z.of_N id)) ++ "/download/" ++ format_ext f.

Definition file_info (id : N) (f : Format) (g : Generated) : FileInfo :=
  {| fi_filename := g_filename g; fi_path := g_path g; fi_size := g_size g;
     fi_url := download_url id f |}.

(** ** POST /api/certificate/create *)
Definition create (host : Host num) (clock : Clock) (w : World) (req : CreateRequest)
    : World * Response :=
  match validateCertificateCreation (rq_participantName req) with
  | None => (w, Json 400 false "Validation failed" ValidationErrors)
  | Some participantName =>
  match findTemplate w (rq_templateId req) (rq_admin req) with
  | None => (w, Json 404 false "Template not found or access denied" NoPayload)
  | Some template =>
  if Nat.eqb (List.length (t_placeholders template)) 0 then
    (w, Json 400 false
          "Template must have placeholders configured before generating certificates"
          NoPayload)
  else
  let hasNamePlaceholder := existsb (has_type TName) (t_placeholders template) in
  let hasIdPlaceholder := existsb (has_type TId) (t_placeholders template) in
  if negb hasNamePlaceholder || negb hasIdPlaceholder then
    (w, Json 400 false
          "Template must have both name and ID placeholders configured" NoPayload)
  else
  let certificateId := generateNextId (certificates w) (currentYear clock) in
  let w := record (NextIdAssigned certificateId) w in
  let certificate :=
    {| c_id := next_oid w;
       certificateId := certificateId;
       c_participantName := trim participantName;
       c_template := t_id template;
       c_templateSnapshot :=
         {| ts_name := t_name template; ts_filename := t_filename template;
            ts_placeholders := t_placeholders template;
            ts_dimensions := t_dimensions template |};
       c_generatedFiles := no_files;
       c_status := pending;
       c_metadata :=
         {| md_generationTime := 0; md_ipAddress := rq_ip req;
            md_userAgent := rq_userAgent req; md_downloadCount := 0 |};
       c_createdBy := rq_admin req;
       c_isActive := true;
       c_tags := map trim (match rq_tags req with Some ts => ts | None => [] end);
       c_notes := or_string (option_map trim (rq_notes req)) "" |} in
  let w := fresh_oid w in
  match insert certificate (certificates w) with
  | inl DuplicateKey =>
      (w, Json 400 false "Certificate ID already exists. Please try again." NoPayload)
  | inl ValidationFailed =>
      (w, Json 500 false "Server error during certificate creation" NoPayload)
  | inr stored =>
  let w := record (RecordInserted certificate) (with_certificates stored w) in
  let w := record (UsageIncremented (t_id template))
             (with_templates (incrementUsage (t_id template) (templates w)) w) in
  let '(disk', outcome) :=
    generateCertificate host (disk w) certificate template
      (rq_placeholderValues req) (rq_containerDimensions req) in
  let w := record (GeneratorCalled outcome) (with_disk disk' w) in
  let certificate :=
    match outcome with
    | Ok (pdfFile, pngFile) =>
        set_status certificate generated
          {| gf_pdf := Some (file_info (c_id certificate) fmt_pdf pdfFile);
             gf_png := Some (file_info (c_id certificate) fmt_png pngFile) |}
          (generationTime clock)
    | Throw _ =>
        set_status certificate failed no_files
          (md_generationTime (c_metadata certificate))
    end in
  let w := record (RecordUpdated certificate)
             (with_certificates (update certificate (certificates w)) w) in
  (w, Json 201 true "Certificate created successfully" (CertificatePayload certificate))
  end
  end
  end.

(** [Certificate.findOne({ _id, createdBy, isActive: true })] *)
Definition findActiveCertificate (w : World) (id admin : N) : option (Certificate num) :=
  find (fun c => N.eqb (c_id c) id && N.eqb (c_createdBy c) admin && c_isActive c)
       (certificates w).

Definition file_of (files : GeneratedFiles) (f : Format) : option FileInfo :=
  match f with fmt_pdf => gf_pdf files | fmt_png => gf_png files end.

(** ** GET /api/certificate/:id/download/:format *)
Definition download (host : Host num) (w : World) (admin id : N) (format : string)
    : World * Response :=
  match parse_format format with
  | None => (w, Json 400 false "Invalid format. Supported formats: pdf, png" NoPayload)
  | Some fmt =>
  match findActiveCertificate w id admin with
  | None => (w, Json 404 false "Certificate not found or access denied" NoPayload)
  | Some certificate =>
  if negb (Status_eqb (c_status certificate) generated) then
    (w, Json 400 false "Certificate is not ready for download" NoPayload)
  else
  (* [certificate.generatedFiles[format]] is a nested path of the document:
     an object also when nothing is stored under it, so [if (!fileInfo)]
     never answers; [fileInfo.filename] is then undefined. *)
  let fileInfo := file_of (c_generatedFiles certificate) fmt in
  let '(path, size, onDisk) := getFileInfo host (disk w) (certificateId certificate) fmt in
  if negb onDisk then
    (w, Json 404 false (format_upper fmt ++ " file not found on disk") NoPayload)
  else
    let w := record (DownloadCounted (c_id certificate))
               (with_certificates
                  (update (incrementDownloadCount certificate) (certificates w)) w) in
    (w, SendFile path
          (match fileInfo with
           | Some stored => fi_filename stored
           | None => "undefined"
           end) size
          (match fmt with fmt_pdf => "application/pdf" | fmt_png => "image/png" end))
  end
  end.

(** Paths the bulk routes read on a certificate document.  The schema
    declares none of them (the file paths are [generatedFiles.pdf.path] and
    [generatedFiles.png.path]), so reading them yields [undefined]. *)
Definition pdfPath (c : Certificate num) : option string := None.
Definition pngPath (c : Certificate num) : option string := None.
Definition isArchived (c : Certificate num) : option bool := None.

(** [fs.unlink(path)]: ENOENT when there is no such file. *)
Definition unlink_file (path : string) (w : World) : result World :=
  match readFile path (disk w) with
  | Some _ => Ok (record (FileUnlinked path) (with_disk (unlink path (disk w)) w))
  | None => Throw "ENOENT: no such file or directory"
  end.

(** The body of the file loop of the bulk delete: one [try] around both
    unlinks, the counter advanced after each one that succeeded. *)
Definition deleteFilesOf (st : World * N) (certificate : Certificate num) : World * N :=
  let '(w, filesDeleted) := st in
  let after_pdf : result (World * N) :=
    match pdfPath certificate with
    | Some p => w' <- unlink_file p w ;; Ok (w', filesDeleted + 1)%N
    | None => Ok (w, filesDeleted)
    end in
  match after_pdf with
  | Throw _ => (w, filesDeleted)
  | Ok (w1, n1) =>
      match pngPath certificate with
      | Some p =>
          match unlink_file p w1 with
          | Ok w2 => (w2, n1 + 1)%N
          | Throw _ => (w1, n1)
          end
      | None => (w1, n1)
      end
  end.

(** The filter of [Certificate.find] in the bulk delete. *)
Definition bulk_found (admin : N) (c : Certificate num) : bool :=
  N.eqb (c_createdBy c) admin
  && c_isActive c
  && match isArchived c with None => true | Some b => negb b end.

(** The filter of [Certificate.deleteMany] in the bulk delete. *)
Definition bulk_deleted (admin : N) (c : Certificate num) : bool :=
  N.eqb (c_createdBy c) admin
  && c_isActive c
  && match isArchived c with None => true | Some b => negb b end.

Definition confirmation : string := "DELETE ALL CERTIFICATES".

(** ** DELETE /api/certificate/bulk *)
Definition bulkDelete (w : World) (admin : N) (confirmText : option string)
    : World * Response :=
  if negb (match confirmText with
           | Some text => String.eqb text confirmation
           | None => false
           end)
  then
    (w, Json 400 false
          ("Invalid confirmation text. Please type " ++ dquote ++ confirmation
           ++ dquote ++ " to confirm.") NoPayload)
  else
  let found := filter (bulk_found admin) (certificates w) in
  if Nat.eqb (List.length found) 0 then
    (w, Json 200 true "No certificates found to delete" (DeletedPayload 0 None))
  else
  let '(w, filesDeleted) := fold_left deleteFilesOf found (w, 0%N) in
  let gone := filter (bulk_deleted admin) (certificates w) in
  let kept := filter (fun c => negb (bulk_deleted admin c)) (certificates w) in
  let deletedCount := N.of_nat (List.length gone) in
  let w := record (RecordsDeleted (map (@c_id num) gone)) (with_certificates kept w) in
  (w, Json 200 true
        ("Successfully deleted " ++ toString (Some (Z.of_N deletedCount)) ++ " certificates")
        (DeletedPayload deletedCount (Some filesDeleted))).

(** ** DELETE /api/certificate/:id: archive, the record stays stored. *)
Definition archiveRoute (w : World) (admin id : N) : World * Response :=
  match find (fun c => N.eqb (c_id c) id && N.eqb (c_createdBy c) admin) (certificates w) with
  | None => (w, Json 404 false "Certificate not found or access denied" NoPayload)
  | Some certificate =>
      (with_certificates (update (archive certificate) (certificates w)) w,
       Json 200 true "Certificate archived successfully" NoPayload)
  end.

End Handlers.

Arguments Event : clear implicits.
Arguments World : clear implicits.
Arguments Payload : clear implicits.
Arguments Response : clear implicits.
Arguments CreateRequest : clear implicits.

End Routes.

(* ================================================================== *)
(** * Vocabulary of the properties *)
(* ================================================================== *)

Module Properties.

Import Schema Generator.

Section Geometry.

Context {num : Type} `{JSNumber num}.

(** Where and how large a text is drawn: x, y and font size. *)
Definition Geometry : Type := (num * num * num)%type.

Definition canvas_geometry (t : CanvasText num) : Geometry :=
  (ct_x t, ct_y t, ct_fontSize t).

Definition pdf_geometry (t : PdfText num) : Geometry :=
  (pt_x t, pt_y t, pt_fontSize t).

Definition geometry_of {A : Type} (g : A -> Geometry) (r : result (list A))
    : result (list Geometry) :=
  match r with
  | Ok texts => Ok (map g texts)
  | Throw m => Throw m
  end.

(** The geometry a placeholder has in the editor; 24 stands for a font size
    that is not set. *)
Definition editor_geometry (p : Placeholder num) : Geometry :=
  (p_x p, p_y p, or_number (p_fontSize p) (lit 24)).

(** The placeholder has a value to draw. *)
Definition has_value (values : PlaceholderValues) (p : Placeholder num) : bool :=
  negb (String.eqb (or_string (pv_get values (p_type p)) "") "").

(** The geometry with x and the font size scaled by [scaleX] and y by
    [scaleY]. *)
Definition scaled_geometry (scaleX scaleY : num) (p : Placeholder num) : Geometry :=
  (nmul (p_x p) scaleX, nmul (p_y p) scaleY,
   nmul (or_number (p_fontSize p) (lit 24)) scaleX).

(** The geometry with x, y and the font size all scaled by [scaleX]. *)
Definition scaled_by_scaleX (scaleX : num) (p : Placeholder num) : Geometry :=
  (nmul (p_x p) scaleX, nmul (p_y p) scaleX,
   nmul (or_number (p_fontSize p) (lit 24)) scaleX).

(** A width or height of [containerDimensions] that is missing or falsy. *)
Definition unusable (a : option num) : bool :=
  match a with
  | Some n => negb (truthy n)
  | None => true
  end.

(** C2 as the specification words it: a placeholder with a value is drawn,
    by both renderers, with x, y and the font size all multiplied by
    scaleX. *)
Definition drawn_scaled_by_scaleX (templateImage : Image num)
    (containerDimensions : option (ContainerDimensions num))
    (values : PlaceholderValues) (p : Placeholder num) : Prop :=
  let scaleX := fst (pngScale templateImage containerDimensions) in
  let scaleY := snd (pngScale templateImage containerDimensions) in
  geometry_of canvas_geometry (pngPlaceholder scaleX scaleY (Some values) p)
  = Ok [scaled_by_scaleX scaleX p]
  /\ geometry_of pdf_geometry
       (pdfPlaceholder (fst (pdfScale templateImage containerDimensions))
                       (snd (pdfScale templateImage containerDimensions))
                       (Some values) p)
     = Ok [scaled_by_scaleX scaleX p].

(** C2 as amended, in its own words.  The value a placeholder is drawn
    with: the entry of the values for its type, unless it is missing or
    empty. *)
Definition value_to_draw (values : PlaceholderValues) (p : Placeholder num)
    : option string :=
  match pv_get values (p_type p) with
  | Some value => if String.eqb value "" then None else Some value
  | None => None
  end.

Definition is_drawn (values : PlaceholderValues) (p : Placeholder num) : bool :=
  match value_to_draw values p with Some _ => true | None => false end.

(** The font size of a placeholder, 24 when it is unset, zero or NaN. *)
Definition font_size_or_24 (p : Placeholder num) : num :=
  match p_fontSize p with
  | Some size => if truthy size then size else lit 24
  | None => lit 24
  end.

(** x and the font size times scaleX, y times scaleY. *)
Definition drawn_geometry (scaleX scaleY : num) (p : Placeholder num) : Geometry :=
  (nmul (p_x p) scaleX, nmul (p_y p) scaleY, nmul (font_size_or_24 p) scaleX).

(** The font family of the placeholder (Arial when unset) is no name the
    font tables inherit, so that both engines are given a font name. *)
Definition plain_font (p : Placeholder num) : bool :=
  plain_family (match p_fontFamily p with
                | Some family => if String.eqb family "" then "Arial" else family
                | None => "Arial"
                end).

Definition with_placeholders (t : Template num) (ps : list (Placeholder num))
    : Template num :=
  {| t_id := t_id t; t_name := t_name t; t_filename := t_filename t;
     t_dimensions := t_dimensions t; t_placeholders := ps;
     t_isActive := t_isActive t; t_createdBy := t_createdBy t;
     t_usageCount := t_usageCount t |}.

End Geometry.

Arguments Geometry : clear implicits.

(** A binary64 number that is positive and finite. *)
Definition positive_float (f : float) : bool :=
  PrimFloat.ltb 0%float f && PrimFloat.ltb f infinity.

(** The number a string of decimal digits writes, read after [acc]. *)
Fixpoint decimal_value (acc : Z) (s : string) : Z :=
  match s with
  | EmptyString => acc
  | String c rest =>
      decimal_value
        (acc * 10 + match JSString.digit_value c with Some d => d | None => 0 end)%Z
        rest
  end.

(** A non-empty string of decimal digits. *)
Definition is_number (s : string) : bool :=
  negb (String.eqb s "") && JSString.all_chars JSString.is_digit s.

Section Runs.

Import Routes CertificateModel.

Context {num : Type} `{JSNumber num}.

(** What a handler recorded between the world it started in and the world
    it left. *)
Definition events_since (before after : World num) : list (Event num) :=
  skipn (List.length (events before)) (events after).

(** A template the orchestrator does not accept: no placeholder at all, or
    none of type name, or none of type id. *)
Definition lacks_required_placeholder (template : Template num) : Prop :=
  t_placeholders template = []
  \/ (forall p, In p (t_placeholders template) -> p_type p <> TName)
  \/ (forall p, In p (t_placeholders template) -> p_type p <> TId).

(** Both renderers return for this certificate: the PNG renderer on the
    disk as it is, then the PDF renderer on the disk the PNG renderer left. *)
Definition both_renderers_return (host : Host num) (disk : Disk num)
    (certificate : Certificate num) (template : Template num)
    (placeholderValues : option PlaceholderValues)
    (containerDimensions : option (ContainerDimensions num)) : Prop :=
  let templateImagePath := path_join uploadsDir (t_filename template) in
  let png := generatePNG host disk certificate template placeholderValues
                         templateImagePath containerDimensions in
  let pdf := generatePDF host (fst png) certificate template placeholderValues
                         templateImagePath containerDimensions in
  is_ok (snd png) = true /\ is_ok (snd pdf) = true.

(** The files of the output directory that belong to a certificate. *)
Definition files_on_disk (disk : Disk num) (id : string) : list Format :=
  filter (fun f => match readFile (output_path id f) disk with
                   | Some _ => true
                   | None => false
                   end) [fmt_pdf; fmt_png].

(** C6 as the specification words it: the sequence number of an identifier
    of the year, the highest one among the stored certificates (0 when there
    is none), and the identifier made of one more than that. *)
Definition sequence_number (prefix id : string) : option Z :=
  if String.prefix prefix id
  then JSString.parseInt
         (String.substring (String.length prefix)
            (String.length id - String.length prefix) id)
  else None.

Definition highest_sequence (prefix : string) (certificates : list (Certificate num)) : Z :=
  fold_right (fun c highest =>
                match sequence_number prefix (certificateId c) with
                | Some n => Z.max n highest
                | None => highest
                end) 0%Z certificates.

Definition specified_next_id (certificates : list (Certificate num)) (currentYear : Z)
    : string :=
  let prefix := ("CERT-" ++ JSString.toString (Some currentYear) ++ "-")%string in
  (prefix ++ JSString.padStart 3 "0"
               (JSString.toString (Some (highest_sequence prefix certificates + 1)%Z)))%string.

(** The identifiers that start with [prefix] all carry a sequence number
    of [width] digits. *)
Definition sequence_width (prefix : string) (width : nat)
    (certificates : list (Certificate num)) : Prop :=
  forall c, In c certificates ->
    String.prefix prefix (certificateId c) = true ->
    exists s, certificateId c = (prefix ++ s)%string
              /\ is_number s = true /\ String.length s = width.

(** The three ways a run of the create route ends. *)
Inductive CreateRun (host : Host num) (clock : Clock) (w : World num)
    (req : CreateRequest num) (w' : World num) (response : Response num) : Prop :=
| RejectedBeforeId :
    w' = w ->
    (exists message data, response = Json (num := num) 400 false message data)
    \/ (exists message, response = Json 404 false message NoPayload) ->
    CreateRun host clock w req w' response
| RejectedAtSave (status : N) (message : string) :
    events w' = events w ++ [NextIdAssigned (generateNextId (certificates w) (currentYear clock))] ->
    certificates w' = certificates w ->
    disk w' = disk w ->
    templates w' = templates w ->
    response = Json status false message NoPayload ->
    status = 400%N \/ status = 500%N ->
    CreateRun host clock w req w' response
| Created (template : Template num) (inserted final : Certificate num)
          (outcome : result (Generated * Generated)) :
    findTemplate w (rq_templateId req) (rq_admin req) = Some template ->
    ~ lacks_required_placeholder template ->
    c_status inserted = pending ->
    certificateId inserted = generateNextId (certificates w) (currentYear clock) ->
    c_createdBy inserted = rq_admin req ->
    generateCertificate host (disk w) inserted template
      (rq_placeholderValues req) (rq_containerDimensions req) = (disk w', outcome) ->
    final = match outcome with
            | Ok (pdfFile, pngFile) =>
                set_status inserted generated
                  {| gf_pdf := Some (file_info (c_id inserted) fmt_pdf pdfFile);
                     gf_png := Some (file_info (c_id inserted) fmt_png pngFile) |}
                  (generationTime clock)
            | Throw _ => set_status inserted failed no_files 0
            end ->
    events w' = events w ++ [NextIdAssigned (certificateId inserted);
                             RecordInserted inserted;
                             UsageIncremented (t_id template);
                             GeneratorCalled outcome;
                             RecordUpdated final] ->
    In final (certificates w') ->
    response = Json 201 true "Certificate created successfully"
                 (CertificatePayload final) ->
    CreateRun host clock w req w' response.

End Runs.

End Properties.

(* ================================================================== *)
(** * Concrete inputs *)
(* ================================================================== *)

Module Samples.

Import Schema Generator Routes.

Section Scenario.

Context {num : Type} `{JSNumber num}.

(** The scenario of the specification: a 1000x600 template shown in an
    800x480 container, a name placeholder at (100, 50) with font size 24. *)
Definition scenario_image : Image num :=
  {| img_width := lit 1000; img_height := lit 600 |}.

Definition scenario_container : option (ContainerDimensions num) :=
  Some {| cd_width := Some (lit 800); cd_height := Some (lit 480) |}.

(** A container with another aspect ratio than the template. *)
Definition stretched_container : option (ContainerDimensions num) :=
  Some {| cd_width := Some (lit 800); cd_height := Some (lit 600) |}.


Definition name_placeholder : Placeholder num :=
  {| p_type := TName; p_x := lit 100; p_y := lit 50;
     p_fontSize := Some (lit 24); p_fontFamily := Some "Playfair Display";
     p_color := Some "#1a1a1a"; p_fontWeight := Some "bold";
     p_textAlign := Some "center"; p_rotation := Some (lit 0) |}.

Definition id_placeholder : Placeholder num :=
  {| p_type := TId; p_x := lit 40; p_y := lit 440;
     p_fontSize := Some (lit 12); p_fontFamily := Some "Roboto Mono";
     p_color := None; p_fontWeight := None;
     p_textAlign := None; p_rotation := None |}.

(** A container that differs from the fallback size, and placeholders with
    a font size of their own and with none. *)
Definition narrow_container_width : num := lit 500.
Definition narrow_container_height : num := lit 400.

Definition large_name_placeholder : Placeholder num :=
  {| p_type := TName; p_x := lit 100; p_y := lit 50;
     p_fontSize := Some (lit 36); p_fontFamily := Some "Lobster";
     p_color := None; p_fontWeight := Some "bold";
     p_textAlign := None; p_rotation := None |}.

Definition unsized_id_placeholder : Placeholder num :=
  {| p_type := TId; p_x := lit 40; p_y := lit 440;
     p_fontSize := None; p_fontFamily := None;
     p_color := None; p_fontWeight := None;
     p_textAlign := None; p_rotation := None |}.

Definition scenario_values : PlaceholderValues :=
  {| pv_name := Some "Ada Lovelace"; pv_id := Some "CERT-2024-001" |}.

(** Values in which the id is left empty. *)
Definition name_only_values : PlaceholderValues :=
  {| pv_name := Some "Ada Lovelace"; pv_id := Some "" |}.

Definition scenario_template : Template num :=
  {| t_id := 7; t_name := "Diploma"; t_filename := "diploma.png";
     t_dimensions := {| dim_width := lit 1000; dim_height := lit 600 |};
     t_placeholders := [name_placeholder; id_placeholder];
     t_isActive := true; t_createdBy := 1; t_usageCount := 0 |}.

(** A template that has a name placeholder and no id placeholder. *)
Definition nameless_id_template : Template num :=
  {| t_id := 8; t_name := "Draft"; t_filename := "draft.png";
     t_dimensions := {| dim_width := lit 1000; dim_height := lit 600 |};
     t_placeholders := [name_placeholder];
     t_isActive := true; t_createdBy := 1; t_usageCount := 0 |}.

(** A template stored as a GIF: the canvas decodes it, PDFKit does not
    embed it. *)
Definition gif_template : Template num :=
  {| t_id := 9; t_name := "Animated"; t_filename := "badge.gif";
     t_dimensions := {| dim_width := lit 1000; dim_height := lit 600 |};
     t_placeholders := [name_placeholder; id_placeholder];
     t_isActive := true; t_createdBy := 1; t_usageCount := 0 |}.

Definition sample_host : Host num :=
  {| loadImage := fun path =>
       if String.eqb path "uploads/diploma.png" || String.eqb path "uploads/badge.gif"
       then Ok scenario_image
       else Throw "Unsupported image type";
     embedImage := fun path =>
       if String.eqb path "uploads/diploma.png" then Ok tt
       else Throw "Unknown image format.";
     writable := fun _ => true;
     byteSize := fun content =>
       match content with
       | PngFile doc => (4096 + N.of_nat (List.length (png_texts doc)))%N
       | PdfFile doc => (2048 + N.of_nat (List.length (pdf_texts doc)))%N
       | Truncated => 0%N
       end |}.

Definition sample_certificate (oid : N) (id : string) (status : Status)
    (files : GeneratedFiles) (admin : N) : Certificate num :=
  {| c_id := oid; certificateId := id; c_participantName := "Ada Lovelace";
     c_template := 7;
     c_templateSnapshot :=
       {| ts_name := "Diploma"; ts_filename := "diploma.png";
          ts_placeholders := [name_placeholder; id_placeholder];
          ts_dimensions := {| dim_width := lit 1000; dim_height := lit 600 |} |};
     c_generatedFiles := files; c_status := status;
     c_metadata :=
       {| md_generationTime := 12; md_ipAddress := "127.0.0.1";
          md_userAgent := "curl"; md_downloadCount := 0 |};
     c_createdBy := admin; c_isActive := true; c_tags := []; c_notes := "" |}.

Definition files_of (oid : N) (id : string) : GeneratedFiles :=
  {| gf_pdf := Some {| fi_filename := id ++ ".pdf";
                       fi_path := output_path id fmt_pdf; fi_size := 2050;
                       fi_url := download_url oid fmt_pdf |};
     gf_png := Some {| fi_filename := id ++ ".png";
                       fi_path := output_path id fmt_png; fi_size := 4098;
                       fi_url := download_url oid fmt_png |} |}.

Definition blank_png : FileContent num :=
  PngFile {| png_width := lit 1000; png_height := lit 600;
             png_background := "uploads/diploma.png"; png_texts := [] |}.

Definition blank_pdf : FileContent num :=
  PdfFile {| pdf_width := lit 1000; pdf_height := lit 600;
             pdf_background := "uploads/diploma.png"; pdf_texts := [] |}.

Definition empty_world : World num :=
  {| templates := [scenario_template; nameless_id_template; gif_template];
     certificates := []; disk := []; next_oid := 100; events := [] |}.

(** One generated certificate of admin 1, with its two files on disk. *)
Definition world_with_one : World num :=
  {| templates := [scenario_template];
     certificates :=
       [sample_certificate 100 "CERT-2024-001" generated
          (files_of 100 "CERT-2024-001") 1];
     disk := [(output_path "CERT-2024-001" fmt_pdf, blank_pdf);
              (output_path "CERT-2024-001" fmt_png, blank_png)];
     next_oid := 101; events := [] |}.

(** The year 2024 has reached sequence number 1000. *)
Definition world_after_1000 : World num :=
  {| templates := [scenario_template];
     certificates :=
       [sample_certificate 100 "CERT-2024-999" generated no_files 1;
        sample_certificate 101 "CERT-2024-1000" generated no_files 1];
     disk := []; next_oid := 102; events := [] |}.

Definition year_2024 : Clock := {| currentYear := 2024; generationTime := 35 |}.

Definition sample_request (template : N) (values : option PlaceholderValues)
    : CreateRequest num :=
  {| rq_admin := 1; rq_participantName := "  Ada Lovelace ";
     rq_templateId := template; rq_placeholderValues := values;
     rq_containerDimensions := scenario_container;
     rq_notes := Some " first run "; rq_tags := Some ["demo"];
     rq_ip := "127.0.0.1"; rq_userAgent := "curl" |}.

End Scenario.

End Samples.

(* ================================================================== *)
(** * More of the routes: templates, reading and updating certificates *)
(* ================================================================== *)

Module MoreRoutes.

Import Schema JSString CertificateModel Generator Routes.

Section MoreHandlers.

Context {num : Type} `{JSNumber num}.

(** models/Template.js, the validator of the [placeholders] path: an empty
    list passes, any other list needs a name and an id placeholder. *)
Definition placeholdersValidator (placeholders : list (Placeholder num)) : bool :=
  if Nat.eqb (List.length placeholders) 0 then true
  else
    let hasName := existsb (has_type TName) placeholders in
    let hasId := existsb (has_type TId) placeholders in
    hasName && hasId.

(** middleware/validation.js, the custom check of
    [validateTemplatePlaceholders]: it returns true or throws. *)
Definition placeholdersCustom (placeholders : list (Placeholder num)) : result bool :=
  if Nat.eqb (List.length placeholders) 0 then Ok true
  else
    let hasName := existsb (has_type TName) placeholders in
    let hasId := existsb (has_type TId) placeholders in
    if negb hasName || negb hasId
    then Throw "Template must have at least one name placeholder and one id placeholder"
    else Ok true.

(** [Template.findOne({ _id, createdBy })] *)
Definition findOwnedTemplate (w : World num) (id admin : N) : option (Template num) :=
  find (fun t => N.eqb (t_id t) id && N.eqb (t_createdBy t) admin) (templates w).

Definition set_isActive (t : Template num) (active : bool) : Template num :=
  {| t_id := t_id t; t_name := t_name t; t_filename := t_filename t;
     t_dimensions := t_dimensions t; t_placeholders := t_placeholders t;
     t_isActive := active; t_createdBy := t_createdBy t;
     t_usageCount := t_usageCount t |}.

(** [template.save()] of a stored template. *)
Definition saveTemplate (t : Template num) (ts : list (Template num))
    : list (Template num) :=
  map (fun t' => if N.eqb (t_id t') (t_id t) then t else t') ts.

(** ** DELETE /api/template/:id: the template is marked inactive. *)
Definition deleteTemplate (w : World num) (admin id : N) : World num * Response num :=
  match findOwnedTemplate w id admin with
  | None => (w, Json 404 false "Template not found or access denied" NoPayload)
  | Some template =>
      (with_templates (saveTemplate (set_isActive template false) (templates w)) w,
       Json 200 true "Template deleted successfully" NoPayload)
  end.

(** [Certificate.findOne({ _id, createdBy })] *)
Definition findOwnedCertificate (w : World num) (id admin : N)
    : option (Certificate num) :=
  find (fun c => N.eqb (c_id c) id && N.eqb (c_createdBy c) admin) (certificates w).

(** ** GET /api/certificate/:id *)
Definition getCertificate (w : World num) (admin id : N) : World num * Response num :=
  match findOwnedCertificate w id admin with
  | None => (w, Json 404 false "Certificate not found or access denied" NoPayload)
  | Some certificate => (w, Json 200 true "" (CertificatePayload certificate))
  end.

(** [certificate.notes = notes.trim()] and [certificate.tags = tags], each
    only when the body carries the field; the schema trims the tags. *)
Definition set_notes_tags (c : Certificate num) (notes : option string)
    (tags : option (list string)) : Certificate num :=
  {| c_id := c_id c;
     certificateId := certificateId c;
     c_participantName := c_participantName c;
     c_template := c_template c;
     c_templateSnapshot := c_templateSnapshot c;
     c_generatedFiles := c_generatedFiles c;
     c_status := c_status c;
     c_metadata := c_metadata c;
     c_createdBy := c_createdBy c;
     c_isActive := c_isActive c;
     c_tags := match tags with Some ts => map trim ts | None => c_tags c end;
     c_notes := match notes with Some n => trim n | None => c_notes c end |}.

(** ** PUT /api/certificate/:id *)
Definition updateCertificate (w : World num) (admin id : N) (notes : option string)
    (tags : option (list string)) : World num * Response num :=
  match findOwnedCertificate w id admin with
  | None => (w, Json 404 false "Certificate not found or access denied" NoPayload)
  | Some certificate =>
      let certificate := set_notes_tags certificate notes tags in
      if negb (schema_valid certificate) then
        (w, Json 500 false "Server error while updating certificate" NoPayload)
      else
        (record (RecordUpdated certificate)
           (with_certificates (update certificate (certificates w)) w),
         Json 200 true "Certificate updated successfully"
           (CertificatePayload certificate))
  end.

(** ** The requests of the modelled routes and the server handling them *)
Inductive Request : Type :=
| PostCreate (clock : Clock) (req : CreateRequest num)
| GetCertificate (admin id : N)
| GetDownload (admin id : N) (format : string)
| PutCertificate (admin id : N) (notes : option string) (tags : option (list string))
| DeleteBulk (admin : N) (confirmText : option string)
| DeleteCertificate (admin id : N)
| DeleteTemplate (admin id : N).

(** The authenticated admin of a request ([req.admin.id]). *)
Definition request_admin (r : Request) : N :=
  match r with
  | PostCreate _ req => rq_admin req
  | GetCertificate admin _ | GetDownload admin _ _ | PutCertificate admin _ _ _
  | DeleteBulk admin _ | DeleteCertificate admin _ | DeleteTemplate admin _ => admin
  end.

Definition handle (host : Host num) (w : World num) (r : Request)
    : World num * Response num :=
  match r with
  | PostCreate clock req => create host clock w req
  | GetCertificate admin id => getCertificate w admin id
  | GetDownload admin id format => download host w admin id format
  | PutCertificate admin id notes tags => updateCertificate w admin id notes tags
  | DeleteBulk admin confirmText => bulkDelete w admin confirmText
  | DeleteCertificate admin id => archiveRoute w admin id
  | DeleteTemplate admin id => deleteTemplate w admin id
  end.

(** The world after a sequence of requests, handled one after the other. *)
Definition serve (host : Host num) (w : World num) (requests : list Request)
    : World num :=
  fold_left (fun w r => fst (handle host w r)) requests w.

End MoreHandlers.

Arguments Request : clear implicits.

End MoreRoutes.

(* ================================================================== *)
(** * services/websocketService.js *)
(* ================================================================== *)

Module WebSocketService.

(** [ws.readyState] *)
Inductive ReadyState : Type := CONNECTING | OPEN | CLOSING | CLOSED.

Definition is_open (s : ReadyState) : bool :=
  match s with OPEN => true | _ => false end.

Section Service.

Context {num : Type}.

(** The object a caller passes as [data]; a key it leaves out is [None]. *)
Record Notice : Type := {
  n_operation : option string;
  n_status : option string;
  n_total : option N;
  n_processed : option N;
  n_added : option N;
  n_currentFile : option string;
  n_zipFileName : option string;
  n_message : option string;
  n_percentage : option num;
  n_error : option string
}.

(** [{ type, data, timestamp }], the object that is stringified and sent. *)
Record Frame : Type := {
  f_type : string;
  f_data : Notice;
  f_timestamp : string
}.

(** An entry of the [clients] map; of the socket only [readyState] is read. *)
Record Client : Type := {
  adminId : N;
  readyState : ReadyState
}.

(** What the service does not decide: whether [ws.send] returns or throws,
    and the time [new Date().toISOString()] gives at each reading of the
    clock. *)
Record Wire : Type := {
  send_returns : string -> Frame -> bool;
  toISOString : N -> string
}.

(** The [clients] map in its insertion order, the frames each socket was
    sent, and the number of times the clock was read. *)
Record Service : Type := {
  clients : list (string * Client);
  outbox : list (string * Frame);
  clock_reads : N
}.

(** [client.adminId === adminIdStr && client.ws.readyState === WebSocket.OPEN] *)
Definition is_connected (admin : N) (client : Client) : bool :=
  N.eqb (adminId client) admin && is_open (readyState client).

(** [this.clients.delete(clientId)] *)
Definition delete (clientId : string) (cs : list (string * Client))
    : list (string * Client) :=
  filter (fun entry => negb (String.eqb (fst entry) clientId)) cs.

(** The body of the loops of [sendProgressUpdate] and [broadcastToAdmin]:
    the frame is built and sent to an open socket of the admin; the client
    is deleted when sending throws. *)
Definition send_to (wire : Wire) (kind : string) (admin : N) (data : Notice)
    (s : Service) (entry : string * Client) : Service :=
  let '(clientId, client) := entry in
  if is_connected admin client then
    let frame := {| f_type := kind; f_data := data;
                    f_timestamp := toISOString wire (clock_reads s) |} in
    if send_returns wire clientId frame then
      {| clients := clients s; outbox := outbox s ++ [(clientId, frame)];
         clock_reads := clock_reads s + 1 |}
    else
      {| clients := delete clientId (clients s); outbox := outbox s;
         clock_reads := clock_reads s + 1 |}
  else s.

(** [sendProgressUpdate(adminId, data)] *)
Definition sendProgressUpdate (wire : Wire) (s : Service) (admin : N) (data : Notice)
    : Service :=
  fold_left (send_to wire "progress" admin data) (clients s) s.

(** [broadcastToAdmin(adminId, data)] *)
Definition broadcastToAdmin (wire : Wire) (s : Service) (admin : N) (data : Notice)
    : Service :=
  fold_left (send_to wire "broadcast" admin data) (clients s) s.

(** [{ operation: <name>, ...data }]: a key [operation] of [data] wins. *)
Definition with_operation (operation : string) (data : Notice) : Notice :=
  {| n_operation := match n_operation data with
                    | Some given => Some given
                    | None => Some operation
                    end;
     n_status := n_status data; n_total := n_total data;
     n_processed := n_processed data; n_added := n_added data;
     n_currentFile := n_currentFile data; n_zipFileName := n_zipFileName data;
     n_message := n_message data; n_percentage := n_percentage data;
     n_error := n_error data |}.

Definition sendBulkDownloadProgress (wire : Wire) (s : Service) (admin : N)
    (progress : Notice) : Service :=
  sendProgressUpdate wire s admin (with_operation "bulk_download" progress).

Definition sendBulkDownloadComplete (wire : Wire) (s : Service) (admin : N)
    (result : Notice) : Service :=
  sendProgressUpdate wire s admin (with_operation "bulk_download_complete" result).

(** [error.message || 'Unknown error occurred'] *)
Definition sendBulkDownloadError (wire : Wire) (s : Service) (admin : N)
    (message : option string) : Service :=
  sendProgressUpdate wire s admin
    {| n_operation := Some "bulk_download_error";
       n_status := None; n_total := None; n_processed := None; n_added := None;
       n_currentFile := None; n_zipFileName := None; n_message := None;
       n_percentage := None;
       n_error := Some (or_string message "Unknown error occurred") |}.

(** [getConnectedClientsCount(adminId)] *)
Definition getConnectedClientsCount (s : Service) (admin : N) : N :=
  fold_left (fun count entry =>
               if is_connected admin (snd entry) then (count + 1)%N else count)
            (clients s) 0%N.

End Service.

Arguments Notice : clear implicits.
Arguments Frame : clear implicits.
Arguments Wire : clear implicits.
Arguments Service : clear implicits.

End WebSocketService.

(* ================================================================== *)
(** * routes/certificate.js: POST /api/certificate/bulk-download *)
(* ================================================================== *)

Module BulkDownload.

Import Schema JSString Generator Routes WebSocketService.

(** [/[^a-zA-Z0-9\s-_]/]: the characters the file name keeps. *)
Definition is_safe_char (c : ascii) : bool :=
  let n := N_of_ascii c in
  ((65 <=? n) && (n <=? 90) || (97 <=? n) && (n <=? 122) || (48 <=? n) && (n <=? 57))%N
  || is_space c || Ascii.eqb c "-" || Ascii.eqb c "_".

Fixpoint keep_chars (keep : ascii -> bool) (s : string) : string :=
  match s with
  | EmptyString => EmptyString
  | String c rest =>
      if keep c then String c (keep_chars keep rest) else keep_chars keep rest
  end.

(** [.replace(/[:.]/g, '-')] *)
Fixpoint dashed (s : string) : string :=
  match s with
  | EmptyString => EmptyString
  | String c rest =>
      String (if Ascii.eqb c ":" || Ascii.eqb c "." then "-"%char else c) (dashed rest)
  end.

Section Route.

Context {num : Type} `{JSNumber num}.

(** The body of the request: [certificateIds] is [None] when it is missing
    or not an array, and each of its elements is the [_id] it is cast to or
    the message of the CastError; [format] is [None] when it is left out. *)
Record BulkDownloadRequest : Type := {
  bd_admin : N;
  bd_certificateIds : option (list (result N));
  bd_format : option string
}.

(** The cast of the [$in] list: the [_id]s, or the first CastError. *)
Fixpoint castIds (certificateIds : list (result N)) : result (list N) :=
  match certificateIds with
  | [] => Ok []
  | element :: rest =>
      id <- element ;;
      ids <- castIds rest ;;
      Ok (id :: ids)
  end.

(** Either a JSON answer or the ZIP archive with its entries, each the file
    read and the name it gets in the archive. *)
Inductive BulkResponse : Type :=
| Answer (r : Response num)
| ZipFile (zipFileName : string) (entries : list (string * string)).

Record Loop : Type := {
  l_world : World num;
  l_service : Service num;
  l_entries : list (string * string);
  l_processed : N;
  l_added : N
}.

Definition notice (status : string) (total processed added : N)
    (currentFile zipFileName : option string) (message : string)
    (percentage : option num) : Notice num :=
  {| n_operation := None; n_status := Some status; n_total := Some total;
     n_processed := Some processed; n_added := Some added;
     n_currentFile := currentFile; n_zipFileName := zipFileName;
     n_message := Some message; n_percentage := percentage; n_error := None |}.

Definition number (n : N) : string := toString (Some (Z.of_N n)).

(** [Certificate.findByIdAndUpdate(_id, { $inc: { downloadCount: 1 } })]:
    the schema declares no path [downloadCount] (the counter is
    [metadata.downloadCount]), so the update that reaches the store is
    empty. *)
Definition findByIdAndUpdate_downloadCount (id : N) (w : World num) : World num := w.

Definition processed_one (st : Loop) : Loop :=
  {| l_world := l_world st; l_service := l_service st; l_entries := l_entries st;
     l_processed := l_processed st + 1; l_added := l_added st |}.

(** The body of the loop over the certificates found. *)
Definition addToArchive (wire : Wire num) (round : num -> num) (admin : N)
    (format : Format) (total : N) (st : Loop) (certificate : Certificate num) : Loop :=
  let filePath := match format with
                  | fmt_pdf => pdfPath certificate
                  | fmt_png => pngPath certificate
                  end in
  match filePath with
  | None => processed_one st
  | Some filePath =>
  if String.eqb filePath "" then processed_one st
  else
  let fullPath := filePath in
  match readFile fullPath (disk (l_world st)) with
  | None => processed_one st
  | Some _ =>
      let safeFileName :=
        (keep_chars is_safe_char (c_participantName certificate)
         ++ "_" ++ certificateId certificate ++ "." ++ format_ext format)%string in
      let processedCount := (l_processed st + 1)%N in
      let addedCount := (l_added st + 1)%N in
      let service :=
        sendBulkDownloadProgress wire (l_service st) admin
          (notice "processing" total processedCount addedCount (Some safeFileName) None
             ("Processing " ++ number processedCount ++ "/" ++ number total
              ++ " certificates...")%string
             (Some (round (nmul (ndiv (lit (Z.of_N processedCount))
                                      (lit (Z.of_N total))) (lit 100))))) in
      {| l_world := findByIdAndUpdate_downloadCount (c_id certificate) (l_world st);
         l_service := service;
         l_entries := l_entries st ++ [(fullPath, safeFileName)];
         l_processed := processedCount;
         l_added := addedCount |}
  end
  end.

(** [Certificate.find({ _id: { $in: certificateIds }, createdBy, isActive: true })]
    once the list is cast. *)
Definition findForDownload (w : World num) (ids : list N) (admin : N)
    : list (Certificate num) :=
  filter (fun c => existsb (N.eqb (c_id c)) ids && N.eqb (c_createdBy c) admin
                   && c_isActive c)
         (certificates w).

Definition bulkDownload (wire : Wire num) (round : num -> num) (w : World num)
    (service : Service num) (req : BulkDownloadRequest)
    : World num * Service num * BulkResponse :=
  match bd_certificateIds req with
  | None | Some [] =>
      (w, service,
       Answer (Json 400 false "Please provide an array of certificate IDs to download"
                 NoPayload))
  | Some certificateIds =>
  let format := match bd_format req with Some f => f | None => "pdf" end in
  match parse_format format with
  | None =>
      (w, service,
       Answer (Json 400 false
                 ("Invalid format. Use " ++ dquote ++ "pdf" ++ dquote ++ " or "
                  ++ dquote ++ "png" ++ dquote)%string NoPayload))
  | Some fmt =>
  match castIds certificateIds with
  | Throw castError =>
      (* the [catch] of the route: no header is sent yet *)
      (w, sendBulkDownloadError wire service (bd_admin req) (Some castError),
       Answer (Json 500 false "Server error during bulk download" NoPayload))
  | Ok ids =>
  let found := findForDownload w ids (bd_admin req) in
  if Nat.eqb (List.length found) 0 then
    (w, service,
     Answer (Json 404 false "No valid certificates found for download" NoPayload))
  else
  let total := N.of_nat (List.length found) in
  let service :=
    sendBulkDownloadProgress wire service (bd_admin req)
      (notice "started" total 0 0 None None "Starting bulk download preparation..."
         None) in
  let timestamp := dashed (toISOString wire (clock_reads service)) in
  let service := {| clients := clients service; outbox := outbox service;
                    clock_reads := clock_reads service + 1 |} in
  let zipFileName :=
    ("certificates-" ++ format ++ "-" ++ timestamp ++ ".zip")%string in
  let st :=
    fold_left (addToArchive wire round (bd_admin req) fmt total) found
      {| l_world := w; l_service := service; l_entries := [];
         l_processed := 0; l_added := 0 |} in
  if N.eqb (l_added st) 0 then
    (l_world st, l_service st,
     Answer (Json 404 false "No valid certificate files found for download" NoPayload))
  else
  let service :=
    sendBulkDownloadProgress wire (l_service st) (bd_admin req)
      (notice "finalizing" total (l_processed st) (l_added st) None None
         "Finalizing ZIP archive..." (Some (lit 95))) in
  let service :=
    sendBulkDownloadComplete wire service (bd_admin req)
      (notice "completed" total (l_processed st) (l_added st) None (Some zipFileName)
         ("Successfully created ZIP archive with " ++ number (l_added st)
          ++ " certificates")%string (Some (lit 100))) in
  (l_world st, service, ZipFile zipFileName (l_entries st))
  end
  end
  end.

End Route.

Arguments BulkResponse : clear implicits.
Arguments Loop : clear implicits.

End BulkDownload.

(* ================================================================== *)
(** * Vocabulary of the further properties *)
(* ================================================================== *)

Module MoreProperties.

Import Schema JSString CertificateModel Generator Routes MoreRoutes.

Section Invariants.

Context {num : Type} `{JSNumber num}.

(** Identifiers are unique: no two stored certificates share an [_id] or a
    certificateId, and every [_id] in use is below the next one to hand
    out. *)
Definition identifiers_unique (w : World num) : Prop :=
  NoDup (map (@c_id num) (certificates w))
  /\ NoDup (map (@certificateId num) (certificates w))
  /\ (forall c, In c (certificates w) -> (c_id c < next_oid w)%N).

(** The file metadata of a record fits its status: both entries for a
    generated record, none for a pending or failed one. *)
Definition files_fit_status (c : Certificate num) : Prop :=
  match c_status c with
  | generated =>
      exists pdfInfo pngInfo,
        c_generatedFiles c = {| gf_pdf := Some pdfInfo; gf_png := Some pngInfo |}
        /\ fi_filename pdfInfo = (certificateId c ++ ".pdf")%string
        /\ fi_filename pngInfo = (certificateId c ++ ".png")%string
        /\ fi_path pdfInfo = output_path (certificateId c) fmt_pdf
        /\ fi_path pngInfo = output_path (certificateId c) fmt_png
  | pending | failed => c_generatedFiles c = no_files
  | archived => True
  end.

(** A record passes the validators of the schema, is inactive exactly when
    archived, and carries the file metadata of its status. *)
Definition record_sound (c : Certificate num) : Prop :=
  schema_valid c = true
  /\ (c_isActive c = false <-> c_status c = archived)
  /\ files_fit_status c.

Definition records_sound (w : World num) : Prop :=
  forall c, In c (certificates w) -> record_sound c.

(** The certificates of the other admins. *)
Definition others (admin : N) (w : World num) : list (Certificate num) :=
  filter (fun c => negb (N.eqb (c_createdBy c) admin)) (certificates w).

(** The ways one request of an admin changes the stored certificates:
    not at all, by saving a stored record of the admin again, by deleting
    the admin's active records, or by storing a new record of the admin. *)
Inductive Change (admin : N) (w w' : World num) : Prop :=
| Unchanged :
    certificates w' = certificates w ->
    (next_oid w <= next_oid w')%N ->
    Change admin w w'
| Saved (stored saved : Certificate num) :
    In stored (certificates w) ->
    c_createdBy stored = admin ->
    c_id saved = c_id stored ->
    certificateId saved = certificateId stored ->
    c_createdBy saved = admin ->
    (record_sound stored -> record_sound saved) ->
    certificates w' = update saved (certificates w) ->
    next_oid w' = next_oid w ->
    Change admin w w'
| Removed :
    certificates w' = filter (fun c => negb (bulk_deleted admin c)) (certificates w) ->
    next_oid w' = next_oid w ->
    Change admin w w'
| Added (new : Certificate num) :
    c_id new = next_oid w ->
    (forall c, In c (certificates w) -> certificateId c <> certificateId new) ->
    c_createdBy new = admin ->
    record_sound new ->
    certificates w' = update new (certificates w) ++ [new] ->
    next_oid w' = (next_oid w + 1)%N ->
    Change admin w w'.

(** The certificate a response carries, if any. *)
Definition response_certificate (r : Response num) : option (Certificate num) :=
  match r with
  | Json _ _ _ (CertificatePayload c) => Some c
  | _ => None
  end.

(** The usage counter stored for a template. *)
Definition usageCount (w : World num) (id : N) : option N :=
  option_map (@t_usageCount num) (find (fun t => N.eqb (t_id t) id) (templates w)).

(** What the two renderers may write for one certificate. *)
Definition own_paths (id : string) : list string :=
  [output_path id fmt_pdf; output_path id fmt_png].

(** The fonts the two engines are ever asked for. *)
Definition canvas_fonts : list string :=
  ["Arial"; "Times New Roman"; "Courier New"; "Georgia"; "Verdana"].

Definition pdf_fonts : list string := ["Helvetica"; "Times-Roman"; "Courier"].

(** The category of a system font. *)
Inductive FontCategory : Type := Sans | Serif | Mono.

Definition category_of (font : string) : FontCategory :=
  if String.eqb font "Times New Roman" || String.eqb font "Georgia"
     || String.eqb font "Times-Roman" then Serif
  else if String.eqb font "Courier New" || String.eqb font "Courier" then Mono
  else Sans.

Definition FontCategory_eqb (a b : FontCategory) : bool :=
  match a, b with
  | Sans, Sans | Serif, Serif | Mono, Mono => true
  | _, _ => false
  end.

End Invariants.

End MoreProperties.

(* ================================================================== *)
(** * Concrete sessions *)
(* ================================================================== *)

Module MoreSamples.

Import Schema JSString CertificateModel Generator Routes MoreRoutes Samples.
Import WebSocketService BulkDownload.

Section Sessions.

Context {num : Type} `{JSNumber num}.

(** Two admins: admin 1 with one generated certificate, admin 2 with a
    generated and an archived one; the files of the generated ones are on
    disk. *)
Definition world_of_two_admins : World num :=
  {| templates := [scenario_template; gif_template];
     certificates :=
       [sample_certificate 100 "CERT-2024-001" generated
          (files_of 100 "CERT-2024-001") 1;
        sample_certificate 101 "CERT-2024-002" generated
          (files_of 101 "CERT-2024-002") 2;
        archive (sample_certificate 102 "CERT-2024-003" failed no_files 2)];
     disk := [(output_path "CERT-2024-001" fmt_pdf, blank_pdf);
              (output_path "CERT-2024-001" fmt_png, blank_png);
              (output_path "CERT-2024-002" fmt_pdf, blank_pdf);
              (output_path "CERT-2024-002" fmt_png, blank_png)];
     next_oid := 103; events := [] |}.

(** Requests of admin 1: a certificate is created, the stored one is
    downloaded, annotated and archived, then all are deleted. *)
Definition session_of_admin_1 : list (Request num) :=
  [PostCreate year_2024 (sample_request 7 (Some scenario_values));
   GetDownload 1 100 "pdf";
   PutCertificate 1 100 (Some " checked ") (Some ["demo"]);
   DeleteCertificate 1 100;
   DeleteBulk 1 (Some confirmation)].

(** Three sockets of admin 1, one of them closed, and one socket of
    admin 2. *)
Definition sample_service : Service num :=
  {| clients := [("1_1714557600000", {| adminId := 1; readyState := OPEN |});
                 ("1_1714557600250", {| adminId := 1; readyState := CLOSED |});
                 ("2_1714557600900", {| adminId := 2; readyState := OPEN |});
                 ("1_1714557601000", {| adminId := 1; readyState := OPEN |})];
     outbox := []; clock_reads := 0 |}.

(** Sending to the last socket of admin 1 throws. *)
Definition sample_wire : Wire num :=
  {| send_returns := fun clientId _ => negb (String.eqb clientId "1_1714557601000");
     toISOString := fun _ => "2024-05-01T10:00:00.000Z" |}.

Definition started_notice : Notice num :=
  notice "started" 1 0 0 None None "Starting bulk download preparation..." None.

(** Admin 1 asks for the PDF of the stored certificate 100. *)
Definition sample_bulk_download : BulkDownloadRequest :=
  {| bd_admin := 1; bd_certificateIds := Some [Ok 100%N]; bd_format := None |}.

(** The same request with an identifier that is no ObjectId. *)
Definition malformed_bulk_download : BulkDownloadRequest :=
  {| bd_admin := 1;
     bd_certificateIds := Some [Ok 100%N; Throw "Cast to ObjectId failed"];
     bd_format := None |}.

End Sessions.

End MoreSamples.

(* ================================================================== *)
(** * Properties of the exact arithmetic *)
(* ================================================================== *)

Module ExactFacts.

Import Exact.


Lemma sign_Eq_zero (q : Qc) : sign q = Eq -> q = 0%Qc.
Proof.
  unfold sign. intros Hs. now apply Qceq_alt.
Qed.

Lemma sign_zero_iff (q : Qc) : sign q = Eq <-> q = 0%Qc.
Proof.
  split; [apply sign_Eq_zero|]. intros ->. reflexivity.
Qed.

Lemma sign_one : sign 1%Qc = Gt.
Proof. reflexivity. Qed.



Lemma lit_one : of_Z 1 = Fin 1%Qc.
Proof.
  reflexivity.
Qed.

Lemma truthy_not_zero (a : xnum) : xtruthy a = true -> is_zero a = false.
Proof.
  destruct a as [q| | |]; simpl; try reflexivity.
  now destruct (sign q).
Qed.

Lemma sign_mult_nonzero (p q : Qc) :
  sign p <> Eq -> sign q <> Eq -> sign (p * q) <> Eq.
Proof.
  intros Hp Hq Hpq. apply sign_Eq_zero in Hpq.
  apply Qcmult_integral in Hpq.
  destruct Hpq as [->| ->]; [now apply Hp | now apply Hq].
Qed.

Lemma sign_div_nonzero (p q : Qc) :
  sign p <> Eq -> sign q <> Eq -> sign (p / q) <> Eq.
Proof.
  intros Hp Hq Hpq. apply sign_Eq_zero in Hpq.
  assert (Hq0 : q <> 0%Qc) by (intros ->; now apply Hq).
  pose proof (@Qcmult_div_r p q Hq0) as Hm.
  rewrite Hpq, Qcmult_0_r in Hm. subst p. now apply Hp.
Qed.

Lemma truthy_Fin (q : Qc) : xtruthy (Fin q) = true <-> sign q <> Eq.
Proof.
  simpl. destruct (sign q); split; intros; congruence.
Qed.

Lemma positive_finite_inv (b : xnum) :
  positive_finite b = true -> exists q, b = Fin q /\ sign q = Gt.
Proof.
  destruct b as [q| | |]; simpl; try discriminate.
  destruct (sign q) eqn:Hq; try discriminate. intros _. now exists q.
Qed.

Lemma xmul_nonzero (a b : xnum) :
  xtruthy a = true -> positive_finite b = true -> xtruthy (xmul a b) = true.
Proof.
  intros Ha Hb. apply positive_finite_inv in Hb. destruct Hb as [q [-> Hq]].
  destruct a as [p| | |]; simpl in *; try discriminate.
  - apply truthy_Fin, sign_mult_nonzero.
    + now apply truthy_Fin.
    + congruence.
  - now rewrite Hq.
  - now rewrite Hq.
Qed.

Lemma xdiv_nonzero (a b : xnum) :
  xtruthy a = true -> positive_finite b = true -> xtruthy (xdiv a b) = true.
Proof.
  intros Ha Hb. apply positive_finite_inv in Hb. destruct Hb as [q [-> Hq]].
  destruct a as [p| | |]; simpl in *; try discriminate.
  - rewrite Hq. apply truthy_Fin, sign_div_nonzero.
    + now apply truthy_Fin.
    + congruence.
  - now rewrite Hq.
  - now rewrite Hq.
Qed.

Lemma lit_800_truthy : xtruthy (of_Z 800) = true.
Proof. reflexivity. Qed.

End ExactFacts.

(* ================================================================== *)
(** * The two renderers agree *)
(* ================================================================== *)

Import Schema Generator Properties.

Section RendererAgreement.

Context {num : Type} `{JSNumber num}.






Lemma readFile_writeFile (path : string) (content : FileContent num) (disk : Disk num) :
  readFile path (writeFile path content disk) = Some content.
Proof.
  unfold writeFile. simpl. now rewrite String.eqb_refl.
Qed.

(** What each renderer leaves on disk when it returns a path. *)
Lemma generatePNG_written (host : Host num) (disk disk' : Disk num)
    (certificate : Certificate num) (template : Template num)
    (placeholderValues : option PlaceholderValues) (templateImagePath path : string)
    (containerDimensions : option (ContainerDimensions num)) :
  generatePNG host disk certificate template placeholderValues templateImagePath
              containerDimensions = (disk', Ok path) ->
  exists templateImage texts,
    loadImage host templateImagePath = Ok templateImage
    /\ pngOverlay (fst (pngScale templateImage containerDimensions))
                  (snd (pngScale templateImage containerDimensions))
                  placeholderValues (t_placeholders template) = Ok texts
    /\ path = output_path (certificateId certificate) fmt_png
    /\ disk' = writeFile path
                 (PngFile {| png_width := img_width templateImage;
                             png_height := img_height templateImage;
                             png_background := templateImagePath;
                             png_texts := texts |}) disk.
Proof.
  unfold generatePNG. intros E.
  destruct (loadImage host templateImagePath) as [templateImage|m]; [|discriminate].
  destruct (pngScale templateImage containerDimensions) as [scaleX scaleY] eqn:Hs.
  destruct (pngOverlay scaleX scaleY placeholderValues (t_placeholders template))
    as [texts|m] eqn:Ho; [|discriminate].
  destruct (writable host _); [|discriminate].
  cbn [rethrow] in E. injection E as <- <-.
  exists templateImage, texts. rewrite Hs. cbn [fst snd].
  repeat split; try reflexivity; exact Ho.
Qed.

Lemma generatePDF_written (host : Host num) (disk disk' : Disk num)
    (certificate : Certificate num) (template : Template num)
    (placeholderValues : option PlaceholderValues) (templateImagePath path : string)
    (containerDimensions : option (ContainerDimensions num)) :
  generatePDF host disk certificate template placeholderValues templateImagePath
              containerDimensions = (disk', Ok path) ->
  exists templateImage texts,
    loadImage host templateImagePath = Ok templateImage
    /\ pdfOverlay (fst (pdfScale templateImage containerDimensions))
                  (snd (pdfScale templateImage containerDimensions))
                  placeholderValues (t_placeholders template) = Ok texts
    /\ path = output_path (certificateId certificate) fmt_pdf
    /\ readFile path disk'
       = Some (PdfFile {| pdf_width := img_width templateImage;
                          pdf_height := img_height templateImage;
                          pdf_background := templateImagePath;
                          pdf_texts := texts |}).
Proof.
  unfold generatePDF. intros E.
  destruct (loadImage host templateImagePath) as [templateImage|m]; [|discriminate].
  destruct (embedImage host templateImagePath) as [[]|m]; [|discriminate].
  destruct (pdfScale templateImage containerDimensions) as [scaleX scaleY] eqn:Hs.
  destruct (pdfOverlay scaleX scaleY placeholderValues (t_placeholders template))
    as [texts|m] eqn:Ho; [|discriminate].
  destruct (writable host _); [|discriminate].
  cbn [rethrow] in E. injection E as <- <-.
  exists templateImage, texts. rewrite Hs. cbn [fst snd].
  repeat split; try reflexivity; [exact Ho|apply readFile_writeFile].
Qed.


End RendererAgreement.

(* ================================================================== *)
(** * What the overlay loops draw *)
(* ================================================================== *)

Section Overlay.

Context {num : Type} `{JSNumber num}.

Variables scaleX scaleY : num.

Lemma has_value_false (values : PlaceholderValues) (p : Placeholder num) :
  has_value values p = false <-> resolveValue (Some values) p = Ok "".
Proof.
  unfold has_value, resolveValue. split.
  - intros E. apply negb_false_iff, String.eqb_eq in E. now rewrite E.
  - intros E. injection E as ->. reflexivity.
Qed.

Lemma pngPlaceholder_skips (values : PlaceholderValues) (p : Placeholder num) :
  has_value values p = false ->
  pngPlaceholder scaleX scaleY (Some values) p = Ok [].
Proof.
  intros E. apply has_value_false in E.
  unfold pngPlaceholder. now rewrite E.
Qed.

Lemma pdfPlaceholder_skips (values : PlaceholderValues) (p : Placeholder num) :
  has_value values p = false ->
  pdfPlaceholder scaleX scaleY (Some values) p = Ok [].
Proof.
  intros E. apply has_value_false in E.
  unfold pdfPlaceholder. now rewrite E.
Qed.

Lemma pngPlaceholder_draws (values : PlaceholderValues) (p : Placeholder num) :
  has_value values p = true ->
  exists t,
    pngPlaceholder scaleX scaleY (Some values) p = Ok [t]
    /\ canvas_geometry t = scaled_geometry scaleX scaleY p
    /\ ct_value t = or_string (pv_get values (p_type p)) ""
    /\ ct_value t <> "".
Proof.
  unfold has_value, pngPlaceholder, resolveValue. cbn [bind]. intros E.
  apply negb_true_iff in E. rewrite E.
  eexists. split; [reflexivity|]. repeat split.
  simpl. now apply String.eqb_neq.
Qed.

Lemma pdfPlaceholder_draws (values : PlaceholderValues) (p : Placeholder num) :
  has_value values p = true ->
  exists t,
    pdfPlaceholder scaleX scaleY (Some values) p = Ok [t]
    /\ pdf_geometry t = scaled_geometry scaleX scaleY p
    /\ pt_value t = or_string (pv_get values (p_type p)) ""
    /\ pt_value t <> "".
Proof.
  unfold has_value, pdfPlaceholder, resolveValue. cbn [bind]. intros E.
  apply negb_true_iff in E. rewrite E.
  eexists. split; [reflexivity|]. repeat split.
  simpl. now apply String.eqb_neq.
Qed.

(** With the values present the raster loop never throws; it draws the
    placeholders that have a value, in order, at the scaled geometry. *)
Lemma pngOverlay_draws (values : PlaceholderValues) (ps : list (Placeholder num)) :
  exists texts,
    pngOverlay scaleX scaleY (Some values) ps = Ok texts
    /\ map canvas_geometry texts
       = map (scaled_geometry scaleX scaleY) (filter (has_value values) ps)
    /\ Forall (fun t => ct_value t <> "") texts.
Proof.
  induction ps as [|p ps (texts & IH & Hg & Hv)].
  - exists []. repeat split. constructor.
  - cbn [pngOverlay filter]. rewrite IH.
    destruct (has_value values p) eqn:E.
    + destruct (pngPlaceholder_draws values p E) as (t & -> & Ht & _ & Hne).
      exists (t :: texts). cbn. rewrite Ht, Hg. repeat split. now constructor.
    + rewrite (pngPlaceholder_skips values p E). now exists texts.
Qed.

Lemma pdfOverlay_draws (values : PlaceholderValues) (ps : list (Placeholder num)) :
  exists texts,
    pdfOverlay scaleX scaleY (Some values) ps = Ok texts
    /\ map pdf_geometry texts
       = map (scaled_geometry scaleX scaleY) (filter (has_value values) ps)
    /\ Forall (fun t => pt_value t <> "") texts.
Proof.
  induction ps as [|p ps (texts & IH & Hg & Hv)].
  - exists []. repeat split. constructor.
  - cbn [pdfOverlay filter]. rewrite IH.
    destruct (has_value values p) eqn:E.
    + destruct (pdfPlaceholder_draws values p E) as (t & -> & Ht & _ & Hne).
      exists (t :: texts). cbn. rewrite Ht, Hg. repeat split. now constructor.
    + rewrite (pdfPlaceholder_skips values p E). now exists texts.
Qed.

Lemma pngOverlay_app (pv : option PlaceholderValues) (ps qs : list (Placeholder num)) :
  pngOverlay scaleX scaleY pv (ps ++ qs)
  = (drawn <- pngOverlay scaleX scaleY pv ps ;;
     more <- pngOverlay scaleX scaleY pv qs ;; Ok (drawn ++ more)).
Proof.
  induction ps as [|p ps IH]; cbn [pngOverlay app bind].
  - now destruct (pngOverlay scaleX scaleY pv qs).
  - rewrite IH. destruct (pngPlaceholder scaleX scaleY pv p); [|reflexivity].
    cbn [bind]. destruct (pngOverlay scaleX scaleY pv ps); [|reflexivity].
    cbn [bind]. destruct (pngOverlay scaleX scaleY pv qs); [|reflexivity].
    cbn [bind]. now rewrite app_assoc.
Qed.

Lemma pdfOverlay_app (pv : option PlaceholderValues) (ps qs : list (Placeholder num)) :
  pdfOverlay scaleX scaleY pv (ps ++ qs)
  = (drawn <- pdfOverlay scaleX scaleY pv ps ;;
     more <- pdfOverlay scaleX scaleY pv qs ;; Ok (drawn ++ more)).
Proof.
  induction ps as [|p ps IH]; cbn [pdfOverlay app bind].
  - now destruct (pdfOverlay scaleX scaleY pv qs).
  - rewrite IH. destruct (pdfPlaceholder scaleX scaleY pv p); [|reflexivity].
    cbn [bind]. destruct (pdfOverlay scaleX scaleY pv ps); [|reflexivity].
    cbn [bind]. destruct (pdfOverlay scaleX scaleY pv qs); [|reflexivity].
    cbn [bind]. now rewrite app_assoc.
Qed.

Lemma pngOverlay_skip (values : PlaceholderValues) (p : Placeholder num)
    (before after : list (Placeholder num)) :
  has_value values p = false ->
  pngOverlay scaleX scaleY (Some values) (before ++ p :: after)
  = pngOverlay scaleX scaleY (Some values) (before ++ after).
Proof.
  intros E. rewrite !pngOverlay_app. cbn [pngOverlay].
  rewrite (pngPlaceholder_skips values p E). cbn [bind].
  destruct (pngOverlay scaleX scaleY (Some values) before); [|reflexivity].
  cbn [bind]. now destruct (pngOverlay scaleX scaleY (Some values) after).
Qed.

Lemma pdfOverlay_skip (values : PlaceholderValues) (p : Placeholder num)
    (before after : list (Placeholder num)) :
  has_value values p = false ->
  pdfOverlay scaleX scaleY (Some values) (before ++ p :: after)
  = pdfOverlay scaleX scaleY (Some values) (before ++ after).
Proof.
  intros E. rewrite !pdfOverlay_app. cbn [pdfOverlay].
  rewrite (pdfPlaceholder_skips values p E). cbn [bind].
  destruct (pdfOverlay scaleX scaleY (Some values) before); [|reflexivity].
  cbn [bind]. now destruct (pdfOverlay scaleX scaleY (Some values) after).
Qed.

End Overlay.

Section SkipProperty.

Context {num : Type} `{JSNumber num}.

Lemma generatePNG_placeholders (host : Host num) (disk : Disk num)
    (certificate : Certificate num) (template template' : Template num)
    (pv : option PlaceholderValues) (path : string)
    (cd : option (ContainerDimensions num)) :
  (forall sx sy, pngOverlay sx sy pv (t_placeholders template)
                 = pngOverlay sx sy pv (t_placeholders template')) ->
  generatePNG host disk certificate template pv path cd
  = generatePNG host disk certificate template' pv path cd.
Proof.
  intros E. unfold generatePNG.
  destruct (loadImage host path) as [templateImage|m]; [|reflexivity].
  destruct (pngScale templateImage cd) as [sx sy]. now rewrite E.
Qed.

Lemma generatePDF_placeholders (host : Host num) (disk : Disk num)
    (certificate : Certificate num) (template template' : Template num)
    (pv : option PlaceholderValues) (path : string)
    (cd : option (ContainerDimensions num)) :
  (forall sx sy, pdfOverlay sx sy pv (t_placeholders template)
                 = pdfOverlay sx sy pv (t_placeholders template')) ->
  generatePDF host disk certificate template pv path cd
  = generatePDF host disk certificate template' pv path cd.
Proof.
  intros E. unfold generatePDF.
  destruct (loadImage host path) as [templateImage|m]; [|reflexivity].
  destruct (embedImage host path); [|reflexivity].
  destruct (pdfScale templateImage cd) as [sx sy]. now rewrite E.
Qed.

(** C8. For a placeholder whose resolved value
    ([placeholderValues[placeholder.type] || '']) is empty, the body of either
    loop returns without drawing a text and without throwing; with the
    placeholder in the list both loops and both renderers do exactly what they
    do with it removed; and no text that is drawn is empty. *)
Theorem empty_values_are_skipped :
  forall (values : PlaceholderValues) (p : Placeholder num)
         (before after : list (Placeholder num)) (scaleX scaleY : num),
    resolveValue (Some values) p = Ok "" ->
    pngPlaceholder scaleX scaleY (Some values) p = Ok []
    /\ pdfPlaceholder scaleX scaleY (Some values) p = Ok []
    /\ pngOverlay scaleX scaleY (Some values) (before ++ p :: after)
       = pngOverlay scaleX scaleY (Some values) (before ++ after)
    /\ pdfOverlay scaleX scaleY (Some values) (before ++ p :: after)
       = pdfOverlay scaleX scaleY (Some values) (before ++ after)
    /\ (forall texts,
          pngOverlay scaleX scaleY (Some values) (before ++ p :: after) = Ok texts ->
          Forall (fun t => ct_value t <> "") texts)
    /\ (forall texts,
          pdfOverlay scaleX scaleY (Some values) (before ++ p :: after) = Ok texts ->
          Forall (fun t => pt_value t <> "") texts)
    /\ (forall host disk certificate template path containerDimensions,
          generatePNG host disk certificate
            (with_placeholders template (before ++ p :: after))
            (Some values) path containerDimensions
          = generatePNG host disk certificate
              (with_placeholders template (before ++ after))
              (Some values) path containerDimensions
          /\ generatePDF host disk certificate
               (with_placeholders template (before ++ p :: after))
               (Some values) path containerDimensions
             = generatePDF host disk certificate
                 (with_placeholders template (before ++ after))
                 (Some values) path containerDimensions).
Proof.
  intros values p before after scaleX scaleY Hempty.
  apply has_value_false in Hempty.
  split; [now apply pngPlaceholder_skips|].
  split; [now apply pdfPlaceholder_skips|].
  destruct (pngOverlay_draws scaleX scaleY values (before ++ p :: after))
    as (png & Hpng & _ & Hpv).
  destruct (pdfOverlay_draws scaleX scaleY values (before ++ p :: after))
    as (pdf & Hpdf & _ & Hdv).
  split; [now apply pngOverlay_skip|].
  split; [now apply pdfOverlay_skip|].
  split; [intros texts E; rewrite Hpng in E; now injection E as <-|].
  split; [intros texts E; rewrite Hpdf in E; now injection E as <-|].
  intros host disk certificate template path containerDimensions. split.
  - apply generatePNG_placeholders. intros sx sy. now apply pngOverlay_skip.
  - apply generatePDF_placeholders. intros sx sy. now apply pdfOverlay_skip.
Qed.


End SkipProperty.

(* ================================================================== *)
(** * Scaling in exact arithmetic *)
(* ================================================================== *)

Import Exact ExactFacts Samples.

Lemma xeqb_eq (a b : xnum) : xeqb a b = true <-> a = b.
Proof.
  split.
  - destruct a as [p| | |], b as [q| | |]; simpl; try discriminate; try reflexivity.
    intros E. f_equal. apply Qc_is_canon. now apply Qeq_bool_iff.
  - intros <-. destruct a as [p| | |]; simpl; try reflexivity.
    apply Qeq_bool_iff. reflexivity.
Qed.

Lemma xeqb_neq (a b : xnum) : xeqb a b = false -> a <> b.
Proof.
  intros E Heq. apply xeqb_eq in Heq. congruence.
Qed.

(** Closed equations between exact numbers, and between their tuples, are
    settled by evaluation. *)
Ltac exact_eval :=
  unfold scaled_geometry, scaled_by_scaleX, editor_geometry;
  repeat match goal with
         | |- (_, _) = (_, _) => f_equal
         end;
  apply xeqb_eq; vm_compute; reflexivity.






Lemma display_size_nonzero (templateImage : Image xnum)
    (containerDimensions : option (ContainerDimensions xnum)) :
  positive_finite (img_width templateImage) = true ->
  positive_finite (img_height templateImage) = true ->
  xtruthy (fst (pngDisplaySize templateImage containerDimensions)) = true
  /\ xtruthy (snd (pngDisplaySize templateImage containerDimensions)) = true.
Proof.
  intros Hw Hh. unfold pngDisplaySize. cbn [fst snd].
  assert (Hfw : xtruthy (or_number (cd_width_opt containerDimensions) (lit 800)) = true).
  { unfold or_number. destruct (cd_width_opt containerDimensions) as [w|]; [|reflexivity].
    cbn [truthy xnum_number]. destruct (xtruthy w) eqn:E; [exact E|reflexivity]. }
  split; [exact Hfw|].
  unfold or_number at 1.
  destruct (cd_height_opt containerDimensions) as [h|].
  - cbn [truthy xnum_number]. destruct (xtruthy h) eqn:E; [exact E|].
    apply xdiv_nonzero; [|exact Hw]. now apply xmul_nonzero.
  - apply xdiv_nonzero; [|exact Hw]. now apply xmul_nonzero.
Qed.

(** In exact arithmetic, where no product rounds or underflows, and with a
    decoded image of positive width and height: a missing
    [containerDimensions] gives the display size 800 x (800 * actualHeight /
    actualWidth); a missing or zero width is replaced by 800 and a missing or
    zero height by width * actualHeight / actualWidth, in both renderers; and
    the two divisors of the scale factors are neither zero nor NaN. *)
Lemma exact_fallback_display_size_never_zero :
  forall (templateImage : Image xnum)
         (containerDimensions : option (ContainerDimensions xnum)),
    positive_finite (img_width templateImage) = true ->
    positive_finite (img_height templateImage) = true ->
    let display := pngDisplaySize templateImage containerDimensions in
    let fallbackHeight (width : xnum) :=
      ndiv (nmul width (img_height templateImage)) (img_width templateImage) in
    pdfDisplaySize templateImage containerDimensions = display
    /\ (containerDimensions = None -> display = (lit 800, fallbackHeight (lit 800)))
    /\ (unusable (cd_width_opt containerDimensions) = true -> fst display = lit 800)
    /\ (unusable (cd_height_opt containerDimensions) = true ->
        snd display = fallbackHeight (fst display))
    /\ is_zero (fst display) = false
    /\ is_zero (snd display) = false
    /\ truthy (fst display) = true
    /\ truthy (snd display) = true.
Proof.
  intros templateImage containerDimensions Hw Hh display fallbackHeight.
  destruct (display_size_nonzero templateImage containerDimensions Hw Hh) as [Hx Hy].
  fold display in Hx, Hy.
  split; [reflexivity|].
  split; [intros ->; reflexivity|].
  split.
  { unfold display, pngDisplaySize, unusable, or_number. cbn [fst].
    destruct (cd_width_opt containerDimensions) as [w|]; [|reflexivity].
    intros E. apply negb_true_iff in E. now rewrite E. }
  split.
  { unfold display, pngDisplaySize, unusable, fallbackHeight. cbn [fst snd].
    unfold or_number at 1.
    destruct (cd_height_opt containerDimensions) as [h|]; [|reflexivity].
    intros E. apply negb_true_iff in E. now rewrite E. }
  split; [now apply truthy_not_zero|].
  split; [now apply truthy_not_zero|].
  split; assumption.
Qed.

(** C4. The fallback does not keep the divisor of scaleY away from zero in
    the arithmetic the code runs in.  For a 1000x400 template and a request
    whose [containerDimensions] carries the width 5e-324 (the smallest
    positive binary64 number) and no height, the fallback height
    width * actualHeight / actualWidth underflows to 0: both renderers divide
    actualHeight by zero, scaleY is Infinity, and the text is drawn at
    infinite coordinates. *)
Theorem fallback_height_underflows_to_zero :
  let templateImage : Image float :=
    {| img_width := 1000%float; img_height := 400%float |} in
  let containerDimensions :=
    Some {| cd_width := Some 0x1p-1074%float; cd_height := None |} in
  positive_float (img_width templateImage) = true
  /\ positive_float (img_height templateImage) = true
  /\ unusable (cd_height_opt containerDimensions) = true
  /\ pngDisplaySize templateImage containerDimensions = (0x1p-1074, 0)%float
  /\ pdfDisplaySize templateImage containerDimensions = (0x1p-1074, 0)%float
  /\ PrimFloat.eqb (snd (pngDisplaySize templateImage containerDimensions)) 0%float
     = true
  /\ pngScale templateImage containerDimensions = (infinity, infinity)
  /\ pdfScale templateImage containerDimensions = (infinity, infinity)
  /\ geometry_of canvas_geometry
       (pngPlaceholder (fst (pngScale templateImage containerDimensions))
                       (snd (pngScale templateImage containerDimensions))
                       (Some scenario_values) name_placeholder)
     = Ok [(infinity, infinity, infinity)]
  /\ geometry_of pdf_geometry
       (pdfPlaceholder (fst (pdfScale templateImage containerDimensions))
                       (snd (pdfScale templateImage containerDimensions))
                       (Some scenario_values) name_placeholder)
     = Ok [(infinity, infinity, infinity)].
Proof. vm_compute. repeat split. Qed.

Lemma placeholder_geometry (num : Type) (arith : JSNumber num) (scaleX scaleY : num)
    (values : PlaceholderValues) (p : Placeholder num) :
  has_value values p = true ->
  geometry_of canvas_geometry (pngPlaceholder scaleX scaleY (Some values) p)
  = Ok [scaled_geometry scaleX scaleY p]
  /\ geometry_of pdf_geometry (pdfPlaceholder scaleX scaleY (Some values) p)
     = Ok [scaled_geometry scaleX scaleY p].
Proof.
  intros Hv.
  destruct (pngPlaceholder_draws scaleX scaleY values p Hv) as (t & -> & Ht & _).
  destruct (pdfPlaceholder_draws scaleX scaleY values p Hv) as (t' & -> & Ht' & _).
  simpl. now rewrite Ht, Ht'.
Qed.

(** C2 as worded fails: with a 1000x600 template shown in an 800x600
    container (scaleX = 1.25, scaleY = 1) the name placeholder at y = 50 is
    drawn at y = 50, not at 50 * scaleX = 62.5. *)
Lemma y_is_not_scaled_by_scaleX :
  geometry_of canvas_geometry
    (pngPlaceholder (fst (pngScale (num := xnum) scenario_image stretched_container))
                    (snd (pngScale scenario_image stretched_container))
                    (Some scenario_values) name_placeholder)
  = Ok [(of_Z 125, of_Z 50, of_Z 30)]
  /\ scaled_by_scaleX (fst (pngScale (num := xnum) scenario_image stretched_container))
                      name_placeholder
     = (of_Z 125, of_Q (125 # 2), of_Z 30)
  /\ ~ drawn_scaled_by_scaleX (num := xnum) scenario_image stretched_container
         scenario_values name_placeholder.
Proof.
  destruct (placeholder_geometry xnum_number
              (fst (pngScale (num := xnum) scenario_image stretched_container))
              (snd (pngScale scenario_image stretched_container))
              scenario_values name_placeholder eq_refl) as [Hpng _].
  split; [|split].
  - rewrite Hpng. do 2 f_equal. exact_eval.
  - exact_eval.
  - intros [Hclaim _]. rewrite Hpng in Hclaim.
    apply (f_equal (fun r => match r with
                             | Ok [(_, y, _)] => y
                             | _ => NaN
                             end)) in Hclaim.
    revert Hclaim. apply xeqb_neq. vm_compute. reflexivity.
Qed.


Lemma empty_values_are_skipped_witness :
  resolveValue (Some name_only_values) (id_placeholder (num := float)) = Ok ""
  /\ pdfPlaceholder 1.25%float 1.25%float (Some name_only_values) id_placeholder
     = Ok []
  /\ pngOverlay 1.25%float 1.25%float (Some name_only_values)
       [name_placeholder; id_placeholder]
     = pngOverlay 1.25%float 1.25%float (Some name_only_values) [name_placeholder].
Proof.
  split; [reflexivity|].
  pose proof (@empty_values_are_skipped float _ name_only_values id_placeholder
                [name_placeholder] [] 1.25%float 1.25%float eq_refl)
    as (_ & Hpdf & Hpng & _).
  split; [exact Hpdf | exact Hpng].
Defined.

(* ================================================================== *)
(** * The certificate routes *)
(* ================================================================== *)

Import JSString CertificateModel Routes.

Unset Implicit Arguments.

(* ================================================================== *)
(** * Scaling with a supplied container *)
(* ================================================================== *)

Section SuppliedContainer.

Context {num : Type} `{JSNumber num}.

Lemma is_drawn_has_value (values : PlaceholderValues) (p : Placeholder num) :
  has_value values p = is_drawn values p.
Proof.
  unfold has_value, is_drawn, value_to_draw, or_string.
  destruct (pv_get values (p_type p)) as [value|]; [|reflexivity].
  destruct (String.eqb value "") eqn:E; [reflexivity|]. now rewrite E.
Qed.

Lemma drawn_is_scaled (scaleX scaleY : num) (p : Placeholder num) :
  scaled_geometry scaleX scaleY p = drawn_geometry scaleX scaleY p.
Proof. reflexivity. Qed.

(** With a width and a height supplied and usable, the scale factors are
    the true size over the supplied size, in both renderers. *)
Lemma supplied_scale (templateImage : Image num) (containerWidth containerHeight : num) :
  truthy containerWidth = true -> truthy containerHeight = true ->
  let containerDimensions :=
    Some {| cd_width := Some containerWidth; cd_height := Some containerHeight |} in
  pngScale templateImage containerDimensions
  = (ndiv (img_width templateImage) containerWidth,
     ndiv (img_height templateImage) containerHeight)
  /\ pdfScale templateImage containerDimensions
     = (ndiv (img_width templateImage) containerWidth,
        ndiv (img_height templateImage) containerHeight).
Proof.
  intros Hw Hh. cbv zeta.
  unfold pngScale, pdfScale, pngDisplaySize, pdfDisplaySize, or_number.
  cbn [cd_width_opt cd_height_opt cd_width cd_height]. now rewrite Hw, Hh.
Qed.

Lemma drawn_overlay (scaleX scaleY : num) (values : PlaceholderValues)
    (placeholders : list (Placeholder num)) :
  geometry_of canvas_geometry (pngOverlay scaleX scaleY (Some values) placeholders)
  = Ok (map (drawn_geometry scaleX scaleY) (filter (is_drawn values) placeholders))
  /\ geometry_of pdf_geometry (pdfOverlay scaleX scaleY (Some values) placeholders)
     = Ok (map (drawn_geometry scaleX scaleY) (filter (is_drawn values) placeholders)).
Proof.
  destruct (pngOverlay_draws scaleX scaleY values placeholders) as (png & -> & Hg & _).
  destruct (pdfOverlay_draws scaleX scaleY values placeholders) as (pdf & -> & Hd & _).
  cbn [geometry_of]. rewrite Hg, Hd.
  rewrite (filter_ext _ _ (is_drawn_has_value values)).
  split; f_equal; apply map_ext; intros p; apply drawn_is_scaled.
Qed.

End SuppliedContainer.

(** C2, amended. For every arithmetic, template image, supplied container
    width and height (neither zero nor NaN), values and placeholders whose
    font families are plain: scaleX is the true width over the container
    width and scaleY the true height over the container height, in both
    renderers, and both draw every placeholder that has a value with x and
    the font size (24 when unset) multiplied by scaleX and y multiplied by
    scaleY.  In the scenario (1000x600 template, 800x480 container) both
    scale factors are 1.25 and a placeholder at (100, 50) with font size 24
    is drawn at (125, 62.5) with font size 30 by both, in exact arithmetic
    and in binary64. *)
Theorem placeholders_scaled_by_scaleX_and_scaleY :
  (forall (num : Type) (arith : JSNumber num) (templateImage : Image num)
          (containerWidth containerHeight : num)
          (values : PlaceholderValues) (placeholders : list (Placeholder num)),
      truthy containerWidth = true ->
      truthy containerHeight = true ->
      forallb plain_font placeholders = true ->
      let containerDimensions :=
        Some {| cd_width := Some containerWidth; cd_height := Some containerHeight |} in
      let scaleX := ndiv (img_width templateImage) containerWidth in
      let scaleY := ndiv (img_height templateImage) containerHeight in
      pngScale templateImage containerDimensions = (scaleX, scaleY)
      /\ pdfScale templateImage containerDimensions = (scaleX, scaleY)
      /\ (forall p value,
            In p placeholders -> value_to_draw values p = Some value ->
            geometry_of canvas_geometry (pngPlaceholder scaleX scaleY (Some values) p)
            = Ok [drawn_geometry scaleX scaleY p]
            /\ geometry_of pdf_geometry (pdfPlaceholder scaleX scaleY (Some values) p)
               = Ok [drawn_geometry scaleX scaleY p])
      /\ geometry_of canvas_geometry
           (pngOverlay scaleX scaleY (Some values) placeholders)
         = Ok (map (drawn_geometry scaleX scaleY)
                   (filter (is_drawn values) placeholders))
      /\ geometry_of pdf_geometry
           (pdfOverlay scaleX scaleY (Some values) placeholders)
         = Ok (map (drawn_geometry scaleX scaleY)
                   (filter (is_drawn values) placeholders)))
  /\ (forall (values : PlaceholderValues) (p : Placeholder xnum),
        p_x p = of_Z 100 -> p_y p = of_Z 50 -> p_fontSize p = Some (of_Z 24) ->
        plain_font p = true -> is_drawn values p = true ->
        pngScale scenario_image scenario_container = (of_Q (5 # 4), of_Q (5 # 4))
        /\ pdfScale scenario_image scenario_container = (of_Q (5 # 4), of_Q (5 # 4))
        /\ geometry_of canvas_geometry
             (pngPlaceholder (of_Q (5 # 4)) (of_Q (5 # 4)) (Some values) p)
           = Ok [(of_Z 125, of_Q (125 # 2), of_Z 30)]
        /\ geometry_of pdf_geometry
             (pdfPlaceholder (of_Q (5 # 4)) (of_Q (5 # 4)) (Some values) p)
           = Ok [(of_Z 125, of_Q (125 # 2), of_Z 30)])
  /\ (forall (values : PlaceholderValues) (p : Placeholder float),
        p_x p = 100%float -> p_y p = 50%float -> p_fontSize p = Some 24%float ->
        plain_font p = true -> is_drawn values p = true ->
        pngScale scenario_image scenario_container = (1.25, 1.25)%float
        /\ pdfScale scenario_image scenario_container = (1.25, 1.25)%float
        /\ geometry_of canvas_geometry
             (pngPlaceholder 1.25%float 1.25%float (Some values) p)
           = Ok [(125, 62.5, 30)%float]
        /\ geometry_of pdf_geometry
             (pdfPlaceholder 1.25%float 1.25%float (Some values) p)
           = Ok [(125, 62.5, 30)%float]).
Proof.
  split; [|split].
  - intros num arith templateImage containerWidth containerHeight values placeholders
           Hw Hh _ containerDimensions scaleX scaleY.
    destruct (supplied_scale templateImage containerWidth containerHeight Hw Hh)
      as [Hpng Hpdf].
    split; [exact Hpng|]. split; [exact Hpdf|]. split; [|apply drawn_overlay].
    intros p value _ Hvalue.
    assert (Hv : has_value values p = true).
    { rewrite is_drawn_has_value. unfold is_drawn. now rewrite Hvalue. }
    destruct (placeholder_geometry arith scaleX scaleY values p Hv) as [-> ->].
    now rewrite drawn_is_scaled.
  - intros values p Hx Hy Hsize _ Hv.
    rewrite <- is_drawn_has_value in Hv.
    split; [rewrite (surjective_pairing (pngScale _ _)); exact_eval|].
    split; [rewrite (surjective_pairing (pdfScale _ _)); exact_eval|].
    destruct (placeholder_geometry xnum_number (of_Q (5 # 4)) (of_Q (5 # 4))
                values p Hv) as [-> ->].
    assert (E : scaled_geometry (of_Q (5 # 4)) (of_Q (5 # 4)) p
                = (of_Z 125, of_Q (125 # 2), of_Z 30)).
    { unfold scaled_geometry. rewrite Hx, Hy, Hsize. exact_eval. }
    now rewrite E.
  - intros values p Hx Hy Hsize _ Hv.
    rewrite <- is_drawn_has_value in Hv.
    split; [reflexivity|]. split; [reflexivity|].
    destruct (placeholder_geometry Binary64.float_number 1.25%float 1.25%float
                values p Hv) as [-> ->].
    assert (E : scaled_geometry 1.25%float 1.25%float p = (125, 62.5, 30)%float).
    { unfold scaled_geometry. rewrite Hx, Hy, Hsize. vm_compute. reflexivity. }
    now rewrite E.
Qed.

Lemma placeholders_scaled_by_scaleX_and_scaleY_witness :
  truthy (narrow_container_width (num := float)) = true
  /\ forallb plain_font
       [large_name_placeholder (num := float); unsized_id_placeholder] = true
  /\ pngScale (num := float) scenario_image
       (Some {| cd_width := Some narrow_container_width;
                cd_height := Some narrow_container_height |})
     = (2, 1.5)%float
  /\ geometry_of pdf_geometry
       (pdfOverlay (num := float) 2%float 1.5%float (Some scenario_values)
          [large_name_placeholder; unsized_id_placeholder])
     = Ok [(200, 75, 72)%float; (80, 660, 48)%float]
  /\ geometry_of canvas_geometry
       (pngPlaceholder (fst (pngScale scenario_image scenario_container))
                       (snd (pngScale scenario_image scenario_container))
                       (Some scenario_values) (name_placeholder (num := float)))
     = Ok [(125, 62.5, 30)%float].
Proof.
  assert (Hw : truthy (narrow_container_width (num := float)) = true)
    by (vm_compute; reflexivity).
  assert (Hh : truthy (narrow_container_height (num := float)) = true)
    by (vm_compute; reflexivity).
  split; [exact Hw|]. split; [reflexivity|].
  destruct (proj1 placeholders_scaled_by_scaleX_and_scaleY float Binary64.float_number
              scenario_image narrow_container_width narrow_container_height
              scenario_values [large_name_placeholder; unsized_id_placeholder]
              Hw Hh eq_refl)
    as (Hscale & _ & _ & _ & Hpdf).
  split; [rewrite Hscale; vm_compute; reflexivity|].
  split; [|].
  { transitivity
      (geometry_of pdf_geometry
         (pdfOverlay (ndiv (img_width scenario_image) narrow_container_width)
                     (ndiv (img_height scenario_image) narrow_container_height)
                     (Some scenario_values)
                     [large_name_placeholder (num := float); unsized_id_placeholder]));
      [vm_compute; reflexivity|].
    rewrite Hpdf. vm_compute. reflexivity. }
  exact (proj1 (proj2 (proj2
           (proj2 (proj2 placeholders_scaled_by_scaleX_and_scaleY)
              scenario_values name_placeholder eq_refl eq_refl eq_refl eq_refl eq_refl)))).
Defined.

Section CreateRoute.

Context {num : Type} `{JSNumber num}.

Lemma readFile_unlink_other (path other : string) (disk : Disk num) :
  path <> other -> readFile path (unlink other disk) = readFile path disk.
Proof.
  intros Hne. induction disk as [|[p c] disk IH]; [reflexivity|].
  cbn [unlink readFile].
  destruct (String.eqb p other) eqn:Eo.
  - apply String.eqb_eq in Eo. subst p.
    destruct (String.eqb other path) eqn:Ep; [|exact IH].
    apply String.eqb_eq in Ep. congruence.
  - cbn [readFile]. destruct (String.eqb p path); [reflexivity|exact IH].
Qed.

Lemma readFile_writeFile_other (path other : string) (content : FileContent num)
    (disk : Disk num) :
  path <> other -> readFile path (writeFile other content disk) = readFile path disk.
Proof.
  intros Hne. unfold writeFile. cbn [readFile].
  destruct (String.eqb other path) eqn:E.
  - apply String.eqb_eq in E. congruence.
  - now apply readFile_unlink_other.
Qed.

Lemma append_cancel (s a b : string) : (s ++ a)%string = (s ++ b)%string -> a = b.
Proof.
  induction s as [|c s IH]; simpl; [trivial|].
  intros E. injection E as E. now apply IH.
Qed.

Lemma append_assoc (a b c : string) :
  ((a ++ b) ++ c)%string = (a ++ (b ++ c))%string.
Proof.
  induction a as [|x a IH]; simpl; [reflexivity|]. now rewrite IH.
Qed.

Lemma output_path_format (id : string) : output_path id fmt_png <> output_path id fmt_pdf.
Proof.
  unfold output_path, path_join. intros E.
  apply append_cancel in E. apply append_cancel in E.
  apply append_cancel in E. discriminate E.
Qed.

(** The renderers read one thing of the certificate: its identifier. *)
Lemma generatePNG_certificateId (host : Host num) (disk : Disk num)
    (c c' : Certificate num) (template : Template num)
    (pv : option PlaceholderValues) (path : string)
    (cd : option (ContainerDimensions num)) :
  certificateId c = certificateId c' ->
  generatePNG host disk c template pv path cd
  = generatePNG host disk c' template pv path cd.
Proof.
  intros E. unfold generatePNG. now rewrite E.
Qed.

Lemma generatePDF_certificateId (host : Host num) (disk : Disk num)
    (c c' : Certificate num) (template : Template num)
    (pv : option PlaceholderValues) (path : string)
    (cd : option (ContainerDimensions num)) :
  certificateId c = certificateId c' ->
  generatePDF host disk c template pv path cd
  = generatePDF host disk c' template pv path cd.
Proof.
  intros E. unfold generatePDF. now rewrite E.
Qed.

Lemma generatePDF_keeps_png (host : Host num) (disk disk' : Disk num)
    (certificate : Certificate num) (template : Template num)
    (pv : option PlaceholderValues) (path : string)
    (cd : option (ContainerDimensions num)) (r : result string) :
  generatePDF host disk certificate template pv path cd = (disk', r) ->
  readFile (output_path (certificateId certificate) fmt_png) disk'
  = readFile (output_path (certificateId certificate) fmt_png) disk.
Proof.
  unfold generatePDF. intros E.
  pose proof (output_path_format (certificateId certificate)) as Hne.
  destruct (loadImage host path) as [templateImage|m];
    [|cbn [rethrow] in E; now injection E as <- _].
  assert (Hopened : readFile (output_path (certificateId certificate) fmt_png)
                      (if writable host (output_path (certificateId certificate) fmt_pdf)
                       then writeFile (output_path (certificateId certificate) fmt_pdf)
                              Truncated disk
                       else disk)
                    = readFile (output_path (certificateId certificate) fmt_png) disk).
  { destruct (writable host _); [|reflexivity]. now rewrite readFile_writeFile_other. }
  destruct (embedImage host path) as [[]|m].
  - destruct (pdfScale templateImage cd) as [sx sy].
    destruct (pdfOverlay sx sy pv (t_placeholders template)) as [texts|m].
    + destruct (writable host _); cbn [rethrow] in E; injection E as <- _.
      * now rewrite !readFile_writeFile_other.
      * reflexivity.
    + cbn [rethrow] in E. injection E as <- _. exact Hopened.
  - cbn [rethrow] in E. injection E as <- _. exact Hopened.
Qed.

(** generateCertificate returns exactly when both renderers return: the two
    files it then measures are the ones just written. *)
Lemma generateCertificate_returns (host : Host num) (disk : Disk num)
    (certificate : Certificate num) (template : Template num)
    (pv : option PlaceholderValues) (cd : option (ContainerDimensions num)) :
  is_ok (snd (generateCertificate host disk certificate template pv cd)) = true
  <-> both_renderers_return host disk certificate template pv cd.
Proof.
  unfold both_renderers_return, generateCertificate.
  set (path := path_join uploadsDir (t_filename template)).
  destruct (generatePNG host disk certificate template pv path cd)
    as [disk1 [pngPath|m]] eqn:Hpng; cbn [fst snd is_ok rethrow].
  2: { split; [discriminate|]. intros [E _]. discriminate E. }
  destruct (generatePDF host disk1 certificate template pv path cd)
    as [disk2 [pdfPath|m]] eqn:Hpdf; cbn [fst snd is_ok rethrow].
  2: { split; [discriminate|]. intros [_ E]. discriminate E. }
  pose proof (generatePDF_keeps_png _ _ _ _ _ _ _ _ _ Hpdf) as Hkeep.
  apply generatePNG_written in Hpng.
  destruct Hpng as (i1 & t1 & _ & _ & -> & ->).
  apply generatePDF_written in Hpdf.
  destruct Hpdf as (i2 & t2 & _ & _ & -> & Hread).
  rewrite readFile_writeFile in Hkeep.
  unfold stat. rewrite Hread, Hkeep. cbn. split; auto.
Qed.

Lemma update_In (c c' : Certificate num) (cs : list (Certificate num)) :
  In c cs -> c_id c = c_id c' -> In c' (update c' cs).
Proof.
  intros Hin Hid. unfold update. apply in_map_iff.
  exists c. split; [|exact Hin]. now rewrite Hid, N.eqb_refl.
Qed.

Lemma events_since_app (w w' : World num) (new : list (Event num)) :
  events w' = events w ++ new -> events_since w w' = new.
Proof.
  intros E. unfold events_since. rewrite E.
  rewrite skipn_app, skipn_all, Nat.sub_diag. reflexivity.
Qed.

Lemma has_type_spec (t : PlaceholderType) (ps : list (Placeholder num)) :
  existsb (has_type t) ps = false <-> (forall p, In p ps -> p_type p <> t).
Proof.
  split.
  - intros E p Hin Ht.
    assert (Hex : existsb (has_type t) ps = true).
    { apply existsb_exists. exists p. split; [exact Hin|].
      unfold has_type. rewrite Ht. apply String.eqb_refl. }
    congruence.
  - intros Hall. destruct (existsb (has_type t) ps) eqn:E; [|reflexivity].
    apply existsb_exists in E. destruct E as (p & Hin & Hp).
    exfalso. apply (Hall p Hin).
    unfold has_type in Hp. apply String.eqb_eq in Hp.
    destruct (p_type p), t; simpl in Hp; congruence.
Qed.

Lemma accepted_template (template : Template num) :
  Nat.eqb (List.length (t_placeholders template)) 0 = false ->
  negb (existsb (has_type TName) (t_placeholders template))
  || negb (existsb (has_type TId) (t_placeholders template)) = false ->
  ~ lacks_required_placeholder template.
Proof.
  intros Hlen Hreq [Hnil|[Hname|Hid]].
  - rewrite Hnil in Hlen. discriminate Hlen.
  - apply has_type_spec in Hname. rewrite Hname in Hreq. discriminate Hreq.
  - apply has_type_spec in Hid. rewrite Hid in Hreq.
    now rewrite orb_true_r in Hreq.
Qed.

Lemma create_runs (host : Host num) (clock : Clock) (w : World num)
    (req : CreateRequest num) (w' : World num) (response : Response num) :
  create host clock w req = (w', response) ->
  CreateRun host clock w req w' response.
Proof.
  unfold create.
  destruct (validateCertificateCreation (rq_participantName req)) as [name|].
  2: { intros E. injection E as <- <-. apply RejectedBeforeId; [reflexivity|].
       left. eauto. }
  destruct (findTemplate w (rq_templateId req) (rq_admin req)) as [template|] eqn:Ht.
  2: { intros E. injection E as <- <-. apply RejectedBeforeId; [reflexivity|].
       right. eauto. }
  destruct (Nat.eqb (List.length (t_placeholders template)) 0) eqn:Hlen.
  { intros E. injection E as <- <-. apply RejectedBeforeId; [reflexivity|].
    left. eauto. }
  destruct (negb (existsb (has_type TName) (t_placeholders template))
            || negb (existsb (has_type TId) (t_placeholders template))) eqn:Hreq.
  { intros E. injection E as <- <-. apply RejectedBeforeId; [reflexivity|].
    left. eauto. }
  cbv zeta.
  match goal with
  | |- context [insert ?c ?cs] =>
      set (inserted := c); destruct (insert inserted cs) as [[|]|stored] eqn:Hins
  end.
  - intros E. injection E as <- <-.
    eapply RejectedAtSave with (status := 500%N); try reflexivity. now right.
  - intros E. injection E as <- <-.
    eapply RejectedAtSave with (status := 400%N); try reflexivity. now left.
  - cbn [disk record with_certificates with_templates fresh_oid].
    destruct (generateCertificate host (disk w) inserted template
                (rq_placeholderValues req) (rq_containerDimensions req))
      as [disk' outcome] eqn:Hgen.
    intros E. injection E as <- <-.
    eapply Created with (template := template) (inserted := inserted)
                        (outcome := outcome).
    + exact Ht.
    + now apply accepted_template.
    + reflexivity.
    + reflexivity.
    + reflexivity.
    + exact Hgen.
    + reflexivity.
    + cbn [events record with_certificates with_templates with_disk fresh_oid].
      rewrite <- !app_assoc. reflexivity.
    + cbn [certificates record with_certificates with_templates with_disk fresh_oid].
      unfold insert in Hins.
      destruct (negb (schema_valid inserted)); [discriminate|].
      match type of Hins with
      | context [existsb ?f ?l] => destruct (existsb f l); [discriminate|]
      end.
      cbn [certificates record fresh_oid] in Hins. injection Hins as <-.
      apply update_In with (c := inserted).
      * apply in_or_app. right. now left.
      * now destruct outcome as [[pdfFile pngFile]|m].
    + reflexivity.
Qed.

End CreateRoute.

Section RouteProperties.

Context {num : Type} `{JSNumber num}.

Lemma events_since_same (w : World num) : events_since w w = [].
Proof. unfold events_since. apply skipn_all. Qed.

Lemma both_renderers_certificateId (host : Host num) (disk : Disk num)
    (c c' : Certificate num) (template : Template num)
    (pv : option PlaceholderValues) (cd : option (ContainerDimensions num)) :
  certificateId c = certificateId c' ->
  both_renderers_return host disk c template pv cd
  <-> both_renderers_return host disk c' template pv cd.
Proof.
  intros E. unfold both_renderers_return.
  rewrite (generatePNG_certificateId host disk c c' template pv _ cd E).
  rewrite (generatePDF_certificateId host _ c c' template pv _ cd E).
  reflexivity.
Qed.

(** The download route serves nothing but generated certificates. *)
Lemma download_refuses (host : Host num) (w : World num) (admin id : N)
    (format : string) (c : Certificate num) :
  findActiveCertificate w id admin = Some c ->
  c_status c <> generated ->
  exists message, download host w admin id format = (w, Json 400 false message NoPayload).
Proof.
  intros Hfind Hstatus. unfold download.
  destruct (parse_format format) as [fmt|]; [|eauto].
  rewrite Hfind.
  destruct (Status_eqb (c_status c) generated) eqn:E; [|cbn [negb]; eauto].
  exfalso. apply Hstatus. now destruct (c_status c).
Qed.

(** C5. In a run of the create route: the record is inserted with status
    pending; the record the run leaves stored has status generated exactly
    when the PNG renderer and then the PDF renderer returned without
    throwing, and otherwise has status failed and no generated-file metadata;
    a record that was inserted is always saved again, so none is left
    pending by a run that answers; and the download route answers 400,
    changing nothing, for every certificate whose status is not generated. *)
Theorem status_follows_generation :
  forall (host : Host num) (clock : Clock) (w w' : World num)
         (req : CreateRequest num) (response : Response num),
    create host clock w req = (w', response) ->
    (forall c, In (RecordInserted c) (events_since w w') ->
       c_status c = pending
       /\ exists final, In (RecordUpdated final) (events_since w w')
                        /\ c_id final = c_id c)
    /\ (forall c, In (RecordUpdated c) (events_since w w') ->
          exists template,
            findTemplate w (rq_templateId req) (rq_admin req) = Some template
            /\ In c (certificates w')
            /\ response = Json 201 true "Certificate created successfully"
                            (CertificatePayload c)
            /\ (c_status c = generated
                <-> both_renderers_return host (disk w) c template
                      (rq_placeholderValues req) (rq_containerDimensions req))
            /\ (c_status c <> generated ->
                c_status c = failed /\ c_generatedFiles c = no_files))
    /\ (http_status response = 201%N ->
        exists c, In (RecordUpdated c) (events_since w w'))
    /\ (forall w0 admin id format c,
          findActiveCertificate w0 id admin = Some c ->
          c_status c <> generated ->
          exists message,
            download host w0 admin id format = (w0, Json 400 false message NoPayload)).
Proof.
  intros host clock w w' req response Hrun.
  apply create_runs in Hrun.
  split; [|split; [|split]].
  4: { intros w0 admin id format c. apply download_refuses. }
  - intros c Hin.
    destruct Hrun as [-> _ | status message Hev _ _ _ _ _
                     | template inserted final outcome _ _ Hpending _ _ _ Hfinal Hev _ _].
    + rewrite events_since_same in Hin. destruct Hin.
    + rewrite (events_since_app _ _ _ Hev) in Hin.
      destruct Hin as [Hin|[]]. discriminate Hin.
    + rewrite (events_since_app _ _ _ Hev) in *.
      destruct Hin as [Hin|[Hin|[Hin|[Hin|[Hin|[]]]]]]; try discriminate Hin.
      injection Hin as <-. split; [exact Hpending|].
      exists final. split; [right; right; right; right; now left|].
      subst final. now destruct outcome as [[pdfFile pngFile]|m].
  - intros c Hin.
    destruct Hrun as [-> _ | status message Hev _ _ _ _ _
                     | template inserted final outcome Ht _ Hpending _ _ Hgen Hfinal Hev
                         Hstored Hresp].
    + rewrite events_since_same in Hin. destruct Hin.
    + rewrite (events_since_app _ _ _ Hev) in Hin.
      destruct Hin as [Hin|[]]. discriminate Hin.
    + rewrite (events_since_app _ _ _ Hev) in Hin.
      destruct Hin as [Hin|[Hin|[Hin|[Hin|[Hin|[]]]]]]; try discriminate Hin.
      injection Hin as <-. exists template.
      split; [exact Ht|]. split; [exact Hstored|]. split; [exact Hresp|].
      assert (Hid : certificateId final = certificateId inserted)
        by (subst final; now destruct outcome as [[pdfFile pngFile]|m]).
      rewrite (both_renderers_certificateId host (disk w) final inserted template _ _ Hid).
      rewrite <- generateCertificate_returns, Hgen. cbn [snd].
      subst final. destruct outcome as [[pdfFile pngFile]|m]; cbn.
      * split; [split; [reflexivity|intros _; reflexivity]|]. intros Hne. now destruct Hne.
      * split; [split; discriminate|]. intros _. split; reflexivity.
  - intros Hstatus.
    destruct Hrun as [-> Hresp | status message _ _ _ _ Hresp Hs
                     | template inserted final outcome _ _ _ _ _ _ _ Hev _ _].
    + destruct Hresp as [(m & d & ->)|(m & ->)]; discriminate Hstatus.
    + subst response. cbn in Hstatus. destruct Hs; subst status; discriminate Hstatus.
    + exists final. rewrite (events_since_app _ _ _ Hev).
      right; right; right; right; now left.
Qed.

(** C7. A request whose template has no placeholder, or none of type name,
    or none of type id, is answered 400 and leaves the world as it was:
    nothing is recorded, so no identifier was assigned, no record inserted
    and the generator not called. *)
Theorem incomplete_template_is_rejected :
  forall (host : Host num) (clock : Clock) (w : World num)
         (req : CreateRequest num) (template : Template num),
    findTemplate w (rq_templateId req) (rq_admin req) = Some template ->
    lacks_required_placeholder template ->
    exists message data,
      create host clock w req = (w, Json 400 false message data)
      /\ events_since w (fst (create host clock w req)) = [].
Proof.
  intros host clock w req template Ht Hlacks.
  assert (Hrun : exists message data,
             create host clock w req = (w, Json 400 false message data)).
  { unfold create.
    destruct (validateCertificateCreation (rq_participantName req)); [|eauto].
    rewrite Ht.
    destruct (Nat.eqb (List.length (t_placeholders template)) 0) eqn:Hlen; [eauto|].
    destruct (negb (existsb (has_type TName) (t_placeholders template))
              || negb (existsb (has_type TId) (t_placeholders template))) eqn:Hreq;
      [eauto|].
    exfalso. now apply (accepted_template template Hlen Hreq). }
  destruct Hrun as (message & data & Hrun). exists message, data.
  split; [exact Hrun|]. rewrite Hrun. apply events_since_same.
Qed.

(** C10. Whenever the create route called the generator and the generator
    threw, the route answers 201 with success true and the message
    'Certificate created successfully', and the record it stored and returns
    has status failed and no generated-file metadata. *)
Theorem generation_failure_is_answered_created :
  forall (host : Host num) (clock : Clock) (w w' : World num)
         (req : CreateRequest num) (response : Response num) (message : string),
    create host clock w req = (w', response) ->
    In (GeneratorCalled (Throw message)) (events_since w w') ->
    exists certificate,
      response = Json 201 true "Certificate created successfully"
                   (CertificatePayload certificate)
      /\ http_status response = 201%N
      /\ c_status certificate = failed
      /\ c_generatedFiles certificate = no_files
      /\ In certificate (certificates w')
      /\ In (RecordUpdated certificate) (events_since w w').
Proof.
  intros host clock w w' req response message Hrun Hin.
  apply create_runs in Hrun.
  destruct Hrun as [-> _ | status msg Hev _ _ _ _ _
                   | template inserted final outcome _ _ _ _ _ _ Hfinal Hev Hstored Hresp].
  - rewrite events_since_same in Hin. destruct Hin.
  - rewrite (events_since_app _ _ _ Hev) in Hin.
    destruct Hin as [Hin|[]]. discriminate Hin.
  - rewrite (events_since_app _ _ _ Hev) in *.
    destruct Hin as [Hin|[Hin|[Hin|[Hin|[Hin|[]]]]]]; try discriminate Hin.
    injection Hin as ->. exists final.
    split; [exact Hresp|]. split; [now rewrite Hresp|].
    split; [now subst final|]. split; [now subst final|].
    split; [exact Hstored|]. right; right; right; right; now left.
Qed.

End RouteProperties.

Lemma status_follows_generation_witness :
  let run := create (num := float) sample_host year_2024 empty_world
               (sample_request 9 (Some scenario_values)) in
  http_status (snd run) = 201%N
  /\ exists c, In (RecordUpdated c) (events_since empty_world (fst run)).
Proof.
  intros run. split; [reflexivity|].
  exact (proj1 (proj2 (proj2
           (status_follows_generation sample_host year_2024 empty_world (fst run)
              (sample_request 9 (Some scenario_values)) (snd run)
              (surjective_pairing run)))) eq_refl).
Defined.

Lemma incomplete_template_is_rejected_witness :
  findTemplate (num := float) empty_world 8 1 = Some nameless_id_template
  /\ lacks_required_placeholder (nameless_id_template (num := float))
  /\ exists message data,
       create sample_host year_2024 empty_world (sample_request 8 (Some scenario_values))
       = (empty_world, Json 400 false message data)
       /\ events_since empty_world
            (fst (create sample_host year_2024 empty_world
                    (sample_request 8 (Some scenario_values)))) = [].
Proof.
  assert (Hlacks : lacks_required_placeholder (nameless_id_template (num := float))).
  { right. right. intros p [<-|[]]. discriminate. }
  split; [reflexivity|]. split; [exact Hlacks|].
  exact (incomplete_template_is_rejected sample_host year_2024 empty_world
           (sample_request 8 (Some scenario_values)) nameless_id_template
           eq_refl Hlacks).
Defined.

Lemma generation_failure_is_answered_created_witness :
  let run := create (num := float) sample_host year_2024 empty_world
               (sample_request 9 (Some scenario_values)) in
  In (GeneratorCalled
        (Throw "Failed to generate certificate: Failed to generate PDF: Unknown image format."))
     (events_since empty_world (fst run))
  /\ exists certificate,
       snd run = Json 201 true "Certificate created successfully"
                   (CertificatePayload certificate)
       /\ http_status (snd run) = 201%N
       /\ c_status certificate = failed
       /\ c_generatedFiles certificate = no_files
       /\ In certificate (certificates (fst run))
       /\ In (RecordUpdated certificate) (events_since empty_world (fst run)).
Proof.
  intros run.
  assert (Hthrew : In (GeneratorCalled
                         (Throw "Failed to generate certificate: Failed to generate PDF: Unknown image format."))
                      (events_since empty_world (fst run))).
  { vm_compute. right. right. right. left. reflexivity. }
  split; [exact Hthrew|].
  exact (generation_failure_is_answered_created sample_host year_2024 empty_world
           (fst run) (sample_request 9 (Some scenario_values)) (snd run) _
           (surjective_pairing run) Hthrew).
Defined.

(* ================================================================== *)
(** * Identifiers while the sequence numbers have one length *)
(* ================================================================== *)

Section DigitStrings.

Lemma digit_range (c : ascii) :
  is_digit c = true ->
  (48 <= N_of_ascii c <= 57)%N
  /\ digit_value c = Some (Z.of_N (N_of_ascii c) - 48)%Z.
Proof.
  unfold is_digit, digit_value.
  destruct ((48 <=? N_of_ascii c) && (N_of_ascii c <=? 57))%N eqn:E; [|discriminate].
  apply andb_true_iff in E. destruct E as [E1 E2].
  apply N.leb_le in E1. apply N.leb_le in E2. intros _. now split.
Qed.

Lemma digit_not_space (c : ascii) : is_digit c = true -> is_space c = false.
Proof.
  intros Hd. apply digit_range in Hd. destruct Hd as [[Hlo Hhi] _].
  unfold is_space. apply orb_false_iff. split; [apply orb_false_iff; split|].
  - apply andb_false_iff. right. apply N.leb_gt. lia.
  - apply N.eqb_neq. lia.
  - apply N.eqb_neq. lia.
Qed.

Lemma digit_not_separator (c : ascii) : is_digit c = true -> Ascii.eqb c "-" = false.
Proof.
  intros Hd. destruct (Ascii.eqb c "-") eqn:E; [|reflexivity].
  apply Ascii.eqb_eq in E. subst c. discriminate Hd.
Qed.

Lemma decimal_value_shift (acc : Z) (s : string) :
  decimal_value acc s
  = (acc * 10 ^ Z.of_nat (String.length s) + decimal_value 0 s)%Z.
Proof.
  revert acc. induction s as [|c s IH]; intros acc.
  - cbn. lia.
  - cbn [decimal_value String.length]. rewrite IH.
    rewrite (IH (0 * 10 + _)%Z).
    rewrite Nat2Z.inj_succ, Z.pow_succ_r by lia. lia.
Qed.

Lemma decimal_value_bounds (s : string) :
  all_chars is_digit s = true ->
  (0 <= decimal_value 0 s < 10 ^ Z.of_nat (String.length s))%Z.
Proof.
  induction s as [|c s IH]; intros Hs.
  - cbn. lia.
  - cbn [all_chars] in Hs. apply andb_true_iff in Hs. destruct Hs as [Hc Hs].
    specialize (IH Hs). apply digit_range in Hc. destruct Hc as [[Hlo Hhi] Hv].
    cbn [decimal_value String.length]. rewrite Hv, decimal_value_shift.
    rewrite Nat2Z.inj_succ, Z.pow_succ_r by lia.
    assert (Hpow : (0 < 10 ^ Z.of_nat (String.length s))%Z)
      by (apply Z.pow_pos_nonneg; lia).
    nia.
Qed.

Lemma parse_digits_decimal (s : string) (acc : Z) :
  all_chars is_digit s = true ->
  parse_digits 10 digit_value s (Some acc) = Some (decimal_value acc s).
Proof.
  revert acc. induction s as [|c s IH]; intros acc Hs; [reflexivity|].
  cbn [all_chars] in Hs. apply andb_true_iff in Hs. destruct Hs as [Hc Hs].
  apply digit_range in Hc. destruct Hc as [_ Hv].
  cbn [parse_digits decimal_value]. rewrite Hv. now apply IH.
Qed.

(** The ten digits, one by one: what is left of a property of characters
    once the character is known to be a digit. *)
Lemma digit_cases (P : ascii -> Prop) :
  P "0"%char -> P "1"%char -> P "2"%char -> P "3"%char -> P "4"%char ->
  P "5"%char -> P "6"%char -> P "7"%char -> P "8"%char -> P "9"%char ->
  forall c, is_digit c = true -> P c.
Proof.
  intros H0 H1 H2 H3 H4 H5 H6 H7 H8 H9 c.
  destruct c as [[|] [|] [|] [|] [|] [|] [|] [|]]; intros Hd;
    try discriminate Hd; assumption.
Qed.

(** On a number [parseInt] reads all of it, in base ten. *)
Lemma parseInt_number (s : string) :
  is_number s = true -> parseInt s = Some (decimal_value 0 s).
Proof.
  unfold is_number. intros Hs. apply andb_true_iff in Hs. destruct Hs as [Hne Hs].
  destruct s as [|c s]; [discriminate Hne|]. clear Hne.
  rewrite <- (parse_digits_decimal (String c s) 0 Hs).
  cbn [all_chars] in Hs. apply andb_true_iff in Hs. destruct Hs as [Hc Hs].
  unfold parseInt. cbn [trimStart]. rewrite (digit_not_space c Hc).
  assert (Hstart : parse_digits 10 digit_value (String c s) None
                   = parse_digits 10 digit_value (String c s) (Some 0%Z)).
  { cbn [parse_digits]. destruct (digit_range c Hc) as [_ ->]. reflexivity. }
  revert c Hc Hstart.
  apply (digit_cases
           (fun c =>
              parse_digits 10 digit_value (String c s) None
              = parse_digits 10 digit_value (String c s) (Some 0%Z) ->
              (let '(negative, s0) :=
                 match String c s with
                 | String "-" rest => (true, rest)
                 | String "+" rest => (false, rest)
                 | _ => (false, String c s)
                 end in
               option_map (fun v => if negative then (- v)%Z else v)
                 match s0 with
                 | String "0" (String "x" rest) | String "0" (String "X" rest) =>
                     parse_digits 16 hex_value rest None
                 | _ => parse_digits 10 digit_value s0 None
                 end)
              = parse_digits 10 digit_value (String c s) (Some 0%Z)));
    intros Hstart; cbn [option_map]; rewrite <- Hstart;
    try (now destruct (parse_digits 10 digit_value _ None)).
  destruct s as [|c' s']; [reflexivity|].
  cbn [all_chars] in Hs. apply andb_true_iff in Hs. destruct Hs as [Hc' _].
  revert c' Hc' Hstart.
  apply (digit_cases
           (fun c' =>
              parse_digits 10 digit_value (String "0" (String c' s')) None
              = parse_digits 10 digit_value (String "0" (String c' s')) (Some 0%Z) ->
              option_map (fun v : Z => v)
                match String "0" (String c' s') with
                | String "0" (String "x" rest) | String "0" (String "X" rest) =>
                    parse_digits 16 hex_value rest None
                | _ => parse_digits 10 digit_value (String "0" (String c' s')) None
                end
              = parse_digits 10 digit_value (String "0" (String c' s')) None));
    intros _; now destruct (parse_digits 10 digit_value _ None).
Qed.

Lemma split_plain (sep : ascii) (s : string) :
  all_chars (fun c => negb (Ascii.eqb c sep)) s = true -> split sep s = [s].
Proof.
  induction s as [|c s IH]; intros Hs; [reflexivity|].
  cbn [all_chars] in Hs. apply andb_true_iff in Hs. destruct Hs as [Hc Hs].
  apply negb_true_iff in Hc. cbn [split]. now rewrite Hc, (IH Hs).
Qed.

Lemma split_at_separator (sep : ascii) (a b : string) :
  all_chars (fun c => negb (Ascii.eqb c sep)) a = true ->
  split sep (a ++ String sep b) = a :: split sep b.
Proof.
  induction a as [|c a IH]; intros Ha.
  - cbn. now rewrite Ascii.eqb_refl.
  - cbn [all_chars] in Ha. apply andb_true_iff in Ha. destruct Ha as [Hc Ha].
    apply negb_true_iff in Hc. cbn [String.append split]. now rewrite Hc, (IH Ha).
Qed.

Lemma digits_plain (s : string) :
  all_chars is_digit s = true ->
  all_chars (fun c => negb (Ascii.eqb c "-")) s = true.
Proof.
  induction s as [|c s IH]; intros Hs; [reflexivity|].
  cbn [all_chars] in *. apply andb_true_iff in Hs. destruct Hs as [Hc Hs].
  now rewrite (digit_not_separator c Hc), (IH Hs).
Qed.

Lemma string_of_uint_digits (d : Decimal.uint) :
  all_chars is_digit (NilEmpty.string_of_uint d) = true.
Proof. induction d; cbn; auto. Qed.

Lemma year_digits (year : Z) :
  (0 <= year)%Z -> all_chars is_digit (toString (Some year)) = true.
Proof.
  intros Hy. unfold toString, NilZero.string_of_int.
  destruct year as [|p|p]; [reflexivity| |lia].
  cbn [Z.to_int]. unfold NilZero.string_of_uint.
  destruct (Pos.to_uint p) eqn:E; try (rewrite <- E; apply string_of_uint_digits).
  reflexivity.
Qed.

Lemma prefix_append (p s : string) : String.prefix p (p ++ s) = true.
Proof.
  induction p as [|c p IH]; cbn; [now destruct s|].
  destruct (ascii_dec c c); [exact IH|congruence].
Qed.

Lemma substring_all (s : string) : String.substring 0 (String.length s) s = s.
Proof. induction s as [|c s IH]; cbn; [reflexivity|now rewrite IH]. Qed.

Lemma substring_after (p s : string) :
  String.substring (String.length p) (String.length (p ++ s) - String.length p) (p ++ s)
  = s.
Proof.
  induction p as [|c p IH]; cbn [String.append String.length String.substring].
  - rewrite Nat.sub_0_r. apply substring_all.
  - exact IH.
Qed.

Lemma compare_append (p a b : string) :
  String.compare (p ++ a) (p ++ b) = String.compare a b.
Proof.
  induction p as [|c p IH]; cbn [String.append String.compare]; [reflexivity|].
  unfold Ascii.compare. now rewrite N.compare_refl.
Qed.

(** Between numbers of one length the order of the strings is the order of
    the numbers. *)
Lemma compare_numbers (a b : string) (acc : Z) :
  all_chars is_digit a = true -> all_chars is_digit b = true ->
  String.length a = String.length b ->
  String.compare a b = (decimal_value acc a ?= decimal_value acc b)%Z.
Proof.
  revert b acc. induction a as [|x a IH]; intros [|y b] acc Ha Hb Hlen;
    try discriminate Hlen.
  - cbn. now rewrite Z.compare_refl.
  - cbn [all_chars] in Ha, Hb.
    apply andb_true_iff in Ha. destruct Ha as [Hx Ha].
    apply andb_true_iff in Hb. destruct Hb as [Hy Hb].
    injection Hlen as Hlen.
    destruct (digit_range x Hx) as [[Hxl Hxh] Hxv].
    destruct (digit_range y Hy) as [[Hyl Hyh] Hyv].
    cbn [String.compare decimal_value]. rewrite Hxv, Hyv.
    unfold Ascii.compare.
    destruct (N.compare_spec (N_of_ascii x) (N_of_ascii y)) as [E|E|E].
    + rewrite E. now apply IH.
    + symmetry. apply Z.compare_lt_iff.
      rewrite (decimal_value_shift (_ + _) a), (decimal_value_shift (_ + _) b).
      pose proof (decimal_value_bounds a Ha). pose proof (decimal_value_bounds b Hb).
      rewrite Hlen in *. nia.
    + symmetry. apply Z.compare_gt_iff.
      rewrite (decimal_value_shift (_ + _) a), (decimal_value_shift (_ + _) b).
      pose proof (decimal_value_bounds a Ha). pose proof (decimal_value_bounds b Hb).
      rewrite Hlen in *. nia.
Qed.

End DigitStrings.

Section OneWidth.

Context {num : Type}.

Variable year : Z.
Hypothesis year_nonnegative : (0 <= year)%Z.

Let prefix : string := ("CERT-" ++ toString (Some year) ++ "-")%string.

Lemma sequence_of_identifier (s : string) :
  is_number s = true ->
  sequence_number prefix (prefix ++ s) = Some (decimal_value 0 s)
  /\ parseInt_opt (nth_error (split "-" (prefix ++ s)) 2) = Some (decimal_value 0 s).
Proof.
  intros Hs. split.
  - unfold sequence_number. rewrite prefix_append, substring_after.
    now apply parseInt_number.
  - assert (Hd : all_chars is_digit s = true).
    { unfold is_number in Hs. now apply andb_true_iff in Hs. }
    assert (E : split "-" (prefix ++ s) = ["CERT"; toString (Some year); s]).
    { unfold prefix.
      change ("CERT-" ++ toString (Some year) ++ "-")%string
        with ("CERT" ++ String "-" (toString (Some year) ++ "-"))%string.
      rewrite append_assoc. cbn [String.append].
      change (String "C" (String "E" (String "R" (String "T"
                (String "-" ((toString (Some year) ++ "-") ++ s))))))%string
        with ("CERT" ++ String "-" ((toString (Some year) ++ "-") ++ s))%string.
      rewrite split_at_separator by reflexivity.
      rewrite append_assoc. cbn [String.append].
      rewrite split_at_separator by (apply digits_plain, year_digits, year_nonnegative).
      now rewrite split_plain by (now apply digits_plain). }
    rewrite E. cbn [nth_error parseInt_opt]. now apply parseInt_number.
Qed.

(** The latest certificate of the year carries the highest sequence number
    when all sequence numbers of the year have the same number of digits. *)
Lemma latest_is_highest (width : nat) (certificates : list (Certificate num)) :
  sequence_width prefix width certificates ->
  match findLatest prefix certificates with
  | Some best =>
      exists s, certificateId best = (prefix ++ s)%string
                /\ is_number s = true /\ String.length s = width
                /\ decimal_value 0 s = highest_sequence prefix certificates
  | None => highest_sequence prefix certificates = 0%Z
  end.
Proof.
  induction certificates as [|c rest IH]; intros Hwidth; [reflexivity|].
  assert (Hrest : sequence_width prefix width rest).
  { intros c' Hin. apply Hwidth. now right. }
  specialize (IH Hrest).
  cbn [findLatest highest_sequence fold_right].
  fold (highest_sequence prefix rest).
  destruct (String.prefix prefix (certificateId c)) eqn:Hp.
  - destruct (Hwidth c (or_introl eq_refl) Hp) as (s & Hid & Hs & Hlen).
    rewrite Hid. destruct (sequence_of_identifier s Hs) as [-> _].
    assert (Hds : all_chars is_digit s = true).
    { unfold is_number in Hs. now apply andb_true_iff in Hs. }
    pose proof (decimal_value_bounds s Hds) as Hbs.
    destruct (findLatest prefix rest) as [best|].
    + destruct IH as (sb & Hidb & Hsb & Hlenb & Hvb).
      assert (Hdb : all_chars is_digit sb = true).
      { unfold is_number in Hsb. now apply andb_true_iff in Hsb. }
      unfold String.ltb. rewrite Hidb, compare_append.
      rewrite (compare_numbers s sb 0 Hds Hdb) by congruence.
      destruct (Z.compare_spec (decimal_value 0 s) (decimal_value 0 sb)) as [E|E|E].
      * exists s. rewrite <- Hid. repeat split; try assumption. lia.
      * exists sb. repeat split; try assumption. lia.
      * exists s. rewrite <- Hid. repeat split; try assumption. lia.
    + exists s. rewrite <- Hid. repeat split; try assumption. lia.
  - unfold sequence_number. rewrite Hp. exact IH.
Qed.

(** Up to the point where sequence numbers of two lengths are stored in
    one year, generateNextId is what the specification says: one more than
    the highest sequence number of the year, 1 when the year is empty. *)
Lemma generateNextId_one_width (width : nat) (certificates : list (Certificate num)) :
  sequence_width prefix width certificates ->
  generateNextId certificates year = specified_next_id certificates year.
Proof.
  intros Hwidth. pose proof (latest_is_highest width certificates Hwidth) as Hlatest.
  unfold generateNextId, specified_next_id. fold prefix.
  destruct (findLatest prefix certificates) as [best|].
  - destruct Hlatest as (s & -> & Hs & _ & <-).
    destruct (sequence_of_identifier s Hs) as [_ ->]. reflexivity.
  - now rewrite Hlatest.
Qed.

End OneWidth.

(* ================================================================== *)
(** * Identifiers past 999 *)
(* ================================================================== *)

Section Identifiers.

Context {num : Type} `{JSNumber num}.

(** The scenario of the specification: two generations in 2024, starting
    from no certificate, get CERT-2024-001 and CERT-2024-002. *)
Lemma first_two_identifiers :
  generateNextId (num := num) [] 2024 = "CERT-2024-001"
  /\ generateNextId [sample_certificate 100 "CERT-2024-001" generated no_files 1] 2024
     = "CERT-2024-002"
  /\ specified_next_id (num := num) [] 2024 = "CERT-2024-001"
  /\ specified_next_id [sample_certificate 100 "CERT-2024-001" generated no_files 1] 2024
     = "CERT-2024-002".
Proof. repeat split; reflexivity. Qed.

(** From 999 the route still moves on to 1000. *)
Lemma identifier_after_999 :
  generateNextId [sample_certificate 100 "CERT-2024-999" generated no_files 1] 2024
  = "CERT-2024-1000".
Proof. reflexivity. Qed.

End Identifiers.

(** C6 fails once the year holds CERT-2024-999 and CERT-2024-1000: the
    greatest identifier in string order is CERT-2024-999, so generateNextId
    answers CERT-2024-1000 again, where one more than the highest sequence
    number is CERT-2024-1001; the create route then stops at the unique index
    with 400. *)
Theorem generateNextId_repeats_1000 :
  option_map (@certificateId float)
    (findLatest "CERT-2024-" (certificates (world_after_1000 (num := float))))
  = Some "CERT-2024-999"
  /\ highest_sequence "CERT-2024-" (certificates (world_after_1000 (num := float)))
     = 1000%Z
  /\ generateNextId (certificates (world_after_1000 (num := float))) 2024
     = "CERT-2024-1000"
  /\ specified_next_id (certificates (world_after_1000 (num := float))) 2024
     = "CERT-2024-1001"
  /\ snd (create sample_host year_2024 (world_after_1000 (num := float))
            (sample_request 7 (Some scenario_values)))
     = Json 400 false "Certificate ID already exists. Please try again." NoPayload.
Proof. repeat split; vm_compute; reflexivity. Qed.

(* ================================================================== *)
(** * The bulk delete *)
(* ================================================================== *)

Section BulkDelete.

Context {num : Type} `{JSNumber num}.

Lemma deleteFilesOf_nothing (st : World num * N) (c : Certificate num) :
  deleteFilesOf st c = st.
Proof. now destruct st. Qed.

Lemma file_loop_nothing (found : list (Certificate num)) (st : World num * N) :
  fold_left deleteFilesOf found st = st.
Proof.
  induction found as [|c found IH]; [reflexivity|].
  cbn [fold_left]. now rewrite deleteFilesOf_nothing.
Qed.

(** Whatever the confirmation text is, the bulk delete unlinks no file. *)
Lemma bulkDelete_keeps_disk (w : World num) (admin : N) (confirmText : option string) :
  disk (fst (bulkDelete w admin confirmText)) = disk w.
Proof.
  unfold bulkDelete.
  destruct (negb _); [reflexivity|].
  destruct (Nat.eqb _ 0); [reflexivity|].
  now rewrite file_loop_nothing.
Qed.

(** Any text but the confirmation phrase: 400 and the world as it was. *)
Lemma bulkDelete_needs_confirmation (w : World num) (admin : N)
    (confirmText : option string) :
  confirmText <> Some confirmation ->
  exists message, bulkDelete w admin confirmText = (w, Json 400 false message NoPayload).
Proof.
  intros Hne. unfold bulkDelete.
  destruct confirmText as [text|]; cbn [negb]; [|eauto].
  destruct (String.eqb text confirmation) eqn:E; cbn [negb]; [|eauto].
  apply String.eqb_eq in E. congruence.
Qed.

(** With the confirmation phrase the active records of the admin are
    removed from the database, and no other record is. *)
Lemma bulkDelete_removes_records (w : World num) (admin : N) :
  certificates (fst (bulkDelete w admin (Some confirmation)))
  = filter (fun c => negb (bulk_deleted admin c)) (certificates w).
Proof.
  unfold bulkDelete. rewrite String.eqb_refl. cbn [negb].
  destruct (Nat.eqb (List.length (filter (bulk_found admin) (certificates w))) 0) eqn:E.
  - cbn [fst]. apply Nat.eqb_eq, length_zero_iff_nil in E.
    symmetry. induction (certificates w) as [|c cs IH]; [reflexivity|].
    cbn [filter] in *. unfold bulk_found in E at 1. unfold bulk_deleted at 1.
    destruct (N.eqb (c_createdBy c) admin && c_isActive c && _); [discriminate E|].
    cbn [negb]. f_equal. now apply IH.
  - now rewrite file_loop_nothing.
Qed.

End BulkDelete.

(** C9 fails in its file half: with one generated certificate of admin 1
    and its PDF and PNG on disk, the bulk delete with the confirmation phrase
    removes the record and answers filesDeleted = 0: both files are still on
    disk.  deleteFiles, which the route does not call, would remove them. *)
Theorem bulkDelete_leaves_files_on_disk :
  let w := world_with_one (num := float) in
  let run := bulkDelete w 1 (Some "DELETE ALL CERTIFICATES") in
  files_on_disk (disk w) "CERT-2024-001" = [fmt_pdf; fmt_png]
  /\ certificates (fst run) = []
  /\ snd run = Json 200 true "Successfully deleted 1 certificates"
                 (DeletedPayload 1 (Some 0%N))
  /\ disk (fst run) = disk w
  /\ files_on_disk (disk (fst run)) "CERT-2024-001" = [fmt_pdf; fmt_png]
  /\ files_on_disk (deleteFiles (disk w) "CERT-2024-001") "CERT-2024-001" = [].
Proof. repeat split; vm_compute; reflexivity. Qed.

(* ================================================================== *)
(** * The font tables *)
(* ================================================================== *)

Import MoreRoutes MoreProperties.

Section FontTables.

Lemma lookup_font_In (table : list (string * string)) (family font : string) :
  lookup_font table family = Some font -> In font (map snd table).
Proof.
  induction table as [|[k v] table IH]; [discriminate|].
  cbn [lookup_font map snd]. destruct (String.eqb k family).
  - intros E. injection E as <-. now left.
  - intros E. right. now apply IH.
Qed.

Lemma member_spec (x : string) (l : list string) :
  existsb (String.eqb x) l = true -> In x l.
Proof.
  intros E. apply existsb_exists in E. destruct E as (y & Hin & Heq).
  apply String.eqb_eq in Heq. now subst y.
Qed.

(** X1. Whatever font family a placeholder names, a name the tables inherit
    from [Object.prototype] apart, the canvas is asked for one of five system
    fonts and PDFKit for one of its three built-in faces. *)
Theorem system_font_is_available :
  forall family : string,
    plain_family family = true ->
    In (getSystemFont family canvas) canvas_fonts
    /\ In (getSystemFont family pdf) pdf_fonts.
Proof.
  intros family _.
  assert (Hc : forallb (fun v => existsb (String.eqb v) canvas_fonts
                                 && negb (String.eqb v ""))
                 (map snd (initializeFontMap canvas)) = true) by reflexivity.
  assert (Hp : forallb (fun v => existsb (String.eqb v) pdf_fonts
                                 && negb (String.eqb v ""))
                 (map snd (initializeFontMap pdf)) = true) by reflexivity.
  rewrite forallb_forall in Hc, Hp.
  unfold getSystemFont, or_string. split.
  - destruct (lookup_font (initializeFontMap canvas) family) as [font|] eqn:E;
      [|now left].
    apply lookup_font_In, Hc, andb_true_iff in E. destruct E as [Hin Hne].
    apply negb_true_iff in Hne. rewrite Hne. now apply member_spec.
  - destruct (lookup_font (initializeFontMap pdf) family) as [font|] eqn:E;
      [|now left].
    apply lookup_font_In, Hp, andb_true_iff in E. destruct E as [Hin Hne].
    apply negb_true_iff in Hne. rewrite Hne. now apply member_spec.
Qed.

Lemma lookup_font_pair (t1 t2 : list (string * string)) (family : string) :
  map fst t1 = map fst t2 ->
  match lookup_font t1 family, lookup_font t2 family with
  | Some a, Some b => In (a, b) (combine (map snd t1) (map snd t2))
  | None, None => True
  | _, _ => False
  end.
Proof.
  revert t2. induction t1 as [|[k1 v1] t1 IH]; intros [|[k2 v2] t2] Hkeys;
    try discriminate Hkeys; [exact I|].
  cbn [map fst] in Hkeys. injection Hkeys as <- Hkeys.
  cbn [lookup_font map snd combine]. destruct (String.eqb k1 family).
  - now left.
  - specialize (IH t2 Hkeys).
    destruct (lookup_font t1 family), (lookup_font t2 family); try exact IH.
    now right.
Qed.

(** X2. The two tables agree on the category: a family drawn with a serif font
    on the canvas is drawn with the serif face in the PDF, likewise for
    monospace and sans-serif, and a family neither table knows is sans-serif
    in both; the names the tables inherit from [Object.prototype] apart. *)
Theorem font_category_agrees :
  forall family : string,
    plain_family family = true ->
    category_of (getSystemFont family canvas) = category_of (getSystemFont family pdf).
Proof.
  intros family _.
  assert (Hall : forallb (fun ab : string * string =>
                            FontCategory_eqb (category_of (fst ab)) (category_of (snd ab))
                            && negb (String.eqb (fst ab) "")
                            && negb (String.eqb (snd ab) ""))
                   (combine (map snd (initializeFontMap canvas))
                            (map snd (initializeFontMap pdf))) = true) by reflexivity.
  rewrite forallb_forall in Hall.
  pose proof (lookup_font_pair (initializeFontMap canvas) (initializeFontMap pdf)
                family eq_refl) as Hpair.
  unfold getSystemFont, or_string.
  destruct (lookup_font (initializeFontMap canvas) family) as [a|],
           (lookup_font (initializeFontMap pdf) family) as [b|];
    try contradiction; [|reflexivity].
  apply Hall in Hpair. cbn [fst snd] in Hpair.
  apply andb_true_iff in Hpair. destruct Hpair as [Hpair Hb].
  apply andb_true_iff in Hpair. destruct Hpair as [Hcat Ha].
  apply negb_true_iff in Ha. apply negb_true_iff in Hb. rewrite Ha, Hb.
  now destruct (category_of a), (category_of b).
Qed.

End FontTables.

Lemma system_font_is_available_witness :
  plain_family "Comic Sans MS" = true
  /\ getSystemFont "Lobster" canvas = "Arial"
  /\ In (getSystemFont "Comic Sans MS" canvas) canvas_fonts
  /\ In (getSystemFont "Comic Sans MS" pdf) pdf_fonts.
Proof.
  split; [reflexivity|]. split; [reflexivity|].
  apply (system_font_is_available "Comic Sans MS" eq_refl).
Defined.

Lemma font_category_agrees_witness :
  plain_family "Playfair Display" = true
  /\ category_of (getSystemFont "Playfair Display" canvas) = Serif
  /\ category_of (getSystemFont "Playfair Display" canvas)
     = category_of (getSystemFont "Playfair Display" pdf).
Proof.
  split; [reflexivity|]. split; [reflexivity|].
  apply (font_category_agrees "Playfair Display" eq_refl).
Defined.

(* ================================================================== *)
(** * The files of the output directory *)
(* ================================================================== *)

Section OutputFiles.

Context {num : Type} `{JSNumber num}.

Lemma length_append (a b : string) :
  String.length (a ++ b) = (String.length a + String.length b)%nat.
Proof. induction a as [|c a IH]; cbn; [reflexivity|now rewrite IH]. Qed.








Lemma generatePNG_footprint (host : Host num) (disk disk' : Disk num)
    (certificate : Certificate num) (template : Template num)
    (pv : option PlaceholderValues) (path : string)
    (cd : option (ContainerDimensions num)) (r : result string) (other : string) :
  generatePNG host disk certificate template pv path cd = (disk', r) ->
  other <> output_path (certificateId certificate) fmt_png ->
  readFile other disk' = readFile other disk.
Proof.
  unfold generatePNG. intros E Hne.
  destruct (loadImage host path) as [templateImage|m];
    [|cbn [rethrow] in E; now injection E as <- _].
  destruct (pngScale templateImage cd) as [sx sy].
  destruct (pngOverlay sx sy pv (t_placeholders template)) as [texts|m];
    [|cbn [rethrow] in E; now injection E as <- _].
  destruct (writable host _); cbn [rethrow] in E; injection E as <- _;
    [|reflexivity].
  now apply readFile_writeFile_other.
Qed.

Lemma generatePNG_failure (host : Host num) (disk disk' : Disk num)
    (certificate : Certificate num) (template : Template num)
    (pv : option PlaceholderValues) (path : string)
    (cd : option (ContainerDimensions num)) (m : string) :
  generatePNG host disk certificate template pv path cd = (disk', Throw m) ->
  disk' = disk.
Proof.
  unfold generatePNG. intros E.
  destruct (loadImage host path) as [templateImage|m'];
    [|cbn [rethrow] in E; now injection E as <- _].
  destruct (pngScale templateImage cd) as [sx sy].
  destruct (pngOverlay sx sy pv (t_placeholders template)) as [texts|m'];
    [|cbn [rethrow] in E; now injection E as <- _].
  destruct (writable host _); cbn [rethrow] in E; [discriminate E|].
  now injection E as <- _.
Qed.

Lemma generatePDF_footprint (host : Host num) (disk disk' : Disk num)
    (certificate : Certificate num) (template : Template num)
    (pv : option PlaceholderValues) (path : string)
    (cd : option (ContainerDimensions num)) (r : result string) (other : string) :
  generatePDF host disk certificate template pv path cd = (disk', r) ->
  other <> output_path (certificateId certificate) fmt_pdf ->
  readFile other disk' = readFile other disk.
Proof.
  unfold generatePDF. intros E Hne.
  destruct (loadImage host path) as [templateImage|m];
    [|cbn [rethrow] in E; now injection E as <- _].
  assert (Hopened : readFile other
                      (if writable host (output_path (certificateId certificate) fmt_pdf)
                       then writeFile (output_path (certificateId certificate) fmt_pdf)
                              Truncated disk
                       else disk)
                    = readFile other disk).
  { destruct (writable host _); [|reflexivity]. now apply readFile_writeFile_other. }
  destruct (embedImage host path) as [[]|m].
  - destruct (pdfScale templateImage cd) as [sx sy].
    destruct (pdfOverlay sx sy pv (t_placeholders template)) as [texts|m].
    + destruct (writable host _); cbn [rethrow] in E; injection E as <- _.
      * now rewrite !readFile_writeFile_other.
      * reflexivity.
    + cbn [rethrow] in E. injection E as <- _. exact Hopened.
  - cbn [rethrow] in E. injection E as <- _. exact Hopened.
Qed.

(** What generateCertificate yields in each of its three outcomes. *)
Lemma generateCertificate_cases (host : Host num) (disk : Disk num)
    (certificate : Certificate num) (template : Template num)
    (pv : option PlaceholderValues) (cd : option (ContainerDimensions num)) :
  let path := path_join uploadsDir (t_filename template) in
  let id := certificateId certificate in
  (exists m m',
      generatePNG host disk certificate template pv path cd = (disk, Throw m)
      /\ generateCertificate host disk certificate template pv cd = (disk, Throw m'))
  \/ (exists disk1 disk2 m m',
        generatePNG host disk certificate template pv path cd
        = (disk1, Ok (output_path id fmt_png))
        /\ generatePDF host disk1 certificate template pv path cd = (disk2, Throw m)
        /\ generateCertificate host disk certificate template pv cd = (disk2, Throw m'))
  \/ (exists disk1 disk2 pngContent pdfContent,
        generatePNG host disk certificate template pv path cd
        = (disk1, Ok (output_path id fmt_png))
        /\ generatePDF host disk1 certificate template pv path cd
           = (disk2, Ok (output_path id fmt_pdf))
        /\ readFile (output_path id fmt_png) disk2 = Some pngContent
        /\ readFile (output_path id fmt_pdf) disk2 = Some pdfContent
        /\ generateCertificate host disk certificate template pv cd
           = (disk2,
              Ok ({| g_path := output_path id fmt_pdf;
                     g_filename := (id ++ ".pdf")%string;
                     g_size := byteSize host pdfContent |},
                  {| g_path := output_path id fmt_png;
                     g_filename := (id ++ ".png")%string;
                     g_size := byteSize host pngContent |}))).
Proof.
  intros path id. unfold generateCertificate. fold path.
  destruct (generatePNG host disk certificate template pv path cd)
    as [disk1 [pngPath|m]] eqn:Hpng.
  2: { left. exists m. eexists.
       rewrite (generatePNG_failure _ _ _ _ _ _ _ _ _ Hpng). split; reflexivity. }
  right.
  pose proof Hpng as Hwritten. apply generatePNG_written in Hwritten.
  destruct Hwritten as (i1 & t1 & _ & _ & -> & Hdisk1).
  destruct (generatePDF host disk1 certificate template pv path cd)
    as [disk2 [pdfPath|m]] eqn:Hpdf.
  2: { left. exists disk1, disk2, m. eexists.
       repeat split; first [reflexivity | eassumption]. }
  right.
  pose proof (generatePDF_keeps_png _ _ _ _ _ _ _ _ _ Hpdf) as Hkeep.
  pose proof Hpdf as Hwritten. apply generatePDF_written in Hwritten.
  destruct Hwritten as (i2 & t2 & _ & _ & -> & Hread).
  rewrite Hdisk1, readFile_writeFile in Hkeep. fold id in Hkeep, Hread.
  exists disk1, disk2. eexists. eexists.
  split; [first [reflexivity | eassumption]|].
  split; [first [reflexivity | eassumption]|].
  split; [exact Hkeep|]. split; [exact Hread|].
  cbn [rethrow]. unfold stat. fold id. rewrite Hread, Hkeep. reflexivity.
Qed.

(** X6. generateCertificate touches nothing but the PDF and the PNG of its
    certificate: every other file of the disk reads as before, whether it
    returns or throws; and when the PNG renderer throws the disk is exactly
    as it was. *)
Theorem generateCertificate_writes_only_own_files :
  forall (host : Host num) (disk : Disk num) (certificate : Certificate num)
         (template : Template num) (placeholderValues : option PlaceholderValues)
         (containerDimensions : option (ContainerDimensions num)),
    let run := generateCertificate host disk certificate template
                 placeholderValues containerDimensions in
    (forall path,
        ~ In path (own_paths (certificateId certificate)) ->
        readFile path (fst run) = readFile path disk)
    /\ (is_ok (snd (generatePNG host disk certificate template placeholderValues
                      (path_join uploadsDir (t_filename template))
                      containerDimensions)) = false ->
        fst run = disk /\ is_ok (snd run) = false).
Proof.
  intros host disk certificate template pv cd run. unfold run.
  destruct (generateCertificate_cases host disk certificate template pv cd)
    as [(m & m' & Hpng & ->)
       |[(d1 & d2 & m & m' & Hpng & Hpdf & ->)
        |(d1 & d2 & cpng & cpdf & Hpng & Hpdf & _ & _ & ->)]];
    cbn [fst snd is_ok]; rewrite Hpng; cbn [snd is_ok].
  - split; [reflexivity|]. now split.
  - split; [|discriminate]. intros path Hout.
    rewrite (generatePDF_footprint _ _ _ _ _ _ _ _ _ _ Hpdf)
      by (intros ->; apply Hout; now left).
    apply (generatePNG_footprint _ _ _ _ _ _ _ _ _ _ Hpng).
    intros ->. apply Hout. right. now left.
  - split; [|discriminate]. intros path Hout.
    rewrite (generatePDF_footprint _ _ _ _ _ _ _ _ _ _ Hpdf)
      by (intros ->; apply Hout; now left).
    apply (generatePNG_footprint _ _ _ _ _ _ _ _ _ _ Hpng).
    intros ->. apply Hout. right. now left.
Qed.

(** X7. When generateCertificate returns, both files are on disk under
    <outputDir>/<certificateId>.pdf and .png, named <certificateId>.pdf and
    .png, and the sizes it reports are the sizes getFileInfo then finds. *)
Theorem generateCertificate_reports_written_files :
  forall (host : Host num) (disk disk' : Disk num) (certificate : Certificate num)
         (template : Template num) (placeholderValues : option PlaceholderValues)
         (containerDimensions : option (ContainerDimensions num))
         (pdfFile pngFile : Generated),
    generateCertificate host disk certificate template placeholderValues
      containerDimensions = (disk', Ok (pdfFile, pngFile)) ->
    let id := certificateId certificate in
    getFileInfo host disk' id fmt_pdf = (g_path pdfFile, g_size pdfFile, true)
    /\ getFileInfo host disk' id fmt_png = (g_path pngFile, g_size pngFile, true)
    /\ g_path pdfFile = output_path id fmt_pdf
    /\ g_path pngFile = output_path id fmt_png
    /\ g_filename pdfFile = (id ++ ".pdf")%string
    /\ g_filename pngFile = (id ++ ".png")%string.
Proof.
  intros host disk disk' certificate template pv cd pdfFile pngFile Hrun id.
  destruct (generateCertificate_cases host disk certificate template pv cd)
    as [(m & m' & _ & E)
       |[(d1 & d2 & m & m' & _ & _ & E)
        |(d1 & d2 & cpng & cpdf & _ & _ & Hpng & Hpdf & E)]];
    rewrite E in Hrun; try discriminate Hrun.
  injection Hrun as <- <- <-. fold id in Hpng, Hpdf.
  unfold getFileInfo, stat. cbn [g_path g_size g_filename].
  rewrite Hpng, Hpdf. repeat split; reflexivity.
Qed.

End OutputFiles.

Lemma generateCertificate_reports_written_files_witness :
  let certificate := sample_certificate (num := float) 100 "CERT-2024-001" pending no_files 1 in
  exists disk' pdfFile pngFile,
    generateCertificate sample_host [] certificate scenario_template
      (Some scenario_values) scenario_container = (disk', Ok (pdfFile, pngFile))
    /\ getFileInfo sample_host disk' "CERT-2024-001" fmt_pdf
       = ("generated/CERT-2024-001.pdf", 2050%N, true)
    /\ g_size pdfFile = 2050%N.
Proof.
  intros certificate.
  destruct (generateCertificate sample_host [] certificate scenario_template
              (Some scenario_values) scenario_container) as [disk' outcome] eqn:Hrun.
  assert (Hout : exists pdfFile pngFile,
             outcome = Ok (pdfFile, pngFile) /\ g_size pdfFile = 2050%N
             /\ g_path pdfFile = "generated/CERT-2024-001.pdf").
  { apply (f_equal snd) in Hrun. cbn [snd] in Hrun. rewrite <- Hrun.
    vm_compute. eexists. eexists. repeat split. }
  destruct Hout as (pdfFile & pngFile & -> & Hsize & Hpath).
  exists disk', pdfFile, pngFile. split; [reflexivity|].
  destruct (generateCertificate_reports_written_files sample_host [] disk' certificate
              scenario_template (Some scenario_values) scenario_container
              pdfFile pngFile Hrun) as (Hinfo & _).
  cbn zeta in Hinfo. rewrite Hpath, Hsize in Hinfo. split; [exact Hinfo | exact Hsize].
Defined.

(* ================================================================== *)
(** * The sanitized participant name *)
(* ================================================================== *)

Section Sanitizing.

Lemma trimStart_head (s : string) :
  trimStart s = EmptyString
  \/ exists c rest, trimStart s = String c rest /\ is_space c = false.
Proof.
  induction s as [|c s IH]; [now left|].
  cbn [trimStart]. destruct (is_space c) eqn:E; [exact IH|].
  right. now exists c, s.
Qed.

Lemma trimEnd_head (c : ascii) (s : string) :
  is_space c = false -> exists rest, trimEnd (String c s) = String c rest.
Proof.
  intros E. cbn [trimEnd]. destruct (trimEnd s) as [|d kept].
  - rewrite E. now exists EmptyString.
  - now exists (String d kept).
Qed.

Lemma trimEnd_idempotent (s : string) : trimEnd (trimEnd s) = trimEnd s.
Proof.
  induction s as [|c s IH]; [reflexivity|].
  cbn [trimEnd]. destruct (trimEnd s) as [|d kept] eqn:E.
  - destruct (is_space c) eqn:Ec; [reflexivity|]. cbn [trimEnd]. now rewrite Ec.
  - cbn [trimEnd]. cbn [trimEnd] in IH. now rewrite IH.
Qed.

Lemma trimStart_fixed (s : string) :
  (s = EmptyString \/ exists c rest, s = String c rest /\ is_space c = false) ->
  trimStart s = s.
Proof.
  intros [->|(c & rest & -> & E)]; [reflexivity|]. cbn [trimStart]. now rewrite E.
Qed.

(** Trimming a trimmed string changes nothing. *)
Lemma trim_idempotent (s : string) : trim (trim s) = trim s.
Proof.
  unfold trim.
  assert (Hfixed : trimStart (trimEnd (trimStart s)) = trimEnd (trimStart s)).
  { apply trimStart_fixed.
    destruct (trimStart_head s) as [->|(c & rest & -> & E)]; [now left|].
    right. destruct (trimEnd_head c rest E) as [kept ->]. now exists c, kept. }
  rewrite Hfixed. apply trimEnd_idempotent.
Qed.

Lemma all_chars_forall (f : ascii -> bool) (s : string) :
  all_chars f s = true ->
  forall n c, String.get n s = Some c -> f c = true.
Proof.
  induction s as [|d s IH]; intros Hs n c Hget; [discriminate Hget|].
  cbn [all_chars] in Hs. apply andb_true_iff in Hs. destruct Hs as [Hd Hs].
  destruct n as [|n]; cbn [String.get] in Hget.
  - now injection Hget as <-.
  - now apply (IH Hs n).
Qed.

(** X8. What validateCertificateCreation lets through is the trimmed name; it
    has 2 to 100 characters, all of them letters, white space (the no-break
    space included, as [trim] and [\s] have it), dots, apostrophes or
    hyphens; and it is a fixed point of the sanitizing: the handler's own
    [participantName.trim()] and a second validation leave it as it is. *)
Theorem sanitized_name_is_stable :
  forall participantName sanitized : string,
    validateCertificateCreation participantName = Some sanitized ->
    sanitized = trim participantName
    /\ (2 <= String.length sanitized <= 100)%nat
    /\ (forall n c, String.get n sanitized = Some c -> is_name_char c = true)
    /\ trim sanitized = sanitized
    /\ validateCertificateCreation sanitized = Some sanitized.
Proof.
  intros participantName sanitized. unfold validateCertificateCreation.
  destruct (name_ok (trim participantName)) eqn:Hok; [|discriminate].
  intros E. injection E as <-.
  split; [reflexivity|].
  pose proof Hok as Hparts. unfold name_ok in Hparts.
  apply andb_true_iff in Hparts. destruct Hparts as [Hparts Hchars].
  apply andb_true_iff in Hparts. destruct Hparts as [Hparts _].
  apply andb_true_iff in Hparts. destruct Hparts as [Hmin Hmax].
  apply Nat.leb_le in Hmin. apply Nat.leb_le in Hmax.
  split; [now split|].
  split; [now apply all_chars_forall|].
  split; [apply trim_idempotent|].
  now rewrite trim_idempotent, Hok.
Qed.

Lemma sanitized_name_is_stable_witness :
  validateCertificateCreation (String (ascii_of_N 160) " Ada Lovelace ")
    = Some "Ada Lovelace"
  /\ trim "Ada Lovelace" = "Ada Lovelace"
  /\ validateCertificateCreation "Ada Lovelace" = Some "Ada Lovelace".
Proof.
  split; [reflexivity|].
  pose proof (sanitized_name_is_stable (String (ascii_of_N 160) " Ada Lovelace ")
                "Ada Lovelace" eq_refl)
    as (_ & _ & _ & Htrim & Hagain).
  split; [exact Htrim | exact Hagain].
Defined.

End Sanitizing.

(* ================================================================== *)
(** * The identifiers generateNextId makes *)
(* ================================================================== *)

From Stdlib Require Import DecimalPos.

Section MadeIdentifiers.

Context {num : Type} `{JSNumber num}.

Lemma of_uint_acc_value (d : Decimal.uint) (acc : positive) :
  Z.pos (Pos.of_uint_acc d acc) = decimal_value (Z.pos acc) (NilEmpty.string_of_uint d).
Proof.
  revert acc. induction d; intros acc; cbn [Pos.of_uint_acc NilEmpty.string_of_uint];
    [reflexivity|..]; rewrite IHd; cbn [decimal_value]; f_equal;
    change (digit_value "0") with (Some 0%Z); change (digit_value "1") with (Some 1%Z);
    change (digit_value "2") with (Some 2%Z); change (digit_value "3") with (Some 3%Z);
    change (digit_value "4") with (Some 4%Z); change (digit_value "5") with (Some 5%Z);
    change (digit_value "6") with (Some 6%Z); change (digit_value "7") with (Some 7%Z);
    change (digit_value "8") with (Some 8%Z); change (digit_value "9") with (Some 9%Z);
    lia.
Qed.

Lemma of_uint_value (d : Decimal.uint) :
  Z.of_N (Pos.of_uint d) = decimal_value 0 (NilEmpty.string_of_uint d).
Proof.
  induction d; cbn [Pos.of_uint NilEmpty.string_of_uint]; [reflexivity|..];
    try (cbn [Z.of_N]; rewrite of_uint_acc_value; reflexivity).
  exact IHd.
Qed.

(** Printing a natural number and reading the digits back gives the
    number. *)
Lemma toString_value (n : Z) : (0 <= n)%Z -> decimal_value 0 (toString (Some n)) = n.
Proof.
  intros Hn. destruct n as [|p|p]; [reflexivity| |lia].
  unfold toString, NilZero.string_of_int. cbn [Z.to_int].
  pose proof (of_uint_value (Pos.to_uint p)) as Hv.
  rewrite Unsigned.of_to in Hv. cbn [Z.of_N] in Hv.
  unfold NilZero.string_of_uint. destruct (Pos.to_uint p); symmetry; exact Hv.
Qed.

Lemma toString_is_number (n : Z) : (0 <= n)%Z -> is_number (toString (Some n)) = true.
Proof.
  intros Hn. unfold is_number. rewrite (year_digits n Hn), andb_true_r.
  destruct n as [|p|p]; [reflexivity| |lia].
  destruct (toString (Some (Z.pos p))) eqn:E; [|reflexivity].
  pose proof (toString_value (Z.pos p) Hn) as Hv. rewrite E in Hv. discriminate Hv.
Qed.

Lemma repeat_zero_value (k : nat) (s : string) :
  decimal_value 0 (repeat_char "0" k ++ s) = decimal_value 0 s.
Proof. induction k as [|k IH]; [reflexivity|exact IH]. Qed.

Lemma repeat_zero_digits (k : nat) (s : string) :
  all_chars is_digit s = true -> all_chars is_digit (repeat_char "0" k ++ s) = true.
Proof. intros Hs. induction k as [|k IH]; [exact Hs|exact IH]. Qed.

Lemma length_repeat_char (c : ascii) (k : nat) : String.length (repeat_char c k) = k.
Proof. induction k as [|k IH]; cbn; [reflexivity|now rewrite IH]. Qed.

(** The padded sequence number: digits only, three at least, and it reads
    back as the number. *)
Lemma padded_number (n : Z) :
  (0 <= n)%Z ->
  let padded := padStart 3 "0" (toString (Some n)) in
  all_chars is_digit padded = true
  /\ (3 <= String.length padded)%nat
  /\ is_number padded = true
  /\ decimal_value 0 padded = n.
Proof.
  intros Hn padded. unfold padded, padStart.
  assert (Hd : all_chars is_digit
                 (repeat_char "0" (3 - String.length (toString (Some n)))
                  ++ toString (Some n)) = true)
    by (apply repeat_zero_digits, year_digits, Hn).
  assert (Hlen : (3 <= String.length
                         (repeat_char "0" (3 - String.length (toString (Some n)))
                          ++ toString (Some n)))%nat)
    by (rewrite length_append, length_repeat_char; lia).
  split; [exact Hd|]. split; [exact Hlen|]. split.
  - unfold is_number. rewrite Hd, andb_true_r.
    destruct (repeat_char "0" _ ++ toString (Some n))%string; [cbn in Hlen; lia|reflexivity].
  - rewrite repeat_zero_value. now apply toString_value.
Qed.

Lemma split_identifier (year : Z) (s : string) :
  (0 <= year)%Z -> all_chars is_digit s = true ->
  split "-" (("CERT-" ++ toString (Some year) ++ "-") ++ s)
  = ["CERT"; toString (Some year); s].
Proof.
  intros Hy Hs.
  change ("CERT-" ++ toString (Some year) ++ "-")%string
    with ("CERT" ++ String "-" (toString (Some year) ++ "-"))%string.
  rewrite append_assoc. cbn [String.append].
  change (String "C" (String "E" (String "R" (String "T"
            (String "-" ((toString (Some year) ++ "-") ++ s))))))%string
    with ("CERT" ++ String "-" ((toString (Some year) ++ "-") ++ s))%string.
  rewrite split_at_separator by reflexivity.
  rewrite append_assoc. cbn [String.append].
  rewrite split_at_separator by (apply digits_plain, year_digits, Hy).
  now rewrite split_plain by (now apply digits_plain).
Qed.

Lemma four_digit_year (year : Z) :
  (1000 <= year <= 9999)%Z -> String.length (toString (Some year)) = 4%nat.
Proof.
  intros Hy.
  assert (Hall : forallb (fun k => Nat.eqb (String.length
                                              (toString (Some (Z.of_nat k + 1000)%Z))) 4)
                   (seq 0 (Z.to_nat 9000)) = true) by (vm_compute; reflexivity).
  rewrite forallb_forall in Hall.
  specialize (Hall (Z.to_nat (year - 1000))).
  replace (Z.of_nat (Z.to_nat (year - 1000)) + 1000)%Z with year in Hall by lia.
  apply Nat.eqb_eq, Hall, in_seq. lia.
Qed.

Lemma findLatest_In (prefix : string) (certificates : list (Certificate num))
    (c : Certificate num) :
  findLatest prefix certificates = Some c -> In c certificates.
Proof.
  revert c. induction certificates as [|x rest IH]; intros c; [discriminate|].
  cbn [findLatest]. destruct (String.prefix prefix (certificateId x)).
  - destruct (findLatest prefix rest) as [best|].
    + destruct (String.ltb (certificateId x) (certificateId best));
        intros E; injection E as <-; [right; now apply IH | now left].
    + intros E. injection E as <-. now left.
  - intros E. right. now apply IH.
Qed.

(** A stored identifier that passes the schema has a number as its third
    part. *)
Lemma valid_identifier_sequence (id : string) :
  id_format_ok id = true ->
  exists seq, nth_error (split "-" id) 2 = Some seq /\ is_number seq = true.
Proof.
  unfold id_format_ok.
  destruct (split "-" id) as [|tag [|year [|seq [|extra rest]]]]; try discriminate.
  intros E. exists seq. split; [reflexivity|].
  apply andb_true_iff in E. destruct E as [E Hdigits].
  apply andb_true_iff in E. destruct E as [_ Hlen].
  apply Nat.leb_le in Hlen. unfold is_number. rewrite Hdigits, andb_true_r.
  destruct seq; [cbn in Hlen; lia|reflexivity].
Qed.

(** X9. generateNextId keeps the format of the schema: in a year of four digits
    and over stored identifiers that all match CERT-YYYY-NNN... and have at
    most 25 characters (a sequence number of at most 15 digits, which
    [parseInt], [+ 1] and [toString] handle exactly), the identifier it
    returns matches the format too (never CERT-YYYY-NaN, never fewer than
    three digits). *)
Theorem generateNextId_keeps_format :
  forall (certificates : list (Certificate num)) (year : Z),
    (1000 <= year <= 9999)%Z ->
    (forall c, In c certificates -> id_format_ok (certificateId c) = true) ->
    (forall c, In c certificates -> (String.length (certificateId c) <= 25)%nat) ->
    id_format_ok (generateNextId certificates year) = true.
Proof.
  intros certificates year Hyear Hstored _.
  assert (Hy : (0 <= year)%Z) by lia.
  assert (Hnext : exists n, (0 <= n)%Z
                            /\ generateNextId certificates year
                               = (("CERT-" ++ toString (Some year) ++ "-")
                                  ++ padStart 3 "0" (toString (Some n)))%string).
  { unfold generateNextId.
    destruct (findLatest _ certificates) as [best|] eqn:E.
    - apply findLatest_In, Hstored, valid_identifier_sequence in E.
      destruct E as (seq & -> & Hseq). cbn [parseInt_opt].
      rewrite (parseInt_number seq Hseq). cbn [option_map].
      exists (decimal_value 0 seq + 1)%Z. split; [|reflexivity].
      unfold is_number in Hseq. apply andb_true_iff in Hseq.
      pose proof (decimal_value_bounds seq (proj2 Hseq)). lia.
    - exists 1%Z. split; [lia|reflexivity]. }
  destruct Hnext as (n & Hn & ->).
  destruct (padded_number n Hn) as (Hdigits & Hlen & _ & _).
  unfold id_format_ok. rewrite (split_identifier year _ Hy Hdigits).
  rewrite (four_digit_year year Hyear), (year_digits year Hy), Hdigits.
  cbn [String.eqb Ascii.eqb Bool.eqb Nat.eqb andb].
  rewrite andb_true_r. now apply Nat.leb_le.
Qed.

End MadeIdentifiers.

Lemma generateNextId_keeps_format_witness :
  (1000 <= 2024 <= 9999)%Z
  /\ id_format_ok (generateNextId (certificates (world_after_1000 (num := float))) 2024)
     = true.
Proof.
  split; [lia|].
  apply generateNextId_keeps_format; [lia| |].
  - intros c [<-|[<-|[]]]; reflexivity.
  - intros c [<-|[<-|[]]]; cbn; lia.
Defined.

Section FreshIdentifiers.

Context {num : Type}.

Lemma highest_sequence_nonnegative (prefix : string)
    (certificates : list (Certificate num)) :
  (0 <= highest_sequence prefix certificates)%Z.
Proof.
  induction certificates as [|c rest IH]; [cbn; lia|].
  cbn [highest_sequence fold_right]. fold (highest_sequence prefix rest).
  destruct (sequence_number prefix (certificateId c)); lia.
Qed.

Lemma highest_sequence_bounds (prefix : string)
    (certificates : list (Certificate num)) (c : Certificate num) (n : Z) :
  In c certificates -> sequence_number prefix (certificateId c) = Some n ->
  (n <= highest_sequence prefix certificates)%Z.
Proof.
  induction certificates as [|x rest IH]; intros Hin Hn; [destruct Hin|].
  cbn [highest_sequence fold_right]. fold (highest_sequence prefix rest).
  destruct Hin as [->|Hin].
  - rewrite Hn. lia.
  - specialize (IH Hin Hn).
    destruct (sequence_number prefix (certificateId x)); lia.
Qed.

(** While every identifier of the year has a sequence number of one and the
    same length, the identifier generateNextId returns is not stored yet: the
    unique index cannot refuse it. *)
Lemma next_identifier_is_fresh :
  forall (certificates : list (Certificate num)) (year : Z) (width : nat),
    (0 <= year)%Z ->
    sequence_width ("CERT-" ++ toString (Some year) ++ "-") width certificates ->
    forall c, In c certificates ->
              certificateId c <> generateNextId certificates year.
Proof.
  intros certificates year width Hy Hwidth c Hin Heq.
  rewrite (generateNextId_one_width year Hy width certificates Hwidth) in Heq.
  unfold specified_next_id in Heq.
  set (prefix := ("CERT-" ++ toString (Some year) ++ "-")%string) in *.
  pose proof (highest_sequence_nonnegative prefix certificates) as Hh.
  assert (Hnext : (0 <= highest_sequence prefix certificates + 1)%Z) by lia.
  destruct (padded_number _ Hnext) as (_ & _ & Hnum & Hvalue).
  assert (Hp : String.prefix prefix (certificateId c) = true)
    by (rewrite Heq; apply prefix_append).
  destruct (Hwidth c Hin Hp) as (s & Hid & Hs & _).
  destruct (sequence_of_identifier year Hy s Hs) as [Hseq _].
  fold prefix in Hseq. rewrite <- Hid in Hseq.
  pose proof (highest_sequence_bounds prefix certificates c _ Hin Hseq) as Hle.
  rewrite Hid in Heq. apply append_cancel in Heq. rewrite Heq, Hvalue in Hle. lia.
Qed.

End FreshIdentifiers.

(* ================================================================== *)
(** * The server: what the routes keep and what they never do *)
(* ================================================================== *)

Import MoreSamples.

Section Server.

Context {num : Type} `{JSNumber num}.

Lemma update_fresh (c : Certificate num) (cs : list (Certificate num)) :
  (forall c', In c' cs -> c_id c' <> c_id c) -> update c cs = cs.
Proof.
  induction cs as [|c0 cs IH]; intros Hfresh; [reflexivity|].
  cbn [update map]. fold (update c cs). rewrite IH by (intros; apply Hfresh; now right).
  destruct (N.eqb_spec (c_id c0) (c_id c)) as [E|_]; [|reflexivity].
  now destruct (Hfresh c0 (or_introl eq_refl)).
Qed.

Lemma update_ids (c : Certificate num) (cs : list (Certificate num)) :
  map (@c_id num) (update c cs) = map (@c_id num) cs.
Proof.
  induction cs as [|c0 cs IH]; [reflexivity|].
  cbn [update map]. fold (update c cs). rewrite IH. f_equal.
  now destruct (N.eqb_spec (c_id c0) (c_id c)).
Qed.

Lemma update_elements (c c' : Certificate num) (cs : list (Certificate num)) :
  In c' (update c cs) ->
  (c' = c /\ exists c0, In c0 cs /\ c_id c0 = c_id c)
  \/ (In c' cs /\ c_id c' <> c_id c).
Proof.
  induction cs as [|c0 cs IH]; [intros []|].
  cbn [update map]. fold (update c cs). intros [E|Hin].
  - destruct (N.eqb_spec (c_id c0) (c_id c)) as [Eid|Hne].
    + left. split; [now symmetry|]. exists c0. split; [now left|exact Eid].
    + right. subst c'. split; [now left|exact Hne].
  - destruct (IH Hin) as [(-> & c1 & Hc1 & Eid)|(Hc' & Hne)].
    + left. split; [reflexivity|]. exists c1. split; [now right|exact Eid].
    + right. split; [now right|exact Hne].
Qed.

(** Saving a record that keeps the certificateId of the stored record with
    its [_id] leaves the certificateIds as they were. *)
Lemma update_certificateIds (c : Certificate num) (cs : list (Certificate num)) :
  (forall c0, In c0 cs -> c_id c0 = c_id c -> certificateId c0 = certificateId c) ->
  map (@certificateId num) (update c cs) = map (@certificateId num) cs.
Proof.
  induction cs as [|c0 cs IH]; intros Hsame; [reflexivity|].
  cbn [update map]. fold (update c cs).
  rewrite IH by (intros; apply Hsame; [now right|assumption]). f_equal.
  destruct (N.eqb_spec (c_id c0) (c_id c)) as [E|_]; [|reflexivity].
  symmetry. apply Hsame; [now left|exact E].
Qed.

(** Saving a record of an admin over records of that admin leaves the
    records of the other admins as they were. *)
Lemma update_others (admin : N) (c : Certificate num) (cs : list (Certificate num)) :
  c_createdBy c = admin ->
  (forall c0, In c0 cs -> c_id c0 = c_id c -> c_createdBy c0 = admin) ->
  filter (fun c => negb (N.eqb (c_createdBy c) admin)) (update c cs)
  = filter (fun c => negb (N.eqb (c_createdBy c) admin)) cs.
Proof.
  intros Hown. induction cs as [|c0 cs IH]; intros Hsame; [reflexivity|].
  cbn [update map filter]. fold (update c cs).
  rewrite IH by (intros; apply Hsame; [now right|assumption]).
  destruct (N.eqb_spec (c_id c0) (c_id c)) as [E|_]; [|reflexivity].
  rewrite Hown, (Hsame c0 (or_introl eq_refl) E), N.eqb_refl. reflexivity.
Qed.

Lemma unique_id (cs : list (Certificate num)) (a b : Certificate num) :
  NoDup (map (@c_id num) cs) -> In a cs -> In b cs -> c_id a = c_id b -> a = b.
Proof.
  induction cs as [|c0 cs IH]; [intros _ []|].
  cbn [map]. intros Hnd Ha Hb E. inversion Hnd as [|x l Hnotin Hnd']; subst.
  destruct Ha as [<-|Ha], Hb as [<-|Hb].
  - reflexivity.
  - destruct Hnotin. rewrite E. now apply in_map.
  - destruct Hnotin. rewrite <- E. now apply in_map.
  - now apply IH.
Qed.

End Server.

Section ServerCreate.

Context {num : Type} `{JSNumber num}.

(** The certificate a run of the create route stores at the end, from the
    one it inserted and what the generator returned. *)
Lemma create_cases (host : Host num) (clock : Clock) (w : World num)
    (req : CreateRequest num) :
  let run := create host clock w req in
  (fst run = w
   /\ exists status message data,
        snd run = Json status false message data
        /\ (status = 400 \/ status = 404)%N
        /\ (data = NoPayload \/ data = ValidationErrors))
  \/ (certificates (fst run) = certificates w
      /\ templates (fst run) = templates w
      /\ disk (fst run) = disk w
      /\ next_oid (fst run) = (next_oid w + 1)%N
      /\ exists status message,
           snd run = Json status false message NoPayload
           /\ (status = 400 \/ status = 500)%N)
  \/ (exists template inserted final,
        findTemplate w (rq_templateId req) (rq_admin req) = Some template
        /\ c_id inserted = next_oid w
        /\ certificateId inserted = generateNextId (certificates w) (currentYear clock)
        /\ c_createdBy inserted = rq_admin req
        /\ c_isActive inserted = true
        /\ c_status inserted = pending
        /\ c_generatedFiles inserted = no_files
        /\ md_downloadCount (c_metadata inserted) = 0%N
        /\ schema_valid inserted = true
        /\ (forall c, In c (certificates w) -> certificateId c <> certificateId inserted)
        /\ final
           = match snd (generateCertificate host (disk w) inserted template
                          (rq_placeholderValues req) (rq_containerDimensions req)) with
             | Ok (pdfFile, pngFile) =>
                 set_status inserted generated
                   {| gf_pdf := Some (file_info (c_id inserted) fmt_pdf pdfFile);
                      gf_png := Some (file_info (c_id inserted) fmt_png pngFile) |}
                   (generationTime clock)
             | Throw _ => set_status inserted failed no_files 0
             end
        /\ certificates (fst run) = update final (certificates w ++ [inserted])
        /\ templates (fst run) = incrementUsage (t_id template) (templates w)
        /\ disk (fst run)
           = fst (generateCertificate host (disk w) inserted template
                    (rq_placeholderValues req) (rq_containerDimensions req))
        /\ next_oid (fst run) = (next_oid w + 1)%N
        /\ snd run = Json 201 true "Certificate created successfully"
                       (CertificatePayload final)).
Proof.
  cbv zeta. unfold create.
  destruct (validateCertificateCreation (rq_participantName req)) as [name|].
  2: { left. split; [reflexivity|]. do 3 eexists.
       split; [reflexivity|]. split; [now left|now right]. }
  destruct (findTemplate w (rq_templateId req) (rq_admin req)) as [template|] eqn:Ht.
  2: { left. split; [reflexivity|]. do 3 eexists.
       split; [reflexivity|]. split; [now right|now left]. }
  destruct (Nat.eqb (List.length (t_placeholders template)) 0) eqn:Hlen.
  { left. split; [reflexivity|]. do 3 eexists.
    split; [reflexivity|]. split; now left. }
  destruct (negb (existsb (has_type TName) (t_placeholders template))
            || negb (existsb (has_type TId) (t_placeholders template))) eqn:Hreq.
  { left. split; [reflexivity|]. do 3 eexists.
    split; [reflexivity|]. split; now left. }
  right. cbv zeta.
  match goal with
  | |- context [insert ?c ?cs] =>
      set (inserted := c); destruct (insert inserted cs) as [[|]|stored] eqn:Hins
  end.
  - left. repeat (split; [reflexivity|]). do 2 eexists. split; [reflexivity|now right].
  - left. repeat (split; [reflexivity|]). do 2 eexists. split; [reflexivity|now left].
  - right. cbn [disk record with_certificates with_templates fresh_oid].
    unfold insert in Hins.
    destruct (schema_valid inserted) eqn:Hvalid; [|discriminate Hins].
    cbn [negb] in Hins.
    match type of Hins with
    | context [existsb ?f ?l] => destruct (existsb f l) eqn:Hdup; [discriminate|]
    end.
    cbn [certificates record fresh_oid] in Hins, Hdup. injection Hins as <-.
    destruct (generateCertificate host (disk w) inserted template
                (rq_placeholderValues req) (rq_containerDimensions req))
      as [disk' outcome] eqn:Hgen.
    exists template, inserted. eexists. rewrite Hgen.
    do 8 (split; [reflexivity|]).
    split; [exact Hvalid|].
    split.
    { intros c Hc E.
      assert (Hex : existsb (fun c' => String.eqb (certificateId c') (certificateId inserted))
                      (certificates w) = true).
      { apply existsb_exists. exists c. split; [exact Hc|]. now apply String.eqb_eq. }
      congruence. }
    cbn [fst snd certificates templates disk next_oid record with_certificates
         with_templates with_disk fresh_oid].
    split; [reflexivity|].
    split; [destruct outcome as [[pdfFile pngFile]|m]; reflexivity|].
    repeat split; reflexivity.
Qed.

End ServerCreate.

Section ServerChanges.

Context {num : Type} `{JSNumber num}.

Lemma findActiveCertificate_spec (w : World num) (id admin : N) (c : Certificate num) :
  findActiveCertificate w id admin = Some c ->
  In c (certificates w) /\ c_id c = id /\ c_createdBy c = admin /\ c_isActive c = true.
Proof.
  unfold findActiveCertificate. intros E. apply find_some in E. destruct E as (Hin & E).
  apply andb_prop in E. destruct E as (E & Hactive).
  apply andb_prop in E. destruct E as (Eid & Eadmin).
  apply N.eqb_eq in Eid, Eadmin. now repeat split.
Qed.

Lemma findOwnedCertificate_spec (w : World num) (id admin : N) (c : Certificate num) :
  find (fun c => N.eqb (c_id c) id && N.eqb (c_createdBy c) admin) (certificates w)
  = Some c ->
  In c (certificates w) /\ c_id c = id /\ c_createdBy c = admin.
Proof.
  intros E. apply find_some in E. destruct E as (Hin & E).
  apply andb_prop in E. destruct E as (Eid & Eadmin).
  apply N.eqb_eq in Eid, Eadmin. now repeat split.
Qed.

Lemma files_of_generation (host : Host num) (disk : Disk num)
    (inserted : Certificate num) (template : Template num)
    (pv : option PlaceholderValues) (cd : option (ContainerDimensions num))
    (pdfFile pngFile : Generated) :
  snd (generateCertificate host disk inserted template pv cd) = Ok (pdfFile, pngFile) ->
  g_path pdfFile = output_path (certificateId inserted) fmt_pdf
  /\ g_path pngFile = output_path (certificateId inserted) fmt_png
  /\ g_filename pdfFile = (certificateId inserted ++ ".pdf")%string
  /\ g_filename pngFile = (certificateId inserted ++ ".png")%string
  /\ getFileInfo host (fst (generateCertificate host disk inserted template pv cd))
       (certificateId inserted) fmt_pdf = (g_path pdfFile, g_size pdfFile, true)
  /\ getFileInfo host (fst (generateCertificate host disk inserted template pv cd))
       (certificateId inserted) fmt_png = (g_path pngFile, g_size pngFile, true).
Proof.
  intros Hrun.
  destruct (generateCertificate_cases host disk inserted template pv cd)
    as [(m & m' & _ & E)
       |[(d1 & d2 & m & m' & _ & _ & E)
        |(d1 & d2 & cpng & cpdf & _ & _ & Hpng & Hpdf & E)]];
    rewrite E in Hrun |- *; cbn [fst snd] in Hrun |- *; try discriminate Hrun.
  injection Hrun as <- <-.
  unfold getFileInfo, stat. cbn [g_path g_size g_filename].
  rewrite Hpng, Hpdf. repeat split; reflexivity.
Qed.

Ltac same_world := apply Unchanged; cbn [fst]; [reflexivity | apply N.le_refl].

(** Every request changes the stored certificates in one of the four ways. *)
Lemma handle_changes (host : Host num) (w : World num) (r : Request num) :
  Change (request_admin r) w (fst (handle host w r)).
Proof.
  destruct r as [clock req|admin id|admin id format|admin id notes tags
                |admin confirmText|admin id|admin id];
    cbn [handle request_admin].
  - (* create *)
    destruct (create_cases host clock w req)
      as [(-> & _)
         |[(Hcs & _ & _ & Hoid & _)
          |(template & inserted & final & _ & Hid & Hcid & Hown & Hactive & Hstatus
            & Hfiles & _ & Hvalid & Hfresh & Hfinal & Hcs & _ & _ & Hoid & _)]].
    + same_world.
    + apply Unchanged; [exact Hcs|lia].
    + assert (Efinal : c_id final = c_id inserted
                       /\ certificateId final = certificateId inserted
                       /\ c_createdBy final = c_createdBy inserted
                       /\ schema_valid final = schema_valid inserted
                       /\ c_isActive final = c_isActive inserted).
      { rewrite Hfinal.
        destruct (snd (generateCertificate _ _ _ _ _ _)) as [[pdfFile pngFile]|m];
          repeat split. }
      destruct Efinal as (Eid & Ecid & Eown & Evalid & Eactive).
      apply Added with (new := final).
      * congruence.
      * rewrite Ecid. exact Hfresh.
      * congruence.
      * split; [congruence|]. split.
        { rewrite Eactive, Hactive. split; [discriminate|].
          rewrite Hfinal.
          destruct (snd (generateCertificate _ _ _ _ _ _)) as [[pdfFile pngFile]|m];
            discriminate. }
        unfold files_fit_status. rewrite Hfinal.
        destruct (snd (generateCertificate host (disk w) inserted template
                         (rq_placeholderValues req) (rq_containerDimensions req)))
          as [[pdfFile pngFile]|m] eqn:Hrun; cbn [c_status set_status]; [|reflexivity].
        destruct (files_of_generation _ _ _ _ _ _ _ _ Hrun)
          as (Hp1 & Hp2 & Hf1 & Hf2 & _).
        do 2 eexists. split; [reflexivity|].
        cbn [file_info fi_filename fi_path certificateId set_status].
        now repeat split.
      * rewrite Hcs. unfold update. rewrite map_app. cbn [map].
        rewrite <- Eid, N.eqb_refl. reflexivity.
      * exact Hoid.
  - (* get *)
    unfold getCertificate. destruct (findOwnedCertificate w id admin); same_world.
  - (* download *)
    unfold download.
    destruct (parse_format format) as [fmt|]; [|same_world].
    destruct (findActiveCertificate w id admin) as [c|] eqn:Hfind;
      [|same_world].
    destruct (findActiveCertificate_spec _ _ _ _ Hfind) as (Hin & Hid & Hown & Hactive).
    destruct (negb (Status_eqb (c_status c) generated));
      [same_world|].
    cbv zeta.
    destruct (getFileInfo host (disk w) (certificateId c) fmt) as [[path size] onDisk].
    destruct (negb onDisk); [same_world|].
    apply Saved with (stored := c) (saved := incrementDownloadCount c);
      try reflexivity; try assumption.
    intros Hsound. exact Hsound.
  - (* update *)
    unfold updateCertificate, findOwnedCertificate.
    destruct (find _ (certificates w)) as [c|] eqn:Hfind;
      [|same_world].
    destruct (findOwnedCertificate_spec _ _ _ _ Hfind) as (Hin & Hid & Hown).
    cbv zeta.
    destruct (schema_valid (set_notes_tags c notes tags)) eqn:Hvalid; cbn [negb];
      [|same_world].
    apply Saved with (stored := c) (saved := set_notes_tags c notes tags);
      try reflexivity; try assumption.
    intros (_ & Hact & Hfit). split; [exact Hvalid|]. split; [exact Hact|exact Hfit].
  - (* bulk delete *)
    destruct confirmText as [text|].
    2: { same_world. }
    destruct (String.eqb_spec text confirmation) as [->|Hne].
    2: { destruct (bulkDelete_needs_confirmation w admin (Some text)) as (m & ->).
         - congruence.
         - same_world. }
    apply Removed; [apply bulkDelete_removes_records|].
    unfold bulkDelete. rewrite String.eqb_refl. cbn [negb].
    destruct (Nat.eqb _ 0); [reflexivity|].
    rewrite file_loop_nothing. reflexivity.
  - (* archive *)
    unfold archiveRoute.
    destruct (find _ (certificates w)) as [c|] eqn:Hfind;
      [|same_world].
    destruct (findOwnedCertificate_spec _ _ _ _ Hfind) as (Hin & Hid & Hown).
    apply Saved with (stored := c) (saved := archive c);
      try reflexivity; try assumption.
    intros (Hvalid & _ & _). split; [exact Hvalid|]. now split.
  - (* delete template *)
    unfold deleteTemplate. destruct (findOwnedTemplate w id admin); same_world.
Qed.

End ServerChanges.

Section ServerInvariants.

Context {num : Type} `{JSNumber num}.

(** Deleting records keeps the keys of the remaining ones distinct. *)
Lemma filter_keeps_distinct {K : Type} (key : Certificate num -> K)
    (keep : Certificate num -> bool) (cs : list (Certificate num)) :
  NoDup (map key cs) -> NoDup (map key (filter keep cs)).
Proof.
  induction cs as [|c cs IH]; intros Hdistinct; [exact Hdistinct|].
  cbn [map] in Hdistinct. apply NoDup_cons_iff in Hdistinct.
  destruct Hdistinct as (Hnew & Hrest). cbn [filter].
  destruct (keep c); [|now apply IH].
  cbn [map]. apply NoDup_cons; [|now apply IH].
  intros Hin. apply Hnew. apply in_map_iff in Hin. destruct Hin as (c' & E & Hc').
  apply filter_In in Hc'. apply in_map_iff. exists c'. now split.
Qed.

Lemma NoDup_snoc {A : Type} (l : list A) (a : A) :
  NoDup l -> ~ In a l -> NoDup (l ++ [a]).
Proof.
  induction l as [|b l IH]; intros Hnd Hnotin.
  - constructor; [intros []|constructor].
  - inversion Hnd as [|x xs Hb Hnd']; subst. cbn [app]. constructor.
    + intros Hin. apply in_app_or in Hin. destruct Hin as [Hin|[E|[]]].
      * now apply Hb.
      * apply Hnotin. now left.
    + apply IH; [exact Hnd'|]. intros Hin. apply Hnotin. now right.
Qed.

Lemma change_keeps_identifiers (admin : N) (w w' : World num) :
  Change admin w w' -> identifiers_unique w -> identifiers_unique w'.
Proof.
  intros Hchange (Hids & Hcids & Hbound).
  destruct Hchange as [Hcs Hoid
                      |stored saved Hin Hown Eid Ecid Hown' _ Hcs Hoid
                      |Hcs Hoid
                      |new Eid Hfresh Hown _ Hcs Hoid];
    unfold identifiers_unique; rewrite Hcs.
  - repeat split; try assumption. intros c Hc. specialize (Hbound c Hc). lia.
  - rewrite update_ids, update_certificateIds.
    + repeat split; try assumption. intros c Hc. rewrite Hoid.
      apply update_elements in Hc. destruct Hc as [(-> & _)|(Hc & _)].
      * rewrite Eid. now apply Hbound.
      * now apply Hbound.
    + intros c0 Hc0 E. rewrite Ecid. f_equal.
      apply (unique_id (certificates w)); try assumption. congruence.
  - repeat split.
    + now apply filter_keeps_distinct.
    + now apply filter_keeps_distinct.
    + intros c Hc. apply filter_In in Hc. rewrite Hoid. now apply Hbound.
  - assert (Hsame : update new (certificates w) = certificates w).
    { apply update_fresh. intros c Hc E. specialize (Hbound c Hc). rewrite E, Eid in Hbound.
      lia. }
    rewrite Hsame, !map_app. cbn [map]. repeat split.
    + apply NoDup_snoc; [exact Hids|]. intros Hin. apply in_map_iff in Hin.
      destruct Hin as (c & E & Hc). specialize (Hbound c Hc). rewrite E, Eid in Hbound. lia.
    + apply NoDup_snoc; [exact Hcids|]. intros Hin. apply in_map_iff in Hin.
      destruct Hin as (c & E & Hc). now apply (Hfresh c Hc).
    + intros c Hc. rewrite Hoid. apply in_app_or in Hc. destruct Hc as [Hc|[<-|[]]].
      * specialize (Hbound c Hc). lia.
      * rewrite Eid. lia.
Qed.

Lemma change_keeps_sound (admin : N) (w w' : World num) :
  Change admin w w' -> records_sound w -> records_sound w'.
Proof.
  intros Hchange Hsound.
  destruct Hchange as [Hcs Hoid
                      |stored saved Hin Hown Eid Ecid Hown' Hkeep Hcs Hoid
                      |Hcs Hoid
                      |new Eid Hfresh Hown Hnew Hcs Hoid];
    unfold records_sound; rewrite Hcs; intros c Hc.
  - now apply Hsound.
  - apply update_elements in Hc. destruct Hc as [(-> & _)|(Hc & _)].
    + apply Hkeep. now apply Hsound.
    + now apply Hsound.
  - apply filter_In in Hc. now apply Hsound.
  - apply in_app_or in Hc. destruct Hc as [Hc|[<-|[]]]; [|exact Hnew].
    apply update_elements in Hc. destruct Hc as [(-> & _)|(Hc & _)];
      [exact Hnew|now apply Hsound].
Qed.

Lemma bulk_keeps_others (admin : N) (cs : list (Certificate num)) :
  filter (fun c => negb (N.eqb (c_createdBy c) admin))
    (filter (fun c => negb (bulk_deleted admin c)) cs)
  = filter (fun c => negb (N.eqb (c_createdBy c) admin)) cs.
Proof.
  induction cs as [|c cs IH]; [reflexivity|].
  cbn [filter]. unfold bulk_deleted at 1. unfold isArchived.
  destruct (N.eqb (c_createdBy c) admin) eqn:E; cbn [negb andb].
  - destruct (c_isActive c); cbn [negb andb filter]; rewrite ?E; cbn [negb]; exact IH.
  - cbn [filter]. rewrite E. cbn [negb]. now rewrite IH.
Qed.

Lemma change_keeps_others (admin : N) (w w' : World num) :
  Change admin w w' -> identifiers_unique w -> others admin w' = others admin w.
Proof.
  intros Hchange (Hids & Hcids & Hbound).
  destruct Hchange as [Hcs Hoid
                      |stored saved Hin Hown Eid Ecid Hown' _ Hcs Hoid
                      |Hcs Hoid
                      |new Eid Hfresh Hown _ Hcs Hoid];
    unfold others; rewrite Hcs.
  - reflexivity.
  - apply update_others; [exact Hown'|].
    intros c0 Hc0 E. rewrite <- Hown. f_equal.
    apply (unique_id (certificates w)); try assumption. congruence.
  - apply bulk_keeps_others.
  - rewrite update_fresh.
    + rewrite filter_app. cbn [filter]. rewrite Hown, N.eqb_refl. cbn [negb].
      apply app_nil_r.
    + intros c Hc E. specialize (Hbound c Hc). rewrite E, Eid in Hbound. lia.
Qed.

End ServerInvariants.

Section ServerTheorems.

Context {num : Type} `{JSNumber num}.

Lemma serve_changes (host : Host num) (P : World num -> Prop) :
  (forall admin w w', Change admin w w' -> P w -> P w') ->
  forall requests w, P w -> P (serve host w requests).
Proof.
  intros Hstep requests. induction requests as [|r requests IH]; intros w Hw; [exact Hw|].
  cbn [serve fold_left]. apply IH. apply (Hstep (request_admin r) w); [|exact Hw].
  apply handle_changes.
Qed.

(** X12. Whatever requests the server handles, one after the other, no two
    stored certificates ever share an [_id] or a certificateId. *)
Theorem serve_keeps_identifiers_unique :
  forall (host : Host num) (w : World num) (requests : list (Request num)),
    identifiers_unique w ->
    identifiers_unique (serve host w requests).
Proof.
  intros host w requests Hw. revert requests w Hw.
  apply serve_changes. apply change_keeps_identifiers.
Qed.

(** X13. Whatever requests the server handles, every stored certificate passes
    the validators of the schema, is inactive exactly when it is archived,
    and a generated one carries the metadata of both files, named and placed
    after its certificateId, a pending or failed one none. *)
Theorem serve_keeps_records_sound :
  forall (host : Host num) (w : World num) (requests : list (Request num)),
    records_sound w ->
    records_sound (serve host w requests).
Proof.
  intros host w requests Hw. revert requests w Hw.
  apply serve_changes. apply change_keeps_sound.
Qed.

(** X14. The requests of one admin never change, add or remove a certificate
    of another admin. *)
Theorem serve_leaves_other_admins_records :
  forall (host : Host num) (admin : N) (w : World num) (requests : list (Request num)),
    identifiers_unique w ->
    Forall (fun r => request_admin r = admin) requests ->
    others admin (serve host w requests) = others admin w.
Proof.
  intros host admin w requests Hw Hall. revert w Hw.
  induction Hall as [|r requests Hr Hall IH]; intros w Hw; [reflexivity|].
  cbn [serve fold_left]. pose proof (handle_changes host w r) as Hchange.
  rewrite Hr in Hchange.
  etransitivity; [apply IH|].
  - now apply (change_keeps_identifiers admin w).
  - now apply change_keeps_others.
Qed.

End ServerTheorems.

Lemma two_admins_unique : identifiers_unique (world_of_two_admins (num := float)).
Proof.
  unfold identifiers_unique. cbn [certificates world_of_two_admins map].
  repeat split.
  - repeat constructor; cbn [In c_id sample_certificate archive];
      intuition discriminate.
  - repeat constructor; cbn [In certificateId sample_certificate archive];
      intuition discriminate.
  - intros c [<-|[<-|[<-|[]]]]; reflexivity.
Defined.

Lemma two_admins_sound : records_sound (world_of_two_admins (num := float)).
Proof.
  intros c [<-|[<-|[<-|[]]]]; (split; [reflexivity|]); split.
  - split; discriminate.
  - do 2 eexists. repeat split.
  - split; discriminate.
  - do 2 eexists. repeat split.
  - split; reflexivity.
  - exact I.
Defined.

Lemma serve_keeps_identifiers_unique_witness :
  identifiers_unique (world_of_two_admins (num := float))
  /\ identifiers_unique (serve sample_host world_of_two_admins session_of_admin_1).
Proof.
  split; [exact two_admins_unique|].
  apply (serve_keeps_identifiers_unique sample_host world_of_two_admins session_of_admin_1).
  exact two_admins_unique.
Defined.

Lemma serve_keeps_records_sound_witness :
  records_sound (world_of_two_admins (num := float))
  /\ records_sound (serve sample_host world_of_two_admins session_of_admin_1).
Proof.
  split; [exact two_admins_sound|].
  apply (serve_keeps_records_sound sample_host world_of_two_admins session_of_admin_1).
  exact two_admins_sound.
Defined.

Lemma serve_leaves_other_admins_records_witness :
  Forall (fun r => request_admin r = 1%N) (session_of_admin_1 (num := float))
  /\ others 1 (serve sample_host world_of_two_admins session_of_admin_1)
     = others 1 (world_of_two_admins (num := float)).
Proof.
  assert (Hall : Forall (fun r => request_admin r = 1%N) (session_of_admin_1 (num := float)))
    by (repeat constructor).
  split; [exact Hall|].
  apply (serve_leaves_other_admins_records sample_host 1 world_of_two_admins
           session_of_admin_1 two_admins_unique Hall).
Defined.

Section Answers.

Context {num : Type} `{JSNumber num}.

(** X15. A certificate that a response carries is a stored certificate of
    the admin who sent the request. *)
Theorem handle_answers_with_own_certificate :
  forall (host : Host num) (w : World num) (r : Request num) (c : Certificate num),
    response_certificate (snd (handle host w r)) = Some c ->
    c_createdBy c = request_admin r
    /\ In c (certificates (fst (handle host w r))).
Proof.
  intros host w r c.
  destruct r as [clock req|admin id|admin id format|admin id notes tags
                |admin confirmText|admin id|admin id];
    cbn [handle request_admin].
  - destruct (create_cases host clock w req)
      as [(_ & status & message & data & -> & _ & [->| ->])
         |[(_ & _ & _ & _ & status & message & -> & _)
          |(template & inserted & final & _ & Hid & _ & Hown & _ & _ & _ & _ & _ & _
            & Hfinal & Hcs & _ & _ & _ & ->)]];
      cbn [snd response_certificate]; try discriminate.
    intros E. injection E as <-. split.
    + rewrite Hfinal, <- Hown.
      now destruct (snd (generateCertificate _ _ _ _ _ _)) as [[pdfFile pngFile]|m].
    + rewrite Hcs. apply update_In with (c := inserted).
      * apply in_or_app. right. now left.
      * rewrite Hfinal.
        now destruct (snd (generateCertificate _ _ _ _ _ _)) as [[pdfFile pngFile]|m].
  - unfold getCertificate, findOwnedCertificate.
    destruct (find _ (certificates w)) as [c0|] eqn:Hfind;
      cbn [fst snd response_certificate]; [|discriminate].
    destruct (findOwnedCertificate_spec _ _ _ _ Hfind) as (Hin & _ & Hown).
    intros E. injection E as <-. now split.
  - unfold download.
    destruct (parse_format format) as [fmt|]; [|discriminate].
    destruct (findActiveCertificate w id admin) as [c0|]; [|discriminate].
    destruct (negb (Status_eqb (c_status c0) generated)); [discriminate|].
    cbv zeta.
    destruct (getFileInfo host (disk w) (certificateId c0) fmt) as [[path size] onDisk].
    destruct (negb onDisk); discriminate.
  - unfold updateCertificate, findOwnedCertificate.
    destruct (find _ (certificates w)) as [c0|] eqn:Hfind; [|discriminate].
    destruct (findOwnedCertificate_spec _ _ _ _ Hfind) as (Hin & _ & Hown).
    cbv zeta. destruct (negb (schema_valid (set_notes_tags c0 notes tags)));
      [discriminate|].
    cbn [fst snd response_certificate certificates record with_certificates].
    intros E. injection E as <-. split; [exact Hown|].
    now apply update_In with (c := c0).
  - unfold bulkDelete.
    destruct (negb _); [discriminate|].
    destruct (Nat.eqb _ 0); [discriminate|].
    rewrite file_loop_nothing. discriminate.
  - unfold archiveRoute. destruct (find _ (certificates w)); discriminate.
  - unfold deleteTemplate. destruct (findOwnedTemplate w id admin); discriminate.
Qed.

Lemma find_fresh (f : Certificate num -> bool) (cs : list (Certificate num))
    (c : Certificate num) :
  (forall c0, In c0 cs -> f c0 = false) -> f c = true -> find f (cs ++ [c]) = Some c.
Proof.
  intros Hnone Hc. induction cs as [|c0 cs IH]; cbn [app find].
  - now rewrite Hc.
  - rewrite (Hnone c0 (or_introl eq_refl)). apply IH. intros c1 Hc1. apply Hnone. now right.
Qed.

Lemma parse_format_ext (format : Format) : parse_format (format_ext format) = Some format.
Proof. now destruct format. Qed.

(** X16. A certificate that the create route answers with status generated
    can be downloaded by its admin in both formats: the download serves the
    file <outputDir>/<certificateId>.<format> under the name
    <certificateId>.<format> with the size the file has on disk, and counts
    the download on the stored record. *)
Theorem created_certificate_can_be_downloaded :
  forall (host : Host num) (clock : Clock) (w w' : World num) (req : CreateRequest num)
         (message : string) (c : Certificate num) (format : Format),
    identifiers_unique w ->
    create host clock w req = (w', Json 201 true message (CertificatePayload c)) ->
    c_status c = generated ->
    exists size contentType,
      getFileInfo host (disk w') (certificateId c) format
      = (output_path (certificateId c) format, size, true)
      /\ snd (download host w' (rq_admin req) (c_id c) (format_ext format))
         = SendFile (output_path (certificateId c) format)
             (certificateId c ++ "." ++ format_ext format) size contentType
      /\ In (incrementDownloadCount c)
            (certificates (fst (download host w' (rq_admin req) (c_id c)
                                  (format_ext format))))
      /\ md_downloadCount (c_metadata (incrementDownloadCount c)) = 1%N.
Proof.
  intros host clock w w' req message c format (Hids & Hcids & Hbound) Hrun Hstatus.
  destruct (create_cases host clock w req)
    as [(_ & status & message' & data & E & _)
       |[(_ & _ & _ & _ & status & message' & E & _)
        |(template & inserted & final & _ & Hid & _ & Hown & Hactive & _ & _ & Hcount
          & _ & _ & Hfinal & Hcs & _ & Hdisk & _ & E)]];
    rewrite Hrun in *; cbn [fst snd] in *; try discriminate E.
  injection E as _ <-.
  destruct (snd (generateCertificate host (disk w) inserted template
                   (rq_placeholderValues req) (rq_containerDimensions req)))
    as [[pdfFile pngFile]|m] eqn:Hgen;
    [|rewrite Hfinal in Hstatus; discriminate Hstatus].
  destruct (files_of_generation _ _ _ _ _ _ _ _ Hgen)
    as (Hp1 & Hp2 & Hf1 & Hf2 & Hi1 & Hi2).
  rewrite <- Hdisk in Hi1, Hi2.
  assert (Ecid : certificateId c = certificateId inserted) by now rewrite Hfinal.
  assert (Eid : c_id c = next_oid w) by now rewrite Hfinal.
  assert (Hstored : certificates w' = certificates w ++ [c]).
  { rewrite Hcs. unfold update. rewrite map_app. cbn [map].
    fold (update c (certificates w)). rewrite update_fresh.
    - replace (N.eqb (c_id inserted) (c_id c)) with true; [reflexivity|].
      symmetry. apply N.eqb_eq. congruence.
    - intros c0 Hc0 E. specialize (Hbound c0 Hc0). rewrite E, Eid in Hbound. lia. }
  assert (Hfind : findActiveCertificate w' (c_id c) (rq_admin req) = Some c).
  { unfold findActiveCertificate. rewrite Hstored. apply find_fresh.
    - intros c0 Hc0. specialize (Hbound c0 Hc0).
      destruct (N.eqb_spec (c_id c0) (c_id c)) as [E|_]; [|reflexivity].
      rewrite E, Eid in Hbound. lia.
    - rewrite N.eqb_refl. rewrite Hfinal. cbn [c_createdBy c_isActive set_status].
      rewrite Hown, Hactive, N.eqb_refl. reflexivity. }
  exists (match format with fmt_pdf => g_size pdfFile | fmt_png => g_size pngFile end).
  exists (match format with fmt_pdf => "application/pdf" | fmt_png => "image/png" end).
  assert (Hinfo : getFileInfo host (disk w') (certificateId c) format
                  = (output_path (certificateId c) format,
                     match format with
                     | fmt_pdf => g_size pdfFile
                     | fmt_png => g_size pngFile
                     end, true)).
  { rewrite Ecid. destruct format; [rewrite Hi1, Hp1|rewrite Hi2, Hp2]; reflexivity. }
  split; [exact Hinfo|].
  unfold download. rewrite parse_format_ext, Hfind, Hstatus. cbn [Status_eqb negb].
  assert (Hfile : file_of (c_generatedFiles c) format
                  = Some (file_info (c_id inserted) format
                            match format with fmt_pdf => pdfFile | fmt_png => pngFile end)).
  { rewrite Hfinal. now destruct format. }
  rewrite Hfile, Hinfo. cbn [negb fst snd fi_filename file_info].
  split.
  { f_equal. rewrite Ecid. destruct format; [exact Hf1|exact Hf2]. }
  split.
  { cbn [certificates record with_certificates].
    apply update_In with (c := c); [|reflexivity].
    rewrite Hstored. apply in_or_app. right. now left. }
  rewrite Hfinal. cbn [md_downloadCount c_metadata incrementDownloadCount set_status].
  rewrite Hcount. reflexivity.
Qed.

(** X17. The download route serves a file only for a stored, active,
    generated certificate of the requesting admin whose file is on disk;
    it then serves that very file with its size on disk and counts the
    download on that record.  In every other case it answers with an error
    and changes nothing. *)
Theorem download_serves_only_own_generated_files :
  forall (host : Host num) (w : World num) (admin id : N) (format : string),
    let run := download host w admin id format in
    (http_status (snd run) <> 200%N -> fst run = w)
    /\ (forall path filename size contentType,
          snd run = SendFile path filename size contentType ->
          exists c fmt content,
            parse_format format = Some fmt
            /\ In c (certificates w)
            /\ c_id c = id /\ c_createdBy c = admin
            /\ c_isActive c = true /\ c_status c = generated
            /\ path = output_path (certificateId c) fmt
            /\ readFile path (disk w) = Some content
            /\ size = byteSize host content
            /\ disk (fst run) = disk w
            /\ certificates (fst run)
               = update (incrementDownloadCount c) (certificates w)).
Proof.
  intros host w admin id format. cbv zeta. unfold download.
  destruct (parse_format format) as [fmt|]; [|split; [reflexivity|discriminate]].
  destruct (findActiveCertificate w id admin) as [c|] eqn:Hfind;
    [|split; [reflexivity|discriminate]].
  destruct (findActiveCertificate_spec _ _ _ _ Hfind) as (Hin & Hid & Hown & Hactive).
  destruct (c_status c) eqn:Hstatus; cbn [Status_eqb negb];
    try (split; [reflexivity|discriminate]).
  cbv zeta.
  unfold getFileInfo, stat.
  destruct (readFile (output_path (certificateId c) fmt) (disk w)) as [content|] eqn:Hread;
    cbn [negb]; [|split; [reflexivity|discriminate]].
  cbn [fst snd http_status]. split; [intros Hne; now destruct Hne|].
  intros path filename size contentType E. injection E as <- _ <- _.
  exists c, fmt, content. repeat split; assumption.
Qed.

End Answers.

Lemma handle_answers_with_own_certificate_witness :
  exists c,
    response_certificate
      (snd (handle (num := float) sample_host world_of_two_admins (GetCertificate 2 102)))
    = Some c
    /\ c_createdBy c = 2%N.
Proof.
  eexists. split; [reflexivity|].
  apply (handle_answers_with_own_certificate sample_host world_of_two_admins
           (GetCertificate 2 102)).
  reflexivity.
Defined.

Lemma created_certificate_can_be_downloaded_witness :
  let run := create (num := float) sample_host year_2024 world_of_two_admins
               (sample_request 7 (Some scenario_values)) in
  exists c size contentType,
    snd run = Json 201 true "Certificate created successfully" (CertificatePayload c)
    /\ c_status c = generated
    /\ snd (download sample_host (fst run) 1 (c_id c) "pdf")
       = SendFile (output_path (certificateId c) fmt_pdf)
           (certificateId c ++ ".pdf") size contentType.
Proof.
  intros run.
  destruct run as [w' response] eqn:Hrun.
  assert (Hresponse : exists c, response = Json 201 true "Certificate created successfully"
                                             (CertificatePayload c)
                                /\ c_status c = generated).
  { apply (f_equal snd) in Hrun. cbn [snd] in Hrun. rewrite <- Hrun.
    eexists. split; vm_compute; reflexivity. }
  destruct Hresponse as (c & -> & Hstatus).
  destruct (created_certificate_can_be_downloaded sample_host year_2024 world_of_two_admins
              w' (sample_request 7 (Some scenario_values)) _ c fmt_pdf
              two_admins_unique Hrun Hstatus)
    as (size & contentType & _ & Hsent & _).
  exists c, size, contentType. repeat split; [exact Hstatus|exact Hsent].
Defined.

Section SoftDelete.

Context {num : Type} `{JSNumber num}.

Lemma find_nowhere {A : Type} (f : A -> bool) (l : list A) :
  (forall x, In x l -> f x = false) -> find f l = None.
Proof.
  induction l as [|a l IH]; intros Hnone; [reflexivity|].
  cbn [find]. rewrite (Hnone a (or_introl eq_refl)). apply IH.
  intros x Hx. apply Hnone. now right.
Qed.

(** Looking up by [_id] after a save of the record with that [_id]. *)
Lemma find_update (f : Certificate num -> bool) (c : Certificate num)
    (cs : list (Certificate num)) :
  (exists c0, In c0 cs /\ c_id c0 = c_id c) ->
  f c = true ->
  (forall x, f x = true -> c_id x = c_id c) ->
  find f (update c cs) = Some c.
Proof.
  intros (c0 & Hc0 & E0) Hc Hid.
  induction cs as [|c1 cs IH]; [destruct Hc0|].
  cbn [update map find]. fold (update c cs).
  destruct (N.eqb_spec (c_id c1) (c_id c)) as [E|Hne].
  - now rewrite Hc.
  - destruct (f c1) eqn:Hf; [now destruct Hne; apply Hid|].
    apply IH. destruct Hc0 as [->|Hc0]; [now destruct Hne|exact Hc0].
Qed.

(** X18. Archiving with DELETE /api/certificate/:id keeps the record and its
    files: the admin still reads the record, now archived and inactive; no
    download of it is answered with a file any more; and the bulk delete of
    the admin no longer removes it. *)
Theorem archived_certificate_is_kept_but_not_served :
  forall (host : Host num) (w : World num) (admin id : N) (message : string),
    snd (archiveRoute w admin id) = Json 200 true message NoPayload ->
    let w' := fst (archiveRoute w admin id) in
    exists c,
      In c (certificates w) /\ c_id c = id /\ c_createdBy c = admin
      /\ getCertificate w' admin id
         = (w', Json 200 true "" (CertificatePayload (archive c)))
      /\ (forall format,
            fst (download host w' admin id format) = w'
            /\ http_status (snd (download host w' admin id format)) <> 200%N)
      /\ In (archive c) (certificates (fst (bulkDelete w' admin (Some confirmation))))
      /\ disk w' = disk w.
Proof.
  intros host w admin id message. unfold archiveRoute.
  destruct (find _ (certificates w)) as [c|] eqn:Hfind; [|discriminate].
  destruct (findOwnedCertificate_spec _ _ _ _ Hfind) as (Hin & Hid & Hown).
  intros _. cbn [fst]. exists c. do 3 (split; [assumption|]).
  split.
  { unfold getCertificate, findOwnedCertificate.
    cbn [certificates with_certificates].
    rewrite (find_update _ (archive c)); [reflexivity| | |].
    - exists c. now split.
    - cbn [c_id c_createdBy archive]. now rewrite Hid, Hown, !N.eqb_refl.
    - intros x Hx. apply andb_prop in Hx. destruct Hx as (Hx & _).
      apply N.eqb_eq in Hx. cbn [c_id archive]. congruence. }
  split.
  { intros format. unfold download.
    destruct (parse_format format) as [fmt|]; [|split; [reflexivity|discriminate]].
    unfold findActiveCertificate. cbn [certificates with_certificates].
    rewrite find_nowhere; [split; [reflexivity|discriminate]|].
    intros x Hx. apply update_elements in Hx.
    destruct Hx as [(-> & _)|(_ & Hne)].
    - cbn [c_isActive archive]. apply andb_false_r.
    - cbn [c_id archive] in Hne. rewrite Hid in Hne.
      apply N.eqb_neq in Hne. now rewrite Hne. }
  split; [|reflexivity].
  rewrite bulkDelete_removes_records. cbn [certificates with_certificates].
  apply filter_In. split.
  - now apply update_In with (c := c).
  - unfold bulk_deleted. cbn [c_isActive archive]. now rewrite andb_false_r.
Qed.

(** X19. The bulk delete removes exactly the active certificates of the
    requesting admin and reports their number; archived certificates and
    the certificates of other admins stay, and so do the templates and the
    disk.  Without the confirmation text it changes nothing. *)
Theorem bulkDelete_removes_exactly_active_own_records :
  forall (w : World num) (admin : N) (confirmText : option string),
    let run := bulkDelete w admin confirmText in
    (confirmText <> Some confirmation ->
     fst run = w /\ http_status (snd run) = 400%N)
    /\ (confirmText = Some confirmation ->
        (forall c, In c (certificates (fst run))
                   <-> In c (certificates w)
                       /\ (c_createdBy c <> admin \/ c_isActive c = false))
        /\ templates (fst run) = templates w
        /\ disk (fst run) = disk w
        /\ exists message filesDeleted,
             snd run
             = Json 200 true message
                 (DeletedPayload
                    (N.of_nat (List.length
                       (filter (fun c => N.eqb (c_createdBy c) admin && c_isActive c)
                               (certificates w))))
                    filesDeleted)).
Proof.
  intros w admin confirmText. cbv zeta. split.
  - intros Hne. destruct (bulkDelete_needs_confirmation w admin confirmText Hne) as (m & ->).
    now split.
  - intros ->. split; [|split; [|split]].
    + intros c. rewrite bulkDelete_removes_records, filter_In.
      unfold bulk_deleted, isArchived. rewrite andb_true_r.
      split; intros (Hin & Hc); (split; [exact Hin|]).
      * destruct (N.eqb_spec (c_createdBy c) admin) as [E|Hne]; [|now left].
        right. now destruct (c_isActive c).
      * destruct Hc as [Hne| ->]; [|now rewrite andb_false_r].
        apply N.eqb_neq in Hne. now rewrite Hne.
    + unfold bulkDelete. rewrite String.eqb_refl. cbn [negb].
      destruct (Nat.eqb _ 0); [reflexivity|]. now rewrite file_loop_nothing.
    + apply bulkDelete_keeps_disk.
    + unfold bulkDelete. rewrite String.eqb_refl. cbn [negb].
      assert (Hsame : filter (bulk_found admin) (certificates w)
                      = filter (fun c => N.eqb (c_createdBy c) admin && c_isActive c)
                               (certificates w)).
      { apply filter_ext. intros c. unfold bulk_found, isArchived. apply andb_true_r. }
      rewrite Hsame.
      destruct (Nat.eqb (List.length _) 0) eqn:Hlen.
      * apply Nat.eqb_eq in Hlen. rewrite Hlen. do 2 eexists. reflexivity.
      * rewrite file_loop_nothing. cbn [snd certificates].
        assert (Hsame' : filter (bulk_deleted admin) (certificates w)
                         = filter (fun c => N.eqb (c_createdBy c) admin && c_isActive c)
                                  (certificates w)).
        { apply filter_ext. intros c. unfold bulk_deleted, isArchived. apply andb_true_r. }
        rewrite Hsame'. do 2 eexists. reflexivity.
Qed.

End SoftDelete.

Lemma archived_certificate_is_kept_but_not_served_witness :
  let w' := fst (archiveRoute (num := float) world_of_two_admins 1 100) in
  exists c,
    c_id c = 100%N
    /\ getCertificate w' 1 100 = (w', Json 200 true "" (CertificatePayload (archive c)))
    /\ http_status (snd (download sample_host w' 1 100 "pdf")) <> 200%N.
Proof.
  destruct (archived_certificate_is_kept_but_not_served sample_host world_of_two_admins
              1 100 "Certificate archived successfully" eq_refl)
    as (c & _ & Hid & _ & Hget & Hdown & _).
  intros w'. exists c. split; [exact Hid|]. split; [exact Hget|]. apply Hdown.
Defined.

Section Templates.

Context {num : Type} `{JSNumber num}.

(** X20. Once DELETE /api/template/:id has succeeded, no certificate can be
    created from that template any more: the create route changes nothing
    and answers 404 as soon as the name passes validation.  The certificates
    made from the template before, and their files, stay as they are. *)
Theorem deleted_template_cannot_be_used :
  forall (host : Host num) (clock : Clock) (w : World num) (admin id : N)
         (message : string) (req : CreateRequest num),
    snd (deleteTemplate w admin id) = Json 200 true message NoPayload ->
    rq_templateId req = id ->
    let w' := fst (deleteTemplate w admin id) in
    certificates w' = certificates w
    /\ disk w' = disk w
    /\ fst (create host clock w' req) = w'
    /\ (validateCertificateCreation (rq_participantName req) <> None ->
        snd (create host clock w' req)
        = Json 404 false "Template not found or access denied" NoPayload).
Proof.
  intros host clock w admin id message req. unfold deleteTemplate.
  destruct (findOwnedTemplate w id admin) as [template|] eqn:Hfind; [|discriminate].
  intros _ Hid. cbn [fst]. split; [reflexivity|]. split; [reflexivity|].
  assert (Hid' : t_id template = id).
  { unfold findOwnedTemplate in Hfind. apply find_some in Hfind.
    destruct Hfind as (_ & E). apply andb_prop in E. destruct E as (E & _).
    now apply N.eqb_eq in E. }
  assert (Hnone : forall admin',
             findTemplate (with_templates
                             (saveTemplate (set_isActive template false) (templates w)) w)
               id admin' = None).
  { intros admin'. unfold findTemplate. apply find_nowhere.
    cbn [templates with_templates]. intros t Ht. unfold saveTemplate in Ht.
    apply in_map_iff in Ht. destruct Ht as (t0 & <- & _).
    cbn [t_id set_isActive]. rewrite Hid'.
    destruct (N.eqb_spec (t_id t0) id) as [_|Hne].
    - cbn [t_isActive set_isActive]. apply andb_false_r.
    - apply N.eqb_neq in Hne. now rewrite Hne. }
  unfold create. rewrite Hid, Hnone.
  destruct (validateCertificateCreation (rq_participantName req)) as [name|].
  - split; [reflexivity|]. intros _. reflexivity.
  - split; [reflexivity|]. intros Hne. now destruct Hne.
Qed.

(** X21. PUT /api/certificate/:id changes nothing but the notes and the tags
    of one certificate of the requesting admin: the notes are stored
    trimmed, each tag trimmed; identifiers, name, status, file metadata,
    counters and owner stay.  Notes over 1000 characters or a tag over 30
    are refused and nothing is stored. *)
Theorem updateCertificate_changes_only_notes_and_tags :
  forall (w : World num) (admin id : N) (notes : option string)
         (tags : option (list string)),
    let run := updateCertificate w admin id notes tags in
    templates (fst run) = templates w
    /\ disk (fst run) = disk w
    /\ (http_status (snd run) <> 200%N -> fst run = w)
    /\ (forall c', response_certificate (snd run) = Some c' ->
          exists c,
            In c (certificates w) /\ c_id c = id /\ c_createdBy c = admin
            /\ certificates (fst run) = update c' (certificates w)
            /\ c_id c' = c_id c
            /\ certificateId c' = certificateId c
            /\ c_participantName c' = c_participantName c
            /\ c_template c' = c_template c
            /\ c_templateSnapshot c' = c_templateSnapshot c
            /\ c_generatedFiles c' = c_generatedFiles c
            /\ c_status c' = c_status c
            /\ c_metadata c' = c_metadata c
            /\ c_createdBy c' = c_createdBy c
            /\ c_isActive c' = c_isActive c
            /\ c_notes c' = match notes with Some n => trim n | None => c_notes c end
            /\ c_tags c' = match tags with Some ts => map trim ts | None => c_tags c end
            /\ (String.length (c_notes c') <= 1000)%nat
            /\ (forall tag, In tag (c_tags c') -> (String.length tag <= 30)%nat)).
Proof.
  intros w admin id notes tags. cbv zeta.
  unfold updateCertificate, findOwnedCertificate.
  destruct (find _ (certificates w)) as [c|] eqn:Hfind.
  2: { repeat split; discriminate. }
  destruct (findOwnedCertificate_spec _ _ _ _ Hfind) as (Hin & Hid & Hown).
  destruct (schema_valid (set_notes_tags c notes tags)) eqn:Hvalid; cbn [negb].
  2: { repeat split; discriminate. }
  cbn [fst snd http_status response_certificate].
  split; [reflexivity|]. split; [reflexivity|]. split; [intros Hne; now destruct Hne|].
  intros c' E. injection E as <-. exists c.
  do 3 (split; [assumption|]). do 13 (split; [reflexivity|]).
  unfold schema_valid in Hvalid.
  apply andb_prop in Hvalid. destruct Hvalid as (Hvalid & Htags).
  apply andb_prop in Hvalid. destruct Hvalid as (_ & Hnotes).
  split.
  - now apply Nat.leb_le.
  - intros tag Htag. rewrite forallb_forall in Htags. now apply Nat.leb_le, Htags.
Qed.

Lemma find_incrementUsage (id id' : N) (ts : list (Template num)) :
  option_map (@t_usageCount num) (find (fun t => N.eqb (t_id t) id') (incrementUsage id ts))
  = option_map (fun n => if N.eqb id' id then (n + 1)%N else n)
      (option_map (@t_usageCount num) (find (fun t => N.eqb (t_id t) id') ts)).
Proof.
  induction ts as [|t ts IH]; [reflexivity|].
  cbn [incrementUsage map find]. fold (incrementUsage id ts).
  destruct (N.eqb_spec (t_id t) id) as [E|Hne]; cbn [t_id].
  - destruct (N.eqb_spec (t_id t) id') as [E'|Hne']; [|exact IH].
    cbn [option_map t_usageCount]. replace (N.eqb id' id) with true; [reflexivity|].
    symmetry. apply N.eqb_eq. congruence.
  - destruct (N.eqb_spec (t_id t) id') as [E'|Hne']; [|exact IH].
    cbn [option_map]. replace (N.eqb id' id) with false; [reflexivity|].
    symmetry. apply N.eqb_neq. congruence.
Qed.

(** X22. Every run of the create route answered 201 counts one use of its
    template, whether the files were generated or the generation failed, and
    counts nothing for any other template; a run answered otherwise leaves
    the templates as they were. *)
Theorem create_counts_usage_once :
  forall (host : Host num) (clock : Clock) (w : World num) (req : CreateRequest num),
    let run := create host clock w req in
    (http_status (snd run) = 201%N ->
     (exists n, usageCount w (rq_templateId req) = Some n
                /\ usageCount (fst run) (rq_templateId req) = Some (n + 1)%N)
     /\ (forall id, id <> rq_templateId req ->
           usageCount (fst run) id = usageCount w id))
    /\ (http_status (snd run) <> 201%N -> templates (fst run) = templates w).
Proof.
  intros host clock w req. cbv zeta.
  destruct (create_cases host clock w req)
    as [(-> & status & message & data & -> & Hstatus & _)
       |[(_ & Hts & _ & _ & status & message & -> & Hstatus)
        |(template & inserted & final & Hfind & _ & _ & _ & _ & _ & _ & _ & _ & _
          & _ & _ & Hts & _ & _ & ->)]];
    cbn [snd http_status].
  - split; [|reflexivity]. intros E. destruct Hstatus; subst; discriminate.
  - split; [|intros _; exact Hts]. intros E. destruct Hstatus; subst; discriminate.
  - split; [|intros Hne; now destruct Hne]. intros _.
    unfold findTemplate in Hfind. pose proof Hfind as Hsome. apply find_some in Hsome.
    destruct Hsome as (Hin & E).
    apply andb_prop in E. destruct E as (E & _). apply andb_prop in E. destruct E as (E & _).
    apply N.eqb_eq in E.
    unfold usageCount. rewrite Hts, E. split.
    + destruct (find (fun t => N.eqb (t_id t) (rq_templateId req)) (templates w))
        as [t|] eqn:Hfirst.
      * exists (t_usageCount t). split; [reflexivity|].
        rewrite find_incrementUsage, Hfirst, N.eqb_refl. reflexivity.
      * apply find_none with (x := template) in Hfirst; [|exact Hin].
        apply N.eqb_neq in Hfirst. now destruct Hfirst.
    + intros id Hne. rewrite find_incrementUsage.
      apply N.eqb_neq in Hne. rewrite Hne.
      destruct (find (fun t => N.eqb (t_id t) id) (templates w)); reflexivity.
Qed.

End Templates.

Lemma deleted_template_cannot_be_used_witness :
  let w' := fst (deleteTemplate (num := float) world_of_two_admins 1 7) in
  snd (deleteTemplate (num := float) world_of_two_admins 1 7)
  = Json 200 true "Template deleted successfully" NoPayload
  /\ snd (create sample_host year_2024 w' (sample_request 7 (Some scenario_values)))
     = Json 404 false "Template not found or access denied" NoPayload.
Proof.
  split; [reflexivity|].
  apply (deleted_template_cannot_be_used sample_host year_2024 world_of_two_admins 1 7
           "Template deleted successfully" (sample_request 7 (Some scenario_values))
           eq_refl eq_refl).
  discriminate.
Defined.

Section Gate.

Context {num : Type} `{JSNumber num}.

Lemma events_grow (w : World num) (e : Event num) (rest : list (Event num))
    (w' : World num) :
  events w' = events w ++ e :: rest -> w' <> w.
Proof.
  intros E ->. apply (f_equal (@List.length _)) in E.
  rewrite length_app in E. cbn [List.length] in E. lia.
Qed.

(** X23. The validator of the template schema and the check of the
    middleware accept the same placeholder lists; and the create route lets
    a template through its placeholder checks exactly when the list is not
    empty and they accept it.  An empty list passes both and is still
    refused by the create route. *)
Theorem create_accepts_what_the_validators_accept :
  forall (host : Host num) (clock : Clock) (w : World num) (req : CreateRequest num)
         (template : Template num),
    findTemplate w (rq_templateId req) (rq_admin req) = Some template ->
    validateCertificateCreation (rq_participantName req) <> None ->
    is_ok (placeholdersCustom (t_placeholders template))
    = placeholdersValidator (t_placeholders template)
    /\ (fst (create host clock w req) = w
        /\ http_status (snd (create host clock w req)) = 400%N
        <-> t_placeholders template = []
            \/ placeholdersValidator (t_placeholders template) = false).
Proof.
  intros host clock w req template Hfind Hname. split.
  { unfold placeholdersCustom, placeholdersValidator.
    destruct (Nat.eqb _ 0); [reflexivity|].
    destruct (existsb (has_type TName) _), (existsb (has_type TId) _); reflexivity. }
  assert (Hempty : Nat.eqb (List.length (t_placeholders template)) 0 = true
                   <-> t_placeholders template = []).
  { destruct (t_placeholders template); cbn [List.length Nat.eqb]; split; intros E;
      try reflexivity; discriminate E. }
  destruct (create host clock w req) as [w' response] eqn:Hrun. cbn [fst snd].
  pose proof Hrun as Hcreate. unfold create in Hcreate.
  destruct (validateCertificateCreation (rq_participantName req)) as [name|];
    [|now destruct Hname].
  rewrite Hfind in Hcreate. unfold placeholdersValidator.
  destruct (Nat.eqb (List.length (t_placeholders template)) 0) eqn:Hlen.
  { injection Hcreate as <- <-. split; [|now split].
    intros _. left. now apply Hempty. }
  destruct (existsb (has_type TName) (t_placeholders template)),
           (existsb (has_type TId) (t_placeholders template));
    cbn [negb orb andb] in Hcreate |- *;
    try (injection Hcreate as <- <-; split; [intros _; now right|now split]).
  clear Hrun.
  split; [|intros [E|E]; [apply Hempty in E; congruence|discriminate E]].
  intros (Hw & _). exfalso.
  assert (Hev : exists e rest, events w' = events w ++ e :: rest).
  { cbv zeta in Hcreate.
    match type of Hcreate with
    | context [insert ?c ?cs] => destruct (insert c cs) as [[|]|stored]
    end.
    - injection Hcreate as <- _. do 2 eexists. reflexivity.
    - injection Hcreate as <- _. do 2 eexists. reflexivity.
    - cbn [disk record with_certificates with_templates fresh_oid] in Hcreate.
      match type of Hcreate with
      | context [generateCertificate ?h ?d ?c ?t ?pv ?cd] =>
          destruct (generateCertificate h d c t pv cd) as [disk' outcome]
      end.
      injection Hcreate as <- _.
      cbn [events record with_certificates with_templates with_disk fresh_oid].
      rewrite <- !app_assoc. do 2 eexists. reflexivity. }
  destruct Hev as (e & rest & Hev). now apply (events_grow _ _ _ _ Hev).
Qed.

End Gate.

Lemma create_accepts_what_the_validators_accept_witness :
  findTemplate (num := float) empty_world 8 1 = Some nameless_id_template
  /\ placeholdersValidator (t_placeholders (nameless_id_template (num := float))) = false
  /\ http_status (snd (create sample_host year_2024 empty_world
                         (sample_request 8 (Some scenario_values)))) = 400%N.
Proof.
  split; [reflexivity|]. split; [reflexivity|].
  destruct (create_accepts_what_the_validators_accept sample_host year_2024 empty_world
              (sample_request 8 (Some scenario_values)) nameless_id_template eq_refl)
    as (_ & Hgate).
  - discriminate.
  - apply Hgate. right. reflexivity.
Defined.

Section CountingUp.

Context {num : Type} `{JSNumber num}.

(** At one width every sequence number of the year is below 10^width. *)
Lemma highest_sequence_below (year : Z) (width : nat)
    (certificates : list (Certificate num)) :
  (0 <= year)%Z ->
  sequence_width ("CERT-" ++ toString (Some year) ++ "-") width certificates ->
  (highest_sequence ("CERT-" ++ toString (Some year) ++ "-") certificates
   < 10 ^ Z.of_nat width)%Z.
Proof.
  intros Hy. set (prefix := ("CERT-" ++ toString (Some year) ++ "-")%string).
  induction certificates as [|c rest IH]; intros Hwidth.
  - cbn [highest_sequence fold_right]. apply Z.pow_pos_nonneg; lia.
  - assert (Hrest : sequence_width prefix width rest)
      by (intros c' Hin; apply Hwidth; now right).
    specialize (IH Hrest).
    cbn [highest_sequence fold_right]. fold (highest_sequence prefix rest).
    destruct (sequence_number prefix (certificateId c)) as [n|] eqn:Hn; [|exact IH].
    assert (Hp : String.prefix prefix (certificateId c) = true).
    { unfold sequence_number in Hn.
      destruct (String.prefix prefix (certificateId c)); [reflexivity|discriminate Hn]. }
    destruct (Hwidth c (or_introl eq_refl) Hp) as (s & Hid & Hs & Hlen).
    rewrite Hid in Hn.
    destruct (sequence_of_identifier year Hy s Hs) as [Hseq _]. fold prefix in Hseq.
    rewrite Hseq in Hn. injection Hn as <-.
    unfold is_number in Hs. apply andb_true_iff in Hs. destruct Hs as [_ Hdigits].
    pose proof (decimal_value_bounds s Hdigits) as Hbound. rewrite Hlen in Hbound. lia.
Qed.

(** X10. In a year [getFullYear] can return, while the sequence numbers of
    the year's identifiers all have the same number of digits, at most 15,
    generateNextId returns CERT-<year>-
    followed by one more than the highest of them, padded to three digits;
    that number is below 2^53, where the arithmetic of the code is exact;
    and read back the way generateNextId reads the latest identifier, the new
    identifier gives that number. *)
Theorem generateNextId_counts_up_at_one_width :
  forall (certificates : list (Certificate num)) (year : Z) (width : nat),
    (0 <= year <= 275760)%Z ->
    (width <= 15)%nat ->
    sequence_width ("CERT-" ++ toString (Some year) ++ "-") width certificates ->
    let prefix := ("CERT-" ++ toString (Some year) ++ "-")%string in
    let next := (highest_sequence prefix certificates + 1)%Z in
    generateNextId certificates year
    = (prefix ++ padStart 3 "0" (toString (Some next)))%string
    /\ (0 < next < 2 ^ 53)%Z
    /\ parseInt_opt (nth_error (split "-" (generateNextId certificates year)) 2)
       = Some next.
Proof.
  intros certificates year width [Hy _] Hsafe Hwidth prefix next.
  rewrite (generateNextId_one_width year Hy width certificates Hwidth).
  unfold specified_next_id. fold prefix. fold next. split; [reflexivity|].
  pose proof (highest_sequence_nonnegative prefix certificates) as Hh.
  pose proof (highest_sequence_below year width certificates Hy Hwidth) as Hbelow.
  fold prefix in Hbelow.
  assert (Hpow : (10 ^ Z.of_nat width <= 10 ^ 15)%Z)
    by (apply Z.pow_le_mono_r; lia).
  assert (Hnext : (0 <= next)%Z) by (unfold next; lia).
  split; [unfold next; split; [lia|]|].
  { apply Z.le_lt_trans with (10 ^ 15)%Z; [lia|reflexivity]. }
  destruct (padded_number _ Hnext) as (_ & _ & Hnum & Hvalue).
  destruct (sequence_of_identifier year Hy _ Hnum) as [_ Hread].
  fold prefix in Hread. now rewrite Hread, Hvalue.
Qed.

(** X11. In a year [getFullYear] can return, while the sequence numbers of
    the year's identifiers all have the same number of digits, at most 15,
    the identifier generateNextId returns
    is not stored yet: saving a certificate under it into the collection it
    was read from is not refused by the unique index.  (The create route
    reads the identifier and saves in two steps; this is the run in which
    nothing is stored in between.) *)
Theorem fresh_identifier_passes_the_unique_index :
  forall (certificates : list (Certificate num)) (year : Z) (width : nat)
         (certificate : Certificate num),
    (0 <= year <= 275760)%Z ->
    (width <= 15)%nat ->
    sequence_width ("CERT-" ++ toString (Some year) ++ "-") width certificates ->
    certificateId certificate = generateNextId certificates year ->
    (forall c, In c certificates -> certificateId c <> certificateId certificate)
    /\ insert certificate certificates <> inl DuplicateKey
    /\ (schema_valid certificate = true ->
        insert certificate certificates = inr (certificates ++ [certificate])).
Proof.
  intros certificates year width certificate [Hy _] _ Hwidth Hid.
  assert (Hfresh : forall c, In c certificates ->
                             certificateId c <> certificateId certificate).
  { rewrite Hid. apply (next_identifier_is_fresh certificates year width Hy Hwidth). }
  assert (Hdup : existsb (fun c' => String.eqb (certificateId c') (certificateId certificate))
                   certificates = false).
  { destruct (existsb _ certificates) eqn:E; [|reflexivity].
    apply existsb_exists in E. destruct E as (c & Hc & E).
    apply String.eqb_eq in E. now destruct (Hfresh c Hc). }
  split; [exact Hfresh|]. unfold insert. rewrite Hdup.
  split; [now destruct (negb (schema_valid certificate))|].
  intros ->. reflexivity.
Qed.

End CountingUp.

Lemma two_admins_one_width :
  sequence_width ("CERT-" ++ toString (Some 2024%Z) ++ "-") 3
    (certificates (world_of_two_admins (num := float))).
Proof.
  intros c [<-|[<-|[<-|[]]]] _.
  - exists "001". repeat split.
  - exists "002". repeat split.
  - exists "003". repeat split.
Defined.

Lemma generateNextId_counts_up_at_one_width_witness :
  (0 <= 2024 <= 275760)%Z
  /\ generateNextId (certificates (world_of_two_admins (num := float))) 2024
     = (("CERT-" ++ toString (Some 2024%Z) ++ "-")
        ++ padStart 3 "0"
             (toString
                (Some (highest_sequence ("CERT-" ++ toString (Some 2024%Z) ++ "-")
                         (certificates (world_of_two_admins (num := float))) + 1)%Z)))%string
  /\ generateNextId (certificates (world_of_two_admins (num := float))) 2024
     = "CERT-2024-004".
Proof.
  split; [lia|]. split; [|reflexivity].
  apply (generateNextId_counts_up_at_one_width
           (certificates (world_of_two_admins (num := float))) 2024 3
           ltac:(lia) ltac:(lia) two_admins_one_width).
Defined.

Lemma fresh_identifier_passes_the_unique_index_witness :
  let certificate :=
    sample_certificate (num := float) 103 "CERT-2024-004" pending no_files 1 in
  certificateId certificate
  = generateNextId (certificates (world_of_two_admins (num := float))) 2024
  /\ insert certificate (certificates world_of_two_admins)
     = inr (certificates world_of_two_admins ++ [certificate]).
Proof.
  intros certificate. split; [reflexivity|].
  apply (fresh_identifier_passes_the_unique_index
           (certificates (world_of_two_admins (num := float))) 2024 3 certificate
           ltac:(lia) ltac:(lia) two_admins_one_width eq_refl).
  reflexivity.
Defined.

(* ================================================================== *)
(** * Progress notices and the bulk download *)
(* ================================================================== *)

Import WebSocketService BulkDownload.

Section Notices.

Context {num : Type}.

Lemma getConnectedClientsCount_length (s : Service num) (admin : N) :
  getConnectedClientsCount s admin
  = N.of_nat (List.length (filter (fun entry => is_connected admin (snd entry))
                             (clients s))).
Proof.
  unfold getConnectedClientsCount.
  assert (Hfold : forall cs count,
             fold_left (fun count (entry : string * Client) =>
                          if is_connected admin (snd entry) then (count + 1)%N else count)
                       cs count
             = (count + N.of_nat (List.length
                                    (filter (fun entry => is_connected admin (snd entry))
                                       cs)))%N).
  { induction cs as [|entry cs IH]; intros count; cbn [fold_left filter].
    - cbn. lia.
    - rewrite IH. destruct (is_connected admin (snd entry)); cbn [List.length]; lia. }
  rewrite Hfold. lia.
Qed.

Lemma keep_all_clients (cs : list (string * Client)) :
  filter (fun entry => negb (existsb (String.eqb (fst entry)) [])) cs = cs.
Proof.
  induction cs as [|e cs IH]; [reflexivity|].
  cbn [filter]. change (existsb (String.eqb (fst e)) []) with false.
  cbn [negb]. now rewrite IH.
Qed.

Lemma delete_then_drop (clientId : string) (dropped : list string)
    (cs : list (string * Client)) :
  filter (fun entry => negb (existsb (String.eqb (fst entry)) dropped))
    (delete clientId cs)
  = filter (fun entry => negb (existsb (String.eqb (fst entry)) (clientId :: dropped))) cs.
Proof.
  unfold delete. induction cs as [|e cs IH]; [reflexivity|].
  cbn [filter existsb].
  destruct (String.eqb (fst e) clientId); cbn [negb orb]; [exact IH|].
  cbn [filter]. destruct (existsb (String.eqb (fst e)) dropped); cbn [negb]; [exact IH|].
  now rewrite IH.
Qed.

Lemma send_to_step (wire : Wire num) (kind : string) (admin : N) (data : Notice num)
    (s : Service num) (clientId : string) (client : Client) :
  let frame := {| f_type := kind; f_data := data;
                  f_timestamp := toISOString wire (clock_reads s) |} in
  send_to wire kind admin data s (clientId, client)
  = if is_connected admin client then
      if send_returns wire clientId frame then
        {| clients := clients s; outbox := outbox s ++ [(clientId, frame)];
           clock_reads := clock_reads s + 1 |}
      else
        {| clients := delete clientId (clients s); outbox := outbox s;
           clock_reads := clock_reads s + 1 |}
    else s.
Proof. reflexivity. Qed.

(** What the loop of sendProgressUpdate and broadcastToAdmin does over a
    part of the map: the frames it sent and the clients it deleted. *)
Lemma send_loop (wire : Wire num) (kind : string) (admin : N) (data : Notice num)
    (entries : list (string * Client)) :
  NoDup (map fst entries) ->
  forall s : Service num,
  exists (frames : list (string * Frame num)) (dropped : list string),
    let s' := fold_left (send_to wire kind admin data) entries s in
    outbox s' = outbox s ++ frames
    /\ clients s'
       = filter (fun entry => negb (existsb (String.eqb (fst entry)) dropped)) (clients s)
    /\ (forall clientId, In clientId dropped -> In clientId (map fst entries))
    /\ (forall clientId, In clientId dropped ->
          forall client, In (clientId, client) entries -> is_connected admin client = true)
    /\ (forall clientId frame, In (clientId, frame) frames ->
          f_type frame = kind /\ f_data frame = data
          /\ send_returns wire clientId frame = true)
    /\ map fst frames
       = map fst (filter (fun entry => is_connected admin (snd entry)
                                       && negb (existsb (String.eqb (fst entry)) dropped))
                    entries).
Proof.
  induction entries as [|[clientId client] entries IH]; intros Hkeys s.
  - exists [], []. cbn [fold_left filter map existsb negb]. split; [now rewrite app_nil_r|].
    split; [now rewrite keep_all_clients|].
    repeat split; intros; contradiction.
  - cbn [map] in Hkeys. apply NoDup_cons_iff in Hkeys. destruct Hkeys as (Hnew & Hkeys).
    cbn [fold_left]. rewrite send_to_step. cbv zeta.
    destruct (is_connected admin client) eqn:Hconnected.
    2: { destruct (IH Hkeys s) as (frames & dropped & Hout & Hcs & Hkeysd & Hconn & Hframes & Hsent).
         exists frames, dropped. cbv zeta. split; [exact Hout|]. split; [exact Hcs|].
         split; [intros id Hid; right; now apply Hkeysd|].
         split.
         { intros id Hid c [E|Hin]; [|now apply (Hconn id Hid c)].
           injection E as <- <-. destruct Hnew. now apply Hkeysd. }
         split; [exact Hframes|].
         cbn [filter snd fst]. now rewrite Hconnected. }
    set (frame := {| f_type := kind; f_data := data;
                     f_timestamp := toISOString wire (clock_reads s) |}).
    destruct (send_returns wire clientId frame) eqn:Hsend.
    + match goal with
      | |- context [fold_left _ entries ?st] =>
          destruct (IH Hkeys st)
            as (frames & dropped & Hout & Hcs & Hkeysd & Hconn & Hframes & Hsent)
      end.
      cbv zeta in Hout, Hcs. cbn [outbox clients] in Hout, Hcs.
      exists ((clientId, frame) :: frames), dropped. cbv zeta.
      split; [now rewrite Hout, <- app_assoc|]. split; [exact Hcs|].
      split; [intros id Hid; right; now apply Hkeysd|].
      split.
      { intros id Hid c [E|Hin]; [|now apply (Hconn id Hid c)].
        injection E as <- <-. exact Hconnected. }
      split.
      { intros id f [E|Hin]; [|now apply Hframes].
        injection E as <- <-. now repeat split. }
      cbn [filter snd fst]. rewrite Hconnected. cbn [andb].
      assert (Hkept : existsb (String.eqb clientId) dropped = false).
      { destruct (existsb (String.eqb clientId) dropped) eqn:E; [|reflexivity].
        apply existsb_exists in E. destruct E as (id & Hid & E).
        apply String.eqb_eq in E. subst id. destruct Hnew. now apply Hkeysd. }
      rewrite Hkept. cbn [negb map fst]. now rewrite Hsent.
    + match goal with
      | |- context [fold_left _ entries ?st] =>
          destruct (IH Hkeys st)
            as (frames & dropped & Hout & Hcs & Hkeysd & Hconn & Hframes & Hsent)
      end.
      cbv zeta in Hout, Hcs. cbn [outbox clients] in Hout, Hcs.
      exists frames, (clientId :: dropped). cbv zeta.
      split; [exact Hout|]. split; [rewrite Hcs; apply delete_then_drop|].
      split; [intros id [<-|Hid]; [now left|right; now apply Hkeysd]|].
      split.
      { intros id [<-|Hid] c [E|Hin].
        - now injection E as <-.
        - destruct Hnew. apply in_map_iff. exists (clientId, c). now split.
        - injection E as <- <-. exact Hconnected.
        - now apply (Hconn id Hid c). }
      split; [exact Hframes|].
      cbn [filter snd fst existsb]. rewrite String.eqb_refl. cbn [orb negb].
      rewrite andb_false_r. rewrite Hsent.
      f_equal. apply filter_ext_in. intros [id c] Hin. cbn [fst snd].
      destruct (String.eqb_spec id clientId) as [->|_]; [|reflexivity].
      destruct Hnew. apply in_map_iff. exists (clientId, c). now split.
Qed.

End Notices.

Section NoticeTheorems.

Context {num : Type}.

Lemma connected_and_kept (admin : N) (dropped : list string)
    (cs : list (string * Client)) :
  filter (fun entry => is_connected admin (snd entry))
    (filter (fun entry => negb (existsb (String.eqb (fst entry)) dropped)) cs)
  = filter (fun entry => is_connected admin (snd entry)
                         && negb (existsb (String.eqb (fst entry)) dropped)) cs.
Proof.
  induction cs as [|e cs IH]; [reflexivity|]. cbn [filter].
  destruct (existsb (String.eqb (fst e)) dropped); cbn [negb].
  - now rewrite andb_false_r.
  - cbn [filter]. rewrite andb_true_r.
    destruct (is_connected admin (snd e)); now rewrite IH.
Qed.

Lemma kept_clients_distinct (keep : string * Client -> bool)
    (cs : list (string * Client)) :
  NoDup (map fst cs) -> NoDup (map fst (filter keep cs)).
Proof.
  induction cs as [|e cs IH]; intros Hkeys; [exact Hkeys|].
  cbn [map] in Hkeys. apply NoDup_cons_iff in Hkeys. destruct Hkeys as (Hnew & Hkeys).
  cbn [filter]. destruct (keep e); [|now apply IH].
  cbn [map]. apply NoDup_cons; [|now apply IH].
  intros Hin. apply Hnew. apply in_map_iff in Hin. destruct Hin as (e' & E & He').
  apply filter_In in He'. apply in_map_iff. exists e'. now split.
Qed.

(** X24. sendProgressUpdate sends the notice, as a frame of type progress, to
    the open sockets of the admin and to no other: afterwards the sockets
    that were sent it are exactly the open sockets of the admin that are
    still registered, so their number is what getConnectedClientsCount
    returns.  A client is deleted only when sending to it threw; the clients
    of other admins and the sockets that are not open all stay. *)
Theorem sendProgressUpdate_reaches_the_open_sockets_of_the_admin :
  forall (wire : Wire num) (s : Service num) (admin : N) (data : Notice num),
    NoDup (map fst (clients s)) ->
    let s' := sendProgressUpdate wire s admin data in
    exists frames,
      outbox s' = outbox s ++ frames
      /\ (forall clientId frame, In (clientId, frame) frames ->
            f_type frame = "progress" /\ f_data frame = data)
      /\ map fst frames
         = map fst (filter (fun entry => is_connected admin (snd entry)) (clients s'))
      /\ getConnectedClientsCount s' admin = N.of_nat (List.length frames)
      /\ (forall entry, In entry (clients s') -> In entry (clients s))
      /\ (forall entry, In entry (clients s) ->
            is_connected admin (snd entry) = false -> In entry (clients s'))
      /\ NoDup (map fst (clients s')).
Proof.
  intros wire s admin data Hkeys s'.
  destruct (send_loop wire "progress" admin data (clients s) Hkeys s)
    as (frames & dropped & Hout & Hcs & _ & Hconn & Hframes & Hsent).
  cbv zeta in Hout, Hcs. fold (sendProgressUpdate wire s admin data) in Hout, Hcs.
  fold s' in Hout, Hcs.
  assert (Hreached : map fst frames
                     = map fst (filter (fun entry => is_connected admin (snd entry))
                                  (clients s'))).
  { now rewrite Hcs, connected_and_kept. }
  exists frames. split; [exact Hout|].
  split; [intros id frame Hin; destruct (Hframes id frame Hin) as (Ht & Hd & _); now split|].
  split; [exact Hreached|].
  split.
  { rewrite getConnectedClientsCount_length. f_equal.
    rewrite <- (length_map fst frames), Hreached. symmetry. apply length_map. }
  split; [intros entry Hin; rewrite Hcs in Hin; now apply filter_In in Hin|].
  split.
  - intros [id client] Hin Hnot. rewrite Hcs. apply filter_In. split; [exact Hin|].
    cbn [fst snd] in *.
    destruct (existsb (String.eqb id) dropped) eqn:E; [|reflexivity].
    apply existsb_exists in E. destruct E as (id' & Hid' & E).
    apply String.eqb_eq in E. subst id'.
    rewrite (Hconn id Hid' client Hin) in Hnot. discriminate Hnot.
  - rewrite Hcs. now apply kept_clients_distinct.
Qed.

Lemma send_loop_frames (wire : Wire num) (kind : string) (admin : N) (data : Notice num)
    (entries : list (string * Client)) :
  forall s : Service num,
  exists frames,
    outbox (fold_left (send_to wire kind admin data) entries s) = outbox s ++ frames
    /\ (forall clientId frame, In (clientId, frame) frames ->
          f_type frame = kind /\ f_data frame = data).
Proof.
  induction entries as [|[clientId client] entries IH]; intros s.
  - exists []. split; [cbn; now rewrite app_nil_r|]. intros id frame [].
  - cbn [fold_left]. rewrite send_to_step. cbv zeta.
    destruct (is_connected admin client); [|apply IH].
    destruct (send_returns wire clientId _).
    + match goal with
      | |- context [fold_left _ entries ?st] => destruct (IH st) as (frames & Hout & Hframes)
      end.
      cbn [outbox] in Hout. eexists. split; [rewrite Hout, <- app_assoc; reflexivity|].
      intros id frame [E|Hin]; [|now apply (Hframes id)]. injection E as <- <-. now split.
    + match goal with
      | |- context [fold_left _ entries ?st] => destruct (IH st) as (frames & Hout & Hframes)
      end.
      cbn [outbox] in Hout. exists frames. now split.
Qed.

End NoticeTheorems.

Section BulkDownloads.

Context {num : Type} `{JSNumber num}.

Lemma addToArchive_skips (wire : Wire num) (round : num -> num) (admin : N)
    (format : Format) (total : N) (found : list (Certificate num)) (st : Loop num) :
  let st' := fold_left (addToArchive wire round admin format total) found st in
  l_world st' = l_world st /\ l_service st' = l_service st
  /\ l_entries st' = l_entries st /\ l_added st' = l_added st.
Proof.
  revert st. induction found as [|c found IH]; intros st; [now repeat split|].
  cbn [fold_left].
  assert (Hstep : addToArchive wire round admin format total st c = processed_one st).
  { unfold addToArchive, pdfPath, pngPath. now destruct format. }
  rewrite Hstep. apply (IH (processed_one st)).
Qed.

Lemma findForDownload_no_ids (w : World num) (admin : N) :
  findForDownload w [] admin = [].
Proof.
  unfold findForDownload. induction (certificates w) as [|c cs IH]; [reflexivity|].
  cbn [filter existsb andb]. exact IH.
Qed.

(** X25. The bulk download never answers with an archive.  It reads the
    file paths from [pdfPath] and [pngPath], which no certificate has, so it
    adds no file: whenever it finds certificates it answers 404 (no valid
    certificate files found), and an identifier that is no ObjectId makes it
    answer 500.  It counts no download and changes no record; the only
    notices it sends are the one of the start and the one of the error. *)
Theorem bulkDownload_never_sends_an_archive :
  forall (wire : Wire num) (round : num -> num) (w : World num) (service : Service num)
         (req : BulkDownloadRequest),
    let run := bulkDownload wire round w service req in
    let format := match bd_format req with Some f => f | None => "pdf" end in
    fst (fst run) = w
    /\ (exists status message,
          snd run = Answer (Json status false message NoPayload)
          /\ (status = 400 \/ status = 404 \/ status = 500)%N)
    /\ (forall elements ids,
          bd_certificateIds req = Some elements ->
          parse_format format <> None ->
          castIds elements = Ok ids ->
          findForDownload w ids (bd_admin req) <> [] ->
          snd run
          = Answer (Json 404 false "No valid certificate files found for download"
                      NoPayload))
    /\ (forall elements castError,
          bd_certificateIds req = Some elements ->
          parse_format format <> None ->
          castIds elements = Throw castError ->
          snd run = Answer (Json 500 false "Server error during bulk download" NoPayload))
    /\ (exists frames,
          outbox (snd (fst run)) = outbox service ++ frames
          /\ forall clientId frame, In (clientId, frame) frames ->
               f_type frame = "progress"
               /\ (n_operation (f_data frame) = Some "bulk_download"
                   /\ n_status (f_data frame) = Some "started"
                   \/ n_operation (f_data frame) = Some "bulk_download_error")).
Proof.
  intros wire round w service req. cbv zeta. unfold bulkDownload.
  assert (Hquiet : exists frames : list (string * Frame num),
             outbox service = outbox service ++ frames
             /\ forall clientId frame, In (clientId, frame) frames ->
                  f_type frame = "progress"
                  /\ (n_operation (f_data frame) = Some "bulk_download"
                      /\ n_status (f_data frame) = Some "started"
                      \/ n_operation (f_data frame) = Some "bulk_download_error")).
  { exists []. split; [now rewrite app_nil_r|]. intros id frame []. }
  destruct (bd_certificateIds req) as [[|element elements]|].
  - cbn [fst snd]. split; [reflexivity|]. split; [do 2 eexists; split; [reflexivity|now left]|].
    split; [|split; [|exact Hquiet]].
    + intros elements' ids E _ Hcast Hfound. injection E as <-.
      cbn [castIds] in Hcast. injection Hcast as <-.
      destruct Hfound. apply findForDownload_no_ids.
    + intros elements' castError E _ Hcast. injection E as <-. discriminate Hcast.
  - destruct (parse_format _) as [fmt|].
    2: { cbn [fst snd]. split; [reflexivity|].
         split; [do 2 eexists; split; [reflexivity|now left]|].
         split; [intros ? ? _ Hformat; now destruct Hformat|].
         split; [intros ? ? _ Hformat; now destruct Hformat|exact Hquiet]. }
    destruct (castIds (element :: elements)) as [ids|castError] eqn:Hcast.
    2: { cbn [fst snd]. split; [reflexivity|].
         split; [do 2 eexists; split; [reflexivity|now right; right]|].
         split; [intros ? ? E _ Hcast'; injection E as <-; congruence|].
         split; [reflexivity|].
         unfold sendBulkDownloadError, sendProgressUpdate.
         match goal with
         | |- context [fold_left (send_to wire ?kind ?admin ?data) ?l ?st] =>
             destruct (send_loop_frames wire kind admin data l st)
               as (frames & Hout & Hframes)
         end.
         exists frames. split; [exact Hout|].
         intros cid frame Hin. destruct (Hframes cid frame Hin) as (Ht & Hd).
         rewrite Hd. split; [exact Ht|]. now right. }
    destruct (Nat.eqb (List.length (findForDownload w ids (bd_admin req))) 0) eqn:Hlen.
    + cbn [fst snd]. split; [reflexivity|].
      split; [do 2 eexists; split; [reflexivity|now right; left]|].
      split; [|split; [intros ? ? E _ Hcast'; injection E as <-; congruence|exact Hquiet]].
      intros elements' ids' E _ Hcast' Hfound. injection E as <-.
      rewrite Hcast in Hcast'. injection Hcast' as <-.
      destruct (findForDownload w ids (bd_admin req)); [now destruct Hfound|].
      discriminate Hlen.
    + cbv zeta.
      match goal with
      | |- context [fold_left ?f ?l ?st] =>
          destruct (addToArchive_skips wire round (bd_admin req) fmt
                      (N.of_nat (List.length (findForDownload w ids (bd_admin req))))
                      (findForDownload w ids (bd_admin req)) st)
            as (Hw & Hs & _ & Hadded)
      end.
      cbv zeta in Hw, Hs, Hadded. cbn [l_world l_service l_added] in Hw, Hs, Hadded.
      rewrite Hadded. cbn [N.eqb fst snd]. rewrite Hw, Hs.
      split; [reflexivity|]. split; [do 2 eexists; split; [reflexivity|now right; left]|].
      split; [reflexivity|].
      split; [intros ? ? E _ Hcast'; injection E as <-; congruence|].
      cbn [outbox]. unfold sendBulkDownloadProgress, sendProgressUpdate.
      match goal with
      | |- context [fold_left (send_to wire ?kind ?admin ?data) ?l ?st] =>
          destruct (send_loop_frames wire kind admin data l st) as (frames & Hout & Hframes)
      end.
      exists frames. split; [exact Hout|].
      intros cid frame Hin. destruct (Hframes cid frame Hin) as (Ht & Hd).
      rewrite Hd. split; [exact Ht|]. left. now split.
  - cbn [fst snd]. split; [reflexivity|]. split; [do 2 eexists; split; [reflexivity|now left]|].
    split; [discriminate|]. split; [discriminate|exact Hquiet].
Qed.

End BulkDownloads.

Lemma sendProgressUpdate_reaches_the_open_sockets_of_the_admin_witness :
  let s' := sendProgressUpdate (num := float) sample_wire sample_service 1 started_notice in
  NoDup (map fst (clients (sample_service (num := float))))
  /\ exists frames,
       outbox s' = frames
       /\ map fst frames = ["1_1714557600000"]
       /\ getConnectedClientsCount s' 1 = N.of_nat (List.length frames).
Proof.
  assert (Hkeys : NoDup (map fst (clients (sample_service (num := float))))).
  { cbn [map fst clients sample_service].
    repeat constructor; cbn [In]; intuition discriminate. }
  intros s'. split; [exact Hkeys|].
  destruct (sendProgressUpdate_reaches_the_open_sockets_of_the_admin
              sample_wire sample_service 1 started_notice Hkeys)
    as (frames & Hout & _ & Hreached & Hcount & _).
  exists frames. split; [exact Hout|]. split; [|exact Hcount].
  rewrite Hreached. reflexivity.
Defined.

Lemma bulkDownload_never_sends_an_archive_witness :
  let run := bulkDownload (num := float) sample_wire (fun x => x) world_of_two_admins
               sample_service sample_bulk_download in
  let failed := bulkDownload (num := float) sample_wire (fun x => x) world_of_two_admins
                  sample_service malformed_bulk_download in
  List.length (findForDownload (num := float) world_of_two_admins [100%N] 1) = 1%nat
  /\ snd run
     = Answer (Json 404 false "No valid certificate files found for download" NoPayload)
  /\ fst (fst run) = world_of_two_admins
  /\ snd failed = Answer (Json 500 false "Server error during bulk download" NoPayload).
Proof.
  intros run failed. split; [reflexivity|].
  destruct (bulkDownload_never_sends_an_archive sample_wire (fun x => x)
              world_of_two_admins sample_service sample_bulk_download)
    as (Hworld & _ & Hanswer & _).
  destruct (bulkDownload_never_sends_an_archive sample_wire (fun x => x)
              world_of_two_admins sample_service malformed_bulk_download)
    as (_ & _ & _ & Hfailed & _).
  split; [|split; [exact Hworld|]].
  - apply (Hanswer [Ok 100%N] [100%N]); [reflexivity|discriminate|reflexivity|].
    intros E. apply (f_equal (@List.length _)) in E. discriminate E.
  - apply (Hfailed [Ok 100%N; Throw "Cast to ObjectId failed"] "Cast to ObjectId failed");
      [reflexivity|discriminate|reflexivity].
Defined.
